(** * Kafka IoT producer: sensor simulator, anomaly classifier, Kafka manager

    A shallow embedding of the Python sources

      - [models/__init__.py]            (pydantic models),
      - [services/sensor_simulator.py]  (class [SensorSimulator]),
      - [services/kafka_service.py]     (class [KafkaManager]),
      - [api/sensors.py]                (endpoint [trigger_sensors]),

    and the properties of the design document that concern them.

    Modelling conventions.

      - A Python [float] is a rational number ([Q]).  [round(x, 2)] is
        rounding of the exact value to the nearest hundredth, ties to even.
        Comparisons are the exact ones.  NaN and infinities do not occur.
      - A Python [int] is a [Z]; a [str] is a [string]; a [dict] with literal
        keys that is only read is a record, the payload dictionaries handed to
        the producer are association lists in field order, and the mutable
        [statistics] dictionary is a [gmap string Z].
      - Everything outside the process is an oracle indexed by the number of
        calls made so far: the random source, the wall clock, the outcome of
        the Kafka client calls.  The mutable part (the call counters and the
        log of what was sent) lives in the [World], next to the two service
        objects and the statistics dictionary.
      - A method is a computation [M A := World -> result A * World]: it
        returns a value or raises, and its effects on the world persist in
        both cases, as in Python.  Only subclasses of [Exception] are
        modelled.  Calls to [logger] have no effect on the modelled state
        and are left out. *)

From Stdlib Require Import QArith Qround ZArith List String Ascii Bool Lia Lqa DecimalString.
From stdpp Require Import base gmap strings.
Import ListNotations.

Open Scope Q_scope.
Open Scope string_scope.

(* ===================================================================== *)
(** * Python values, exceptions, built-ins *)
(* ===================================================================== *)

Module Py.

(** An exception object: its class ([cls] is the qualified name that
    [str(type(e))] prints), whether the class derives from
    [kafka.errors.KafkaError], and [str(e)].  FastAPI's [HTTPException]
    carries a status code and a detail. *)
Inductive PyExc : Type :=
| Exception (cls : string) (kafka_error : bool) (msg : string)
| HTTPException (status_code : Z) (detail : string).

Definition exc_class (e : PyExc) : string :=
  match e with
  | Exception cls _ _ => cls
  | HTTPException _ _ => "fastapi.exceptions.HTTPException"
  end.

(** [str(e)] *)
Definition exc_str (e : PyExc) : string :=
  match e with
  | Exception _ _ msg => msg
  | HTTPException _ detail => detail
  end.

(** [str(type(e))] *)
Definition type_str (e : PyExc) : string :=
  "<class '" ++ exc_class e ++ "'>".

(** [isinstance(e, KafkaError)] *)
Definition is_KafkaError (e : PyExc) : bool :=
  match e with
  | Exception _ k _ => k
  | HTTPException _ _ => false
  end.

(** [c in s] for a character *)
Fixpoint str_has (c : ascii) (s : string) : bool :=
  match s with
  | EmptyString => false
  | String c' rest => Ascii.eqb c' c || str_has c rest
  end.

Definition double_quote : ascii := ascii_of_nat 34.
Definition backslash : ascii := ascii_of_nat 92.

Definition hex_digit (n : nat) : ascii :=
  if Nat.ltb n 10 then ascii_of_nat (48 + n) else ascii_of_nat (87 + n).

(** One character of [repr(s)] inside the quotes [quote]: the quote and
    the backslash are escaped, tab, newline and carriage return have their
    letter, and the characters that are not printable (the control
    characters, the no-break space and the soft hyphen) are written
    [\xhh]. *)
Definition repr_char (quote c : ascii) : string :=
  let n := nat_of_ascii c in
  if Ascii.eqb c quote || Ascii.eqb c backslash then String backslash (String c "")
  else if Nat.eqb n 9 then String backslash "t"
  else if Nat.eqb n 10 then String backslash "n"
  else if Nat.eqb n 13 then String backslash "r"
  else if Nat.ltb n 32 || Nat.eqb n 127 || (Nat.leb 128 n && Nat.leb n 160)
          || Nat.eqb n 173
       then String backslash
              (String "x" (String (hex_digit (Nat.div n 16))
                             (String (hex_digit (Nat.modulo n 16)) "")))
  else String c "".

Fixpoint repr_body (quote : ascii) (s : string) : string :=
  match s with
  | EmptyString => ""
  | String c rest => repr_char quote c ++ repr_body quote rest
  end.

(** [repr(s)] for a [str] whose characters are the code points 0 to 255:
    single quotes around the escaped text, double quotes when the text has
    a single quote and no double quote. *)
Definition py_repr (s : string) : string :=
  let quote := if str_has "'" s && negb (str_has double_quote s)
               then double_quote else "'"%char in
  String quote (repr_body quote s ++ String quote "").

Definition AttributeError (msg : string) : PyExc := Exception "AttributeError" false msg.

(** The [KeyError] a failed lookup [d[key]] raises: [str(e)] is
    [repr(key)], with its quotes. *)
Definition KeyError (key : string) : PyExc := Exception "KeyError" false (py_repr key).
Definition ValidationError (msg : string) : PyExc :=
  Exception "pydantic.error_wrappers.ValidationError" false msg.

(** [needle in hay] on strings *)
Fixpoint str_contains (needle hay : string) : bool :=
  String.prefix needle hay ||
  match hay with
  | EmptyString => false
  | String _ rest => str_contains needle rest
  end.

(** [str(n)] for an [int] *)
Definition str_int (n : Z) : string := NilZero.string_of_int (Z.to_int n).

Fixpoint zeros (n : nat) : string :=
  match n with
  | O => ""
  | S k => String "0" (zeros k)
  end.

(** [format(n, "03d")]: zero padding after the sign, to width 3 *)
Definition format_03d (n : Z) : string :=
  if (n <? 0)%Z then
    let digits := str_int (Z.abs n) in
    "-" ++ zeros (2 - String.length digits) ++ digits
  else
    let digits := str_int n in
    zeros (3 - String.length digits) ++ digits.

(** Values stored in the dictionaries that cross the Kafka boundary. *)
Inductive PyVal : Type :=
| VStr (s : string)
| VInt (n : Z)
| VFloat (x : Q).

(** A dictionary in insertion order. *)
Definition PyDict : Type := list (string * PyVal).

Fixpoint dict_lookup (d : PyDict) (key : string) : option PyVal :=
  match d with
  | [] => None
  | (k, v) :: rest => if String.eqb k key then Some v else dict_lookup rest key
  end.

(** [d.get(key, default)] *)
Definition dict_get (d : PyDict) (key : string) (default : PyVal) : PyVal :=
  match dict_lookup d key with
  | Some v => v
  | None => default
  end.

(** ** Floats *)

Definition Qlt_bool (a b : Q) : bool := negb (Qle_bool b a).

(** [min(a, b)] and [max(a, b)]: the first argument wins a tie. *)
Definition py_min (a b : Q) : Q := if Qlt_bool b a then b else a.
Definition py_max (a b : Q) : Q := if Qlt_bool a b then b else a.

(** Nearest integer, ties to even. *)
Definition round_half_even (x : Q) : Z :=
  let f := Qfloor x in
  match Qcompare (x - inject_Z f) (1 # 2) with
  | Lt => f
  | Gt => (f + 1)%Z
  | Eq => if Z.even f then f else (f + 1)%Z
  end.

(** [round(x, 2)] *)
Definition round2 (x : Q) : Q := round_half_even (x * 100) # 100.

End Py.
Export Py.

(* ===================================================================== *)
(** * models/__init__.py *)
(* ===================================================================== *)

Module Models.

Record SensorData : Type := {
  sensor_id : string;
  timestamp : string;
  temperature : Q;
  humidity : Q;
  pressure : Q;
  battery_level : Q
}.

Record SensorAlert : Type := {
  alert_id : string;
  alert_sensor_id : string;
  alert_type : string;
  severity : string;
  value : Q;
  threshold : Q;
  message : string;
  alert_timestamp : string
}.

Record TriggerResponse : Type := {
  status : string;
  sensors_triggered : Z;
  events_published : Z;
  topic : string;
  response_timestamp : string;
  response_message : string
}.

(** [Field(ge=lo, le=hi)] *)
Definition field_ge_le (lo hi x : Q) : bool := Qle_bool lo x && Qle_bool x hi.

(** The constraints pydantic checks when a [SensorData] is built:
    [temperature] in [15, 35], [humidity] in [20, 95], [battery_level] in
    [0, 1]; [pressure] carries none. *)
Definition SensorData_valid (d : SensorData) : bool :=
  field_ge_le 15 35 (temperature d) &&
  field_ge_le 20 95 (humidity d) &&
  field_ge_le 0 1 (battery_level d).

(** [sensor_data.dict()] *)
Definition SensorData_dict (d : SensorData) : PyDict :=
  [ ("sensor_id", VStr (sensor_id d));
    ("timestamp", VStr (timestamp d));
    ("temperature", VFloat (temperature d));
    ("humidity", VFloat (humidity d));
    ("pressure", VFloat (pressure d));
    ("battery_level", VFloat (battery_level d)) ].

(** [alert.dict()] *)
Definition SensorAlert_dict (a : SensorAlert) : PyDict :=
  [ ("alert_id", VStr (alert_id a));
    ("sensor_id", VStr (alert_sensor_id a));
    ("alert_type", VStr (alert_type a));
    ("severity", VStr (severity a));
    ("value", VFloat (value a));
    ("threshold", VFloat (threshold a));
    ("message", VStr (message a));
    ("timestamp", VStr (alert_timestamp a)) ].

End Models.
Export Models.

(* ===================================================================== *)
(** * The objects of the process and the world around it *)
(* ===================================================================== *)

Module Runtime.

(** ** [SensorSimulator] instance attributes *)

(** [{"mean": _, "std": _, "min": _, "max": _}] *)
Record GaussRange : Type := {
  nr_mean : Q;
  nr_std : Q;
  nr_min : Q;
  nr_max : Q
}.

(** [{"min": _, "max": _}] *)
Record UniformRange : Type := {
  ur_min : Q;
  ur_max : Q
}.

Record NormalRanges : Type := {
  nr_temperature : GaussRange;
  nr_humidity : GaussRange;
  nr_pressure : GaussRange;
  nr_battery : UniformRange
}.

(** [{"low": _, "high": _, "critical": _}] *)
Record LowHighCritical : Type := {
  lhc_low : Q;
  lhc_high : Q;
  lhc_critical : Q
}.

(** [{"low": _, "high": _}] *)
Record LowHigh : Type := {
  lh_low : Q;
  lh_high : Q
}.

(** [{"low": _, "critical": _}] *)
Record LowCritical : Type := {
  lc_low : Q;
  lc_critical : Q
}.

Record AlertThresholds : Type := {
  at_temperature : LowHighCritical;
  at_humidity : LowHighCritical;
  at_pressure : LowHigh;
  at_battery : LowCritical
}.

Record SensorSimulator : Type := {
  event_counter : Z;
  normal_ranges : NormalRanges;
  alert_thresholds : AlertThresholds
}.

(** ** [KafkaManager] instance attributes *)

(** What a client object was opened with. *)
Record AdminHandle : Type := {
  admin_bootstrap_servers : list string;
  admin_client_id : string
}.

Record ProducerHandle : Type := {
  producer_bootstrap_servers : list string;
  producer_client_id : string
}.

Record KafkaManager : Type := {
  bootstrap_servers : list string;
  client_id : string;
  producer : option ProducerHandle;
  admin_client : option AdminHandle;
  is_connected : bool
}.

(** ** The Kafka client library and the cluster behind it *)

(** [NewTopic(name=, num_partitions=, replication_factor=)] *)
Record NewTopic : Type := {
  topic_name : PyVal;
  num_partitions : PyVal;
  replication_factor : PyVal
}.

(** What [producer.send(topic, value=message)] followed by
    [future.get(timeout=10)] does: [send] raises (a serialization error,
    say), or the wait on the future raises (broker error, timeout), or the
    record metadata comes back. *)
Inductive SendOutcome : Type :=
| SendRaises (e : PyExc)
| FutureRaises (e : PyExc)
| Delivered (partition offset : Z).

(** The calls made on the client objects, oldest first. *)
Inductive KafkaCall : Type :=
| CallCreateTopics (new_topics : list NewTopic)
| CallSend (topic : string) (message : PyDict)
| CallFlush.

(** The oracles answer the call that comes after [n] earlier ones. *)
Record Cluster : Type := {
  open_admin : list string -> string -> option PyExc;
  open_producer : list string -> string -> option PyExc;
  create_topics_outcome : nat -> list NewTopic -> option PyExc;
  send_outcome : nat -> string -> PyDict -> SendOutcome;
  flush_outcome : nat -> option PyExc;
  calls : list KafkaCall
}.

(** ** Random source and clock *)

(** [gauss_value n] is the standard normal deviate behind the call of
    [random.gauss] that comes after [n] earlier ones, [random_value n] the
    result of the matching call of [random.random()]. *)
Record Random : Type := {
  gauss_value : nat -> Q;
  random_value : nat -> Q;
  gauss_calls : nat;
  random_calls : nat
}.

(** One reading of [datetime.utcnow()]: its [isoformat()] and its
    [int(timestamp())]. *)
Record Instant : Type := {
  isoformat : string;
  epoch_seconds : Z
}.

Record Clock : Type := {
  utcnow_value : nat -> Instant;
  utcnow_calls : nat
}.

(** How the interpreter prints a float: [str(x)] (as in an f-string
    [{x}]) and [format(x, ".0f")]. *)
Record FloatFormat : Type := {
  float_str : Q -> string;
  float_0f : Q -> string
}.

(** ** The world *)

Record World : Type := {
  simulator : SensorSimulator;
  kafka_manager : KafkaManager;
  statistics : gmap string Z;
  cluster : Cluster;
  random : Random;
  clock : Clock;
  floats : FloatFormat
}.

Definition set_simulator (s : SensorSimulator) (w : World) : World :=
  {| simulator := s; kafka_manager := kafka_manager w; statistics := statistics w;
     cluster := cluster w; random := random w; clock := clock w; floats := floats w |}.

Definition set_kafka_manager (k : KafkaManager) (w : World) : World :=
  {| simulator := simulator w; kafka_manager := k; statistics := statistics w;
     cluster := cluster w; random := random w; clock := clock w; floats := floats w |}.

Definition set_statistics (s : gmap string Z) (w : World) : World :=
  {| simulator := simulator w; kafka_manager := kafka_manager w; statistics := s;
     cluster := cluster w; random := random w; clock := clock w; floats := floats w |}.

Definition set_cluster (c : Cluster) (w : World) : World :=
  {| simulator := simulator w; kafka_manager := kafka_manager w; statistics := statistics w;
     cluster := c; random := random w; clock := clock w; floats := floats w |}.

Definition set_random (r : Random) (w : World) : World :=
  {| simulator := simulator w; kafka_manager := kafka_manager w; statistics := statistics w;
     cluster := cluster w; random := r; clock := clock w; floats := floats w |}.

Definition set_clock (c : Clock) (w : World) : World :=
  {| simulator := simulator w; kafka_manager := kafka_manager w; statistics := statistics w;
     cluster := cluster w; random := random w; clock := c; floats := floats w |}.

(** ** Computations *)

Inductive result (A : Type) : Type :=
| Ok (a : A)
| Raise (e : PyExc).
Arguments Ok {A} a.
Arguments Raise {A} e.

Definition M (A : Type) : Type := World -> result A * World.

#[global] Instance M_ret : MRet M := fun A (a : A) w => (Ok a, w).

#[global] Instance M_bind : MBind M := fun A B (k : A -> M B) (m : M A) w =>
  match m w with
  | (Ok a, w') => k a w'
  | (Raise e, w') => (Raise e, w')
  end.

Definition raise {A : Type} (e : PyExc) : M A := fun w => (Raise e, w).

(** [try: body  except Exception as e: handler e] *)
Definition try_except {A : Type} (body : M A) (handler : PyExc -> M A) : M A :=
  fun w =>
    match body w with
    | (Ok a, w') => (Ok a, w')
    | (Raise e, w') => handler e w'
    end.

Definition gets {A : Type} (f : World -> A) : M A := fun w => (Ok (f w), w).

Definition modify (f : World -> World) : M unit := fun w => (Ok tt, f w).

(** [for x in xs: body x] *)
Fixpoint for_each {A : Type} (xs : list A) (body : A -> M unit) : M unit :=
  match xs with
  | [] => mret tt
  | x :: rest => body x ;; for_each rest body
  end.

(** ** Effects of the standard library *)

(** [random.gauss(mu, sigma)] *)
Definition random_gauss (mu sigma : Q) : M Q :=
  fun w =>
    let r := random w in
    let z := gauss_value r (gauss_calls r) in
    (Ok (mu + z * sigma),
     set_random {| gauss_value := gauss_value r; random_value := random_value r;
                   gauss_calls := S (gauss_calls r); random_calls := random_calls r |} w).

(** [random.uniform(a, b)], that is [a + (b - a) * random()] *)
Definition random_uniform (a b : Q) : M Q :=
  fun w =>
    let r := random w in
    let u := random_value r (random_calls r) in
    (Ok (a + (b - a) * u),
     set_random {| gauss_value := gauss_value r; random_value := random_value r;
                   gauss_calls := gauss_calls r; random_calls := S (random_calls r) |} w).

(** [datetime.utcnow()] *)
Definition utcnow : M Instant :=
  fun w =>
    let c := clock w in
    (Ok (utcnow_value c (utcnow_calls c)),
     set_clock {| utcnow_value := utcnow_value c; utcnow_calls := S (utcnow_calls c) |} w).

End Runtime.
Export Runtime.

(* ===================================================================== *)
(** * services/sensor_simulator.py *)
(* ===================================================================== *)

Module Simulator.

(** [SensorSimulator.__init__] *)
Definition init : SensorSimulator :=
  {| event_counter := 0;
     normal_ranges :=
       {| nr_temperature := {| nr_mean := 22.0; nr_std := 2.0; nr_min := 15.0; nr_max := 35.0 |};
          nr_humidity := {| nr_mean := 55.0; nr_std := 8.0; nr_min := 20.0; nr_max := 95.0 |};
          nr_pressure := {| nr_mean := 1013.25; nr_std := 5.0; nr_min := 980.0; nr_max := 1040.0 |};
          nr_battery := {| ur_min := 0.3; ur_max := 1.0 |} |};
     alert_thresholds :=
       {| at_temperature := {| lhc_low := 18.0; lhc_high := 26.0; lhc_critical := 30.0 |};
          at_humidity := {| lhc_low := 30.0; lhc_high := 80.0; lhc_critical := 90.0 |};
          at_pressure := {| lh_low := 1000.0; lh_high := 1025.0 |};
          at_battery := {| lc_low := 0.2; lc_critical := 0.1 |} |} |}.

(** [SensorData(...)]: pydantic validates the fields and raises
    [ValidationError] when a constraint fails. *)
Definition new_SensorData (sensor_id timestamp : string)
    (temperature humidity pressure battery_level : Q) : M SensorData :=
  let d := {| sensor_id := sensor_id; timestamp := timestamp;
              temperature := temperature; humidity := humidity;
              pressure := pressure; battery_level := battery_level |} in
  if SensorData_valid d then mret d
  else raise (ValidationError "validation error for SensorData").

(** [self.event_counter += 1] *)
Definition increment_event_counter : M unit :=
  modify (fun w =>
    let self := simulator w in
    set_simulator {| event_counter := event_counter self + 1;
                     normal_ranges := normal_ranges self;
                     alert_thresholds := alert_thresholds self |} w).

(** [SensorSimulator.generate_sensor_data] *)
Definition generate_sensor_data (sensor_id : string) : M SensorData :=
  self ← gets simulator;
  let temp_config := nr_temperature (normal_ranges self) in
  temperature ← random_gauss (nr_mean temp_config) (nr_std temp_config);
  let temperature := py_max (nr_min temp_config) (py_min (nr_max temp_config) temperature) in
  let temperature := round2 temperature in
  let humid_config := nr_humidity (normal_ranges self) in
  let humidity_adjustment := (temperature - nr_mean temp_config) * -2 in
  humidity ← random_gauss (nr_mean humid_config + humidity_adjustment) (nr_std humid_config);
  let humidity := py_max (nr_min humid_config) (py_min (nr_max humid_config) humidity) in
  let humidity := round2 humidity in
  let pressure_config := nr_pressure (normal_ranges self) in
  pressure ← random_gauss (nr_mean pressure_config) (nr_std pressure_config);
  let pressure := py_max (nr_min pressure_config) (py_min (nr_max pressure_config) pressure) in
  let pressure := round2 pressure in
  let battery_config := nr_battery (normal_ranges self) in
  battery_level ← random_uniform (ur_min battery_config) (ur_max battery_config);
  let battery_level := round2 battery_level in
  increment_event_counter;;
  now ← utcnow;
  new_SensorData sensor_id (isoformat now ++ "Z") temperature humidity pressure battery_level.

(** [SensorSimulator.generate_custom_sensor_data]; an omitted optional
    argument is [None]. *)
Definition generate_custom_sensor_data (sensor_id : string) (temperature humidity : Q)
    (pressure battery_level : option Q) : M SensorData :=
  self ← gets simulator;
  pressure ←
    match pressure with
    | None =>
        let pressure_config := nr_pressure (normal_ranges self) in
        x ← random_gauss (nr_mean pressure_config) (nr_std pressure_config);
        mret (round2 x)
    | Some p => mret p
    end;
  battery_level ←
    match battery_level with
    | None =>
        let battery_config := nr_battery (normal_ranges self) in
        x ← random_uniform (ur_min battery_config) (ur_max battery_config);
        mret (round2 x)
    | Some b => mret b
    end;
  now ← utcnow;
  new_SensorData sensor_id (isoformat now ++ "Z") temperature humidity pressure battery_level.

(** [range(lo, hi)] *)
Definition py_range (lo hi : Z) : list Z :=
  map (fun k => (lo + Z.of_nat k)%Z) (seq 0 (Z.to_nat (hi - lo))).

Fixpoint generate_batch_loop (indices : list Z) (batch : list SensorData)
    : M (list SensorData) :=
  match indices with
  | [] => mret batch
  | i :: rest =>
      let sensor_id := "sensor_" ++ format_03d i in
      data ← generate_sensor_data sensor_id;
      generate_batch_loop rest (batch ++ [data])%list
  end.

(** [SensorSimulator.generate_batch] *)
Definition generate_batch (count : Z) : M (list SensorData) :=
  generate_batch_loop (py_range 1 (count + 1)) [].

(** [SensorSimulator._create_alert] *)
Definition _create_alert (sensor_data : SensorData) (alert_type severity : string)
    (value threshold : Q) (message : string) : M SensorAlert :=
  self ← gets simulator;
  now ← utcnow;
  let alert_id :=
    "alert_" ++ str_int (event_counter self) ++ "_" ++ alert_type ++ "_"
             ++ str_int (epoch_seconds now) in
  now' ← utcnow;
  mret {| alert_id := alert_id;
          alert_sensor_id := sensor_id sensor_data;
          alert_type := alert_type;
          severity := severity;
          value := value;
          threshold := threshold;
          message := message;
          alert_timestamp := isoformat now' ++ "Z" |}.

(** [SensorSimulator._check_temperature_alerts] *)
Definition _check_temperature_alerts (sensor_data : SensorData) : M (list SensorAlert) :=
  self ← gets simulator;
  fmt ← gets floats;
  let temp := temperature sensor_data in
  let thresholds := at_temperature (alert_thresholds self) in
  if Qle_bool (lhc_critical thresholds) temp then
    a ← _create_alert sensor_data "temperature" "critical" temp (lhc_critical thresholds)
          ("Température critique: " ++ float_str fmt temp ++ "°C (seuil: "
             ++ float_str fmt (lhc_critical thresholds) ++ "°C)");
    mret [a]
  else if Qle_bool (lhc_high thresholds) temp then
    a ← _create_alert sensor_data "temperature" "high" temp (lhc_high thresholds)
          ("Température élevée: " ++ float_str fmt temp ++ "°C (seuil: "
             ++ float_str fmt (lhc_high thresholds) ++ "°C)");
    mret [a]
  else if Qle_bool temp (lhc_low thresholds) then
    a ← _create_alert sensor_data "temperature" "low" temp (lhc_low thresholds)
          ("Température basse: " ++ float_str fmt temp ++ "°C (seuil: "
             ++ float_str fmt (lhc_low thresholds) ++ "°C)");
    mret [a]
  else mret [].

(** [SensorSimulator._check_humidity_alerts] *)
Definition _check_humidity_alerts (sensor_data : SensorData) : M (list SensorAlert) :=
  self ← gets simulator;
  fmt ← gets floats;
  let humidity := humidity sensor_data in
  let thresholds := at_humidity (alert_thresholds self) in
  if Qle_bool (lhc_critical thresholds) humidity then
    a ← _create_alert sensor_data "humidity" "critical" humidity (lhc_critical thresholds)
          ("Humidité critique: " ++ float_str fmt humidity ++ "% (seuil: "
             ++ float_str fmt (lhc_critical thresholds) ++ "%)");
    mret [a]
  else if Qle_bool (lhc_high thresholds) humidity then
    a ← _create_alert sensor_data "humidity" "high" humidity (lhc_high thresholds)
          ("Humidité élevée: " ++ float_str fmt humidity ++ "% (seuil: "
             ++ float_str fmt (lhc_high thresholds) ++ "%)");
    mret [a]
  else if Qle_bool humidity (lhc_low thresholds) then
    a ← _create_alert sensor_data "humidity" "low" humidity (lhc_low thresholds)
          ("Humidité basse: " ++ float_str fmt humidity ++ "% (seuil: "
             ++ float_str fmt (lhc_low thresholds) ++ "%)");
    mret [a]
  else mret [].

(** [SensorSimulator._check_pressure_alerts] *)
Definition _check_pressure_alerts (sensor_data : SensorData) : M (list SensorAlert) :=
  self ← gets simulator;
  fmt ← gets floats;
  let pressure := pressure sensor_data in
  let thresholds := at_pressure (alert_thresholds self) in
  if Qle_bool (lh_high thresholds) pressure then
    a ← _create_alert sensor_data "pressure" "medium" pressure (lh_high thresholds)
          ("Pression élevée: " ++ float_str fmt pressure ++ " hPa (seuil: "
             ++ float_str fmt (lh_high thresholds) ++ " hPa)");
    mret [a]
  else if Qle_bool pressure (lh_low thresholds) then
    a ← _create_alert sensor_data "pressure" "medium" pressure (lh_low thresholds)
          ("Pression basse: " ++ float_str fmt pressure ++ " hPa (seuil: "
             ++ float_str fmt (lh_low thresholds) ++ " hPa)");
    mret [a]
  else mret [].

(** [SensorSimulator._check_battery_alerts] *)
Definition _check_battery_alerts (sensor_data : SensorData) : M (list SensorAlert) :=
  self ← gets simulator;
  fmt ← gets floats;
  let battery := battery_level sensor_data in
  let thresholds := at_battery (alert_thresholds self) in
  if Qle_bool battery (lc_critical thresholds) then
    a ← _create_alert sensor_data "battery" "critical" battery (lc_critical thresholds)
          ("Batterie critique: " ++ float_0f fmt (battery * 100) ++ "% (seuil: "
             ++ float_0f fmt (lc_critical thresholds * 100) ++ "%)");
    mret [a]
  else if Qle_bool battery (lc_low thresholds) then
    a ← _create_alert sensor_data "battery" "medium" battery (lc_low thresholds)
          ("Batterie faible: " ++ float_0f fmt (battery * 100) ++ "% (seuil: "
             ++ float_0f fmt (lc_low thresholds * 100) ++ "%)");
    mret [a]
  else mret [].

(** [SensorSimulator.detect_anomalies] *)
Definition detect_anomalies (sensor_data : SensorData) : M (list SensorAlert) :=
  let alerts : list SensorAlert := [] in
  temp_alerts ← _check_temperature_alerts sensor_data;
  let alerts := (alerts ++ temp_alerts)%list in
  humidity_alerts ← _check_humidity_alerts sensor_data;
  let alerts := (alerts ++ humidity_alerts)%list in
  pressure_alerts ← _check_pressure_alerts sensor_data;
  let alerts := (alerts ++ pressure_alerts)%list in
  battery_alerts ← _check_battery_alerts sensor_data;
  let alerts := (alerts ++ battery_alerts)%list in
  mret alerts.

End Simulator.
Export Simulator.

(* ===================================================================== *)
(** * services/kafka_service.py *)
(* ===================================================================== *)

Module KafkaService.

(** [KafkaManager.__init__] *)
Definition init (bootstrap_servers : list string) (client_id : string) : KafkaManager :=
  {| bootstrap_servers := bootstrap_servers;
     client_id := client_id;
     producer := None;
     admin_client := None;
     is_connected := false |}.

(** The names that resolve on a [KafkaManager] instance: the attributes
    [__init__] assigns and the methods the class defines. *)
Definition KafkaManager_attributes : list string :=
  [ "bootstrap_servers"; "client_id"; "producer"; "admin_client"; "is_connected";
    "__init__"; "initialize"; "ensure_topics_exist"; "publish_message";
    "publish_batch"; "get_connection_status"; "close" ].

(** Looking up [self.<name>]: [AttributeError] when the name does not
    resolve. *)
Definition self_getattr (name : string) : M unit :=
  if existsb (String.eqb name) KafkaManager_attributes then mret tt
  else raise (AttributeError ("'KafkaManager' object has no attribute '" ++ name ++ "'")).

Definition set_admin_client (a : option AdminHandle) : M unit :=
  modify (fun w =>
    let self := kafka_manager w in
    set_kafka_manager {| bootstrap_servers := bootstrap_servers self;
                         client_id := client_id self;
                         producer := producer self;
                         admin_client := a;
                         is_connected := is_connected self |} w).

Definition set_producer (p : option ProducerHandle) : M unit :=
  modify (fun w =>
    let self := kafka_manager w in
    set_kafka_manager {| bootstrap_servers := bootstrap_servers self;
                         client_id := client_id self;
                         producer := p;
                         admin_client := admin_client self;
                         is_connected := is_connected self |} w).

Definition set_is_connected (b : bool) : M unit :=
  modify (fun w =>
    let self := kafka_manager w in
    set_kafka_manager {| bootstrap_servers := bootstrap_servers self;
                         client_id := client_id self;
                         producer := producer self;
                         admin_client := admin_client self;
                         is_connected := b |} w).

(** ** The client library *)

(** [KafkaAdminClient(bootstrap_servers=, client_id=)] *)
Definition KafkaAdminClient (servers : list string) (cid : string) : M AdminHandle :=
  fun w =>
    match open_admin (cluster w) servers cid with
    | Some e => (Raise e, w)
    | None => (Ok {| admin_bootstrap_servers := servers; admin_client_id := cid |}, w)
    end.

(** [KafkaProducer(bootstrap_servers=, client_id=, value_serializer=,
    acks='all', retries=3, linger_ms=10, compression_type='gzip')] *)
Definition KafkaProducer (servers : list string) (cid : string) : M ProducerHandle :=
  fun w =>
    match open_producer (cluster w) servers cid with
    | Some e => (Raise e, w)
    | None => (Ok {| producer_bootstrap_servers := servers; producer_client_id := cid |}, w)
    end.

Definition log_call (call : KafkaCall) (c : Cluster) : Cluster :=
  {| open_admin := open_admin c;
     open_producer := open_producer c;
     create_topics_outcome := create_topics_outcome c;
     send_outcome := send_outcome c;
     flush_outcome := flush_outcome c;
     calls := (calls c ++ [call])%list |}.

(** The exception of the client library for a topic that exists already:
    the broker answers with error 36, which the library raises as
    [kafka.errors.TopicAlreadyExistsError], a [KafkaError]. *)
Definition TopicAlreadyExistsError (msg : string) : PyExc :=
  Exception "kafka.errors.TopicAlreadyExistsError" true msg.

(** [admin_client.create_topics(new_topics=topics, validate_only=False)] *)
Definition create_topics (topics : list NewTopic) : M unit :=
  fun w =>
    let c := cluster w in
    let w' := set_cluster (log_call (CallCreateTopics topics) c) w in
    match create_topics_outcome c (length (calls c)) topics with
    | Some e => (Raise e, w')
    | None => (Ok tt, w')
    end.

(** The future [producer.send] returns. *)
Inductive Future : Type :=
| FutureFailed (e : PyExc)
| FutureDone (partition offset : Z).

(** [producer.send(topic, value=message)] *)
Definition producer_send (topic : string) (message : PyDict) : M Future :=
  fun w =>
    let c := cluster w in
    let w' := set_cluster (log_call (CallSend topic message) c) w in
    match send_outcome c (length (calls c)) topic message with
    | SendRaises e => (Raise e, w')
    | FutureRaises e => (Ok (FutureFailed e), w')
    | Delivered partition offset => (Ok (FutureDone partition offset), w')
    end.

(** [future.get(timeout=10)]: the record metadata (partition, offset) *)
Definition future_get (future : Future) : M (Z * Z) :=
  match future with
  | FutureFailed e => raise e
  | FutureDone partition offset => mret (partition, offset)
  end.

(** [producer.flush()] *)
Definition producer_flush : M unit :=
  fun w =>
    let c := cluster w in
    let w' := set_cluster (log_call CallFlush c) w in
    match flush_outcome c (length (calls c)) with
    | Some e => (Raise e, w')
    | None => (Ok tt, w')
    end.

(** ** [KafkaManager] methods *)

(** [KafkaManager.initialize].  The result is [Some b] for [return b] and
    [None] when the body falls off its end. *)
Definition initialize : M (option bool) :=
  try_except
    (self ← gets kafka_manager;
     admin ← KafkaAdminClient (bootstrap_servers self) (client_id self ++ "_admin");
     set_admin_client (Some admin);;
     self ← gets kafka_manager;
     p ← KafkaProducer (bootstrap_servers self) (client_id self);
     set_producer (Some p);;
     set_is_connected true;;
     self_getattr "_ensure_topics_exist";;
     mret None)
    (fun e =>
       set_is_connected false;;
       mret (Some false)).

(** [config["name"]] *)
Definition dict_getitem (d : PyDict) (key : string) : M PyVal :=
  match dict_lookup d key with
  | Some v => mret v
  | None => raise (KeyError key)
  end.

Fixpoint new_topics_loop (topics_config : list PyDict) (topics : list NewTopic)
    : M (list NewTopic) :=
  match topics_config with
  | [] => mret topics
  | config :: rest =>
      name ← dict_getitem config "name";
      let topic := {| topic_name := name;
                      num_partitions := dict_get config "partitions" (VInt 1);
                      replication_factor := dict_get config "replication" (VInt 1) |} in
      new_topics_loop rest (topics ++ [topic])%list
  end.

(** [KafkaManager.ensure_topics_exist] *)
Definition ensure_topics_exist (topics_config : list PyDict) : M bool :=
  self ← gets kafka_manager;
  match admin_client self with
  | None => mret false
  | Some _ =>
      try_except
        (topics ← new_topics_loop topics_config [];
         create_topics topics;;
         mret true)
        (fun e =>
           if str_contains "TopicAlreadyExistsException" (type_str e) then mret true
           else mret false)
  end.

(** [not self.is_connected or not self.producer] *)
Definition not_connected (self : KafkaManager) : bool :=
  negb (is_connected self) ||
  match producer self with
  | None => true
  | Some _ => false
  end.

(** [KafkaManager.publish_message] *)
Definition publish_message (topic : string) (message : PyDict) : M bool :=
  self ← gets kafka_manager;
  if not_connected self then mret false
  else
    try_except
      (future ← producer_send topic message;
       record_metadata ← future_get future;
       mret true)
      (fun e =>
         if is_KafkaError e then mret false
         else mret false).

Fixpoint publish_batch_loop (topic : string) (messages : list PyDict) (published_count : Z)
    : M Z :=
  match messages with
  | [] => mret published_count
  | message :: rest =>
      ok ← publish_message topic message;
      if (ok : bool) then publish_batch_loop topic rest (published_count + 1)%Z
      else publish_batch_loop topic rest published_count
  end.

(** [KafkaManager.publish_batch] *)
Definition publish_batch (topic : string) (messages : list PyDict) : M Z :=
  self ← gets kafka_manager;
  if not_connected self then mret 0%Z
  else
    published_count ← publish_batch_loop topic messages 0%Z;
    producer_flush;;
    mret published_count.

End KafkaService.
Export KafkaService.

(* ===================================================================== *)
(** * api/sensors.py *)
(* ===================================================================== *)

Module SensorsApi.

Definition SENSOR_TOPIC : string := "sensors".
Definition ALERT_TOPIC : string := "alerts".

(** [statistics[key] += n] *)
Definition statistics_iadd (key : string) (n : Z) : M unit :=
  fun w =>
    match statistics w !! key with
    | Some v => (Ok tt, set_statistics (<[key := (v + n)%Z]> (statistics w)) w)
    | None => (Raise (KeyError key), w)
    end.

(** The inner loop [for alert in alerts: ...] of [trigger_sensors] *)
Fixpoint publish_alerts_loop (alerts : list SensorAlert) (alerts_generated : Z) : M Z :=
  match alerts with
  | [] => mret alerts_generated
  | alert :: rest =>
      ok ← publish_message ALERT_TOPIC (SensorAlert_dict alert);
      if (ok : bool) then publish_alerts_loop rest (alerts_generated + 1)%Z
      else publish_alerts_loop rest alerts_generated
  end.

(** The loop [for sensor_data in batch: ...] of [trigger_sensors]; the
    result is [(published_count, alerts_generated)]. *)
Fixpoint trigger_loop (batch : list SensorData) (published_count alerts_generated : Z)
    : M (Z * Z) :=
  match batch with
  | [] => mret (published_count, alerts_generated)
  | sensor_data :: rest =>
      let data_dict := SensorData_dict sensor_data in
      ok ← publish_message SENSOR_TOPIC data_dict;
      if (ok : bool) then
        let published_count := (published_count + 1)%Z in
        statistics_iadd "total_events_published" 1;;
        alerts ← detect_anomalies sensor_data;
        alerts_generated ← publish_alerts_loop alerts alerts_generated;
        trigger_loop rest published_count alerts_generated
      else trigger_loop rest published_count alerts_generated
  end.

(** [trigger_sensors], the handler of [POST /api/sensors/trigger] *)
Definition trigger_sensors (count : Z) : M TriggerResponse :=
  kafka_manager ← gets kafka_manager;
  if negb (is_connected kafka_manager) then
    raise (HTTPException 503 "Kafka connection unavailable. Check service health.")
  else
    try_except
      (batch ← generate_batch count;
       '(published_count, alerts_generated) ← trigger_loop batch 0%Z 0%Z;
       statistics_iadd "total_sensors_triggered" count;;
       let success_message :=
         "Successfully published " ++ str_int published_count ++ "/" ++ str_int count
           ++ " sensor events" in
       let success_message :=
         if (0 <? alerts_generated)%Z
         then success_message ++ " and " ++ str_int alerts_generated ++ " alerts"
         else success_message in
       now ← utcnow;
       mret {| status := "success";
               sensors_triggered := count;
               events_published := published_count;
               topic := SENSOR_TOPIC;
               response_timestamp := isoformat now ++ "Z";
               response_message := success_message |})
      (fun e =>
         let error_msg := "Failed to trigger sensors: " ++ exc_str e in
         raise (HTTPException 500 error_msg)).

End SensorsApi.
Export SensorsApi.

(* ===================================================================== *)
(** * Vocabulary of the properties *)
(* ===================================================================== *)

Module Vocabulary.

(** ** Frames *)

(** [w'] differs from [w] at most in the clock. *)
Definition clock_only (w w' : World) : Prop :=
  simulator w' = simulator w /\ kafka_manager w' = kafka_manager w /\
  statistics w' = statistics w /\ cluster w' = cluster w /\
  random w' = random w /\ floats w' = floats w.

(** What generating readings leaves alone: the Kafka side, the statistics,
    the tables of the simulator and the values the random source holds. *)
Definition generation_frame (w w' : World) : Prop :=
  kafka_manager w' = kafka_manager w /\ statistics w' = statistics w /\
  cluster w' = cluster w /\ floats w' = floats w /\
  normal_ranges (simulator w') = normal_ranges (simulator w) /\
  alert_thresholds (simulator w') = alert_thresholds (simulator w) /\
  random_value (random w') = random_value (random w) /\
  gauss_value (random w') = gauss_value (random w).

(** The cluster answers in [c'] as it does in [c]. *)
Definition same_oracles (c c' : Cluster) : Prop :=
  open_admin c' = open_admin c /\ open_producer c' = open_producer c /\
  create_topics_outcome c' = create_topics_outcome c /\
  send_outcome c' = send_outcome c /\ flush_outcome c' = flush_outcome c.

(** Between [w] and [w'] exactly the calls [new_calls] were made on the
    Kafka client objects, in this order. *)
Definition calls_appended (new_calls : list KafkaCall) (w w' : World) : Prop :=
  same_oracles (cluster w) (cluster w') /\
  calls (cluster w') = (calls (cluster w) ++ new_calls)%list.

(** What publishing leaves alone. *)
Definition publish_frame (w w' : World) : Prop :=
  simulator w' = simulator w /\ kafka_manager w' = kafka_manager w /\
  statistics w' = statistics w /\ random w' = random w /\
  clock w' = clock w /\ floats w' = floats w.

(** ** Alerts *)

(** The alerts of one dimension. *)
Definition alerts_of_type (dimension : string) (alerts : list SensorAlert) : list SensorAlert :=
  List.filter (fun a => String.eqb (alert_type a) dimension) alerts.

(** The identifier of [a] is built from the counter value [counter]. *)
Definition numbered_by (counter : Z) (a : SensorAlert) : Prop :=
  exists t : Z,
    alert_id a = "alert_" ++ str_int counter ++ "_" ++ alert_type a ++ "_" ++ str_int t.

(** What one per-dimension check returns in world [w]: nothing, or a single
    alert of that dimension. *)
Definition at_most_one_of (dimension : string) (w : World) (l : list SensorAlert) : Prop :=
  l = [] \/
  exists a, l = [a] /\ alert_type a = dimension /\
            numbered_by (event_counter (simulator w)) a.

(** A medium battery alert for [sensor_data] that names the low bound. *)
Definition medium_battery_alert (sensor_data : SensorData) (w : World) (a : SensorAlert)
    : Prop :=
  alert_type a = "battery" /\ severity a = "medium" /\ severity a <> "critical" /\
  value a = battery_level sensor_data /\
  threshold a = lc_low (at_battery (alert_thresholds (simulator w))).

(** ** Readings *)

(** The four ranges of the data model. *)
Definition in_ranges (d : SensorData) : Prop :=
  (15 <= temperature d /\ temperature d <= 35) /\
  (20 <= humidity d /\ humidity d <= 95) /\
  (980 <= pressure d /\ pressure d <= 1040) /\
  (0 <= battery_level d /\ battery_level d <= 1).

(** Pressure as the design document words it: a normal draw (deviate [z]),
    clamped to [min, max], rounded to two decimals. *)
Definition spec_pressure (ranges : NormalRanges) (z : Q) : Q :=
  let cfg := nr_pressure ranges in
  round2 (py_max (nr_min cfg) (py_min (nr_max cfg) (nr_mean cfg + z * nr_std cfg))).

(** Battery as the design document words it: a uniform draw over
    [min, max] (from [u = random()]), rounded to two decimals. *)
Definition spec_battery (ranges : NormalRanges) (u : Q) : Q :=
  let cfg := nr_battery ranges in
  round2 (ur_min cfg + (ur_max cfg - ur_min cfg) * u).

(** The deviate behind the next call of [random.gauss] but [k], and the
    value of the next call of [random.random()]. *)
Definition next_gauss (k : nat) (w : World) : Q :=
  gauss_value (random w) (k + gauss_calls (random w)).

Definition next_random (w : World) : Q :=
  random_value (random w) (random_calls (random w)).

(** ** Kafka *)

(** The send that comes after [n] earlier calls is acknowledged. *)
Definition delivered (c : Cluster) (n : nat) (topic : string) (message : PyDict) : bool :=
  match send_outcome c n topic message with
  | Delivered _ _ => true
  | SendRaises _ | FutureRaises _ => false
  end.

(** Among the calls [new_calls], made after [n] earlier ones, the number of
    acknowledged sends to [topic]. *)
Fixpoint delivered_on (c : Cluster) (topic : string) (n : nat) (new_calls : list KafkaCall)
    : Z :=
  match new_calls with
  | [] => 0%Z
  | call :: rest =>
      ((match call with
        | CallSend t message =>
            if String.eqb t topic && delivered c n t message then 1 else 0
        | CallCreateTopics _ | CallFlush => 0
        end) + delivered_on c topic (S n) rest)%Z
  end.

(** The condition the design document calls "topic already exists": the
    creation request failed with the exception the client library raises
    for an existing topic. *)
Definition topic_already_exists (e : PyExc) : Prop :=
  exc_class e = exc_class (TopicAlreadyExistsError "").

(** The payloads sent to [topic] among the calls [new_calls], in order. *)
Fixpoint sends_to (topic : string) (new_calls : list KafkaCall) : list PyDict :=
  match new_calls with
  | [] => []
  | CallSend t message :: rest =>
      if String.eqb t topic then message :: sends_to topic rest
      else sends_to topic rest
  | CallCreateTopics _ :: rest | CallFlush :: rest => sends_to topic rest
  end.

(** The creation request went through, or failed only because the topics
    already exist. *)
Definition created_or_exists (outcome : option PyExc) : Prop :=
  match outcome with
  | None => True
  | Some e => topic_already_exists e
  end.

(** The [NewTopic] objects of a list of topic specifications; [None] when a
    specification has no ["name"]. *)
Fixpoint topics_of (topics_config : list PyDict) : option (list NewTopic) :=
  match topics_config with
  | [] => Some []
  | config :: rest =>
      match dict_lookup config "name", topics_of rest with
      | Some name, Some topics =>
          Some ({| topic_name := name;
                   num_partitions := dict_get config "partitions" (VInt 1);
                   replication_factor := dict_get config "replication" (VInt 1) |}
                :: topics)
      | _, _ => None
      end
  end.

End Vocabulary.
Export Vocabulary.

(* ===================================================================== *)
(** * Sample worlds *)
(* ===================================================================== *)

Module Samples.

Definition servers : list string := ["localhost:9092"].

(** A cluster that accepts connections, creates the topics on the first
    request and answers every later request that they exist already, and
    fails the sends numbered in [failing]. *)
Definition sample_cluster (failing : list nat) : Cluster :=
  {| open_admin := fun _ _ => None;
     open_producer := fun _ _ => None;
     create_topics_outcome := fun n _ =>
       match n with
       | O => None
       | S _ => Some (TopicAlreadyExistsError "exists")
       end;
     send_outcome := fun n _ _ =>
       if existsb (Nat.eqb n) failing
       then FutureRaises (Exception "kafka.errors.KafkaTimeoutError" true "timeout")
       else Delivered 0 (Z.of_nat n);
     flush_outcome := fun _ => None;
     calls := [] |}.

Definition sample_clock : Clock :=
  {| utcnow_value := fun n =>
       {| isoformat := "2025-10-29T14:30:00"; epoch_seconds := 1761748200 + Z.of_nat n |};
     utcnow_calls := 0 |}.

Definition sample_floats : FloatFormat :=
  {| float_str := fun _ => "<float>"; float_0f := fun _ => "<float>" |}.

(** Every normal deviate is [z], every [random()] is one half. *)
Definition constant_random (z : Q) : Random :=
  {| gauss_value := fun _ => z;
     random_value := fun _ => 1 # 2;
     gauss_calls := 0;
     random_calls := 0 |}.

Definition sample_statistics : gmap string Z :=
  <["total_events_published" := 0%Z]> (<["total_sensors_triggered" := 0%Z]> ∅).

(** The process right after construction of the two services. *)
Definition fresh_world (failing : list nat) (z : Q) : World :=
  {| simulator := Simulator.init;
     kafka_manager := KafkaService.init servers "iot_producer";
     statistics := sample_statistics;
     cluster := sample_cluster failing;
     random := constant_random z;
     clock := sample_clock;
     floats := sample_floats |}.

Definition connected_manager : KafkaManager :=
  {| bootstrap_servers := servers;
     client_id := "iot_producer";
     producer := Some {| producer_bootstrap_servers := servers;
                         producer_client_id := "iot_producer" |};
     admin_client := Some {| admin_bootstrap_servers := servers;
                             admin_client_id := "iot_producer_admin" |};
     is_connected := true |}.

(** The same process with both handles open and the connected flag set. *)
Definition connected_world (failing : list nat) (z : Q) : World :=
  set_kafka_manager connected_manager (fresh_world failing z).

Definition sample_reading (battery : Q) : SensorData :=
  {| sensor_id := "sensor_anomaly_test";
     timestamp := "2025-10-29T14:30:00Z";
     temperature := 22.0;
     humidity := 55.0;
     pressure := 1013.25;
     battery_level := battery |}.

Definition sample_topics_config : list PyDict :=
  [ [ ("name", VStr "sensors"); ("partitions", VInt 1); ("replication", VInt 1) ];
    [ ("name", VStr "alerts"); ("partitions", VInt 1); ("replication", VInt 1) ] ].

Definition sample_payloads : list PyDict :=
  map (fun k => [ ("n", VInt k) ]) [1; 2; 3; 4; 5]%Z.

End Samples.
Export Samples.

From Stdlib Require DecimalPos.

(* ===================================================================== *)
(** * services/kafka_service.py, the rest of [KafkaManager] *)
(* ===================================================================== *)

Module KafkaLifecycle.

(** The dictionary [get_connection_status] returns; its keys are fixed. *)
Record ConnectionStatus : Type := {
  connected : bool;
  status_bootstrap_servers : list string;
  status_client_id : string;
  producer_available : bool;
  admin_client_available : bool
}.

(** [x is not None] *)
Definition is_not_None {A : Type} (x : option A) : bool :=
  match x with
  | Some _ => true
  | None => false
  end.

(** [KafkaManager.get_connection_status] *)
Definition get_connection_status : M ConnectionStatus :=
  self ← gets kafka_manager;
  mret {| connected := is_connected self;
          status_bootstrap_servers := bootstrap_servers self;
          status_client_id := client_id self;
          producer_available := is_not_None (producer self);
          admin_client_available := is_not_None (admin_client self) |}.

(** What [producer.close()] and [admin_client.close()] answer: [None] when
    the call returns, the exception when it raises.  The two calls leave no
    other trace in the modelled world. *)
Record CloseAnswers : Type := {
  producer_close : option PyExc;
  admin_close : option PyExc
}.

Definition client_close (answer : option PyExc) : M unit :=
  match answer with
  | Some e => raise e
  | None => mret tt
  end.

(** [KafkaManager.close] *)
Definition close (answers : CloseAnswers) : M unit :=
  try_except
    (self ← gets kafka_manager;
     match producer self with
     | Some _ =>
         producer_flush;;
         client_close (producer_close answers)
     | None => mret tt
     end;;
     match admin_client self with
     | Some _ => client_close (admin_close answers)
     | None => mret tt
     end;;
     set_is_connected false)
    (fun e => mret tt).

End KafkaLifecycle.
Export KafkaLifecycle.

(* ===================================================================== *)
(** * api/sensors.py, the other two endpoints *)
(* ===================================================================== *)

Module SensorsApiMore.

(** The two [except] clauses that close [trigger_single_sensor] and
    [simulate_anomaly]: an [HTTPException] is raised again as it is, any
    other exception becomes a 500 with the given detail. *)
Definition reraise_http (detail : PyExc -> string) (e : PyExc) : M TriggerResponse :=
  match e with
  | HTTPException _ _ => raise e
  | Exception _ _ _ => raise (HTTPException 500 (detail e))
  end.

(** [trigger_single_sensor], the handler of
    [POST /api/sensors/trigger-single].  The bounds FastAPI checks on the
    query parameters before the handler runs ([temperature] in [15, 35],
    [humidity] in [20, 95], [pressure] in [980, 1040] when given) are not
    part of the handler. *)
Definition trigger_single_sensor (sensor_id : string) (temperature humidity : Q)
    (pressure : option Q) : M TriggerResponse :=
  kafka_manager ← gets kafka_manager;
  if negb (is_connected kafka_manager) then
    raise (HTTPException 503 "Kafka connection unavailable")
  else
    try_except
      (sensor_data ← generate_custom_sensor_data sensor_id temperature humidity
                       pressure None;
       ok ← publish_message SENSOR_TOPIC (SensorData_dict sensor_data);
       if (ok : bool) then
         statistics_iadd "total_events_published" 1;;
         statistics_iadd "total_sensors_triggered" 1;;
         alerts ← detect_anomalies sensor_data;
         alerts_count ← publish_alerts_loop alerts 0%Z;
         let success_message := "Custom sensor event published" in
         let success_message :=
           if (0 <? alerts_count)%Z
           then success_message ++ " with " ++ str_int alerts_count ++ " alerts"
           else success_message in
         now ← utcnow;
         mret {| status := "success";
                 sensors_triggered := 1;
                 events_published := 1;
                 topic := SENSOR_TOPIC;
                 response_timestamp := isoformat now ++ "Z";
                 response_message := success_message |}
       else
         raise (HTTPException 500 "Failed to publish sensor data to Kafka"))
      (reraise_http (fun e => "Error in single sensor trigger: " ++ exc_str e)).

(** One entry of [anomaly_params]. *)
Record AnomalyParams : Type := {
  param_temperature : Q;
  param_humidity : Q
}.

(** The dictionary [anomaly_params] of [simulate_anomaly]. *)
Definition anomaly_params : list (string * AnomalyParams) :=
  [ ("high_temperature", {| param_temperature := 29.0; param_humidity := 45.0 |});
    ("low_temperature", {| param_temperature := 16.0; param_humidity := 75.0 |});
    ("high_humidity", {| param_temperature := 24.0; param_humidity := 85.0 |});
    ("low_humidity", {| param_temperature := 25.0; param_humidity := 25.0 |});
    ("low_battery", {| param_temperature := 22.0; param_humidity := 55.0 |}) ].

Fixpoint params_lookup (d : list (string * AnomalyParams)) (key : string)
    : option AnomalyParams :=
  match d with
  | [] => None
  | (k, v) :: rest => if String.eqb k key then Some v else params_lookup rest key
  end.

(** [anomaly_params[anomaly_type]] *)
Definition params_getitem (key : string) : M AnomalyParams :=
  match params_lookup anomaly_params key with
  | Some v => mret v
  | None => raise (KeyError key)
  end.

(** [simulate_anomaly], the handler of [GET /api/sensors/simulate-anomaly].
    The pattern FastAPI checks on [anomaly_type] before the handler runs is
    not part of the handler. *)
Definition simulate_anomaly (anomaly_type sensor_id : string) : M TriggerResponse :=
  kafka_manager ← gets kafka_manager;
  if negb (is_connected kafka_manager) then
    raise (HTTPException 503 "Kafka unavailable")
  else
    try_except
      (params ← params_getitem anomaly_type;
       sensor_data ← generate_custom_sensor_data sensor_id
                       (param_temperature params) (param_humidity params) None
                       (if String.eqb anomaly_type "low_battery" then Some 0.15 else None);
       ok ← publish_message SENSOR_TOPIC (SensorData_dict sensor_data);
       if (ok : bool) then
         alerts ← detect_anomalies sensor_data;
         alerts_published ← publish_alerts_loop alerts 0%Z;
         statistics_iadd "total_events_published" 1;;
         statistics_iadd "total_sensors_triggered" 1;;
         now ← utcnow;
         mret {| status := "success";
                 sensors_triggered := 1;
                 events_published := 1;
                 topic := SENSOR_TOPIC;
                 response_timestamp := isoformat now ++ "Z";
                 response_message :=
                   "Anomaly '" ++ anomaly_type ++ "' simulated with "
                     ++ str_int alerts_published ++ " alerts generated" |}
       else
         raise (HTTPException 500 "Failed to publish anomaly data"))
      (reraise_http exc_str).

End SensorsApiMore.
Export SensorsApiMore.

(* ===================================================================== *)
(** * api/stats.py *)
(* ===================================================================== *)

Module StatsApi.

Record StatisticsResponse : Type := {
  total_events_published : Z;
  total_sensors_triggered : Z;
  kafka_brokers : list string;
  statistics_timestamp : string
}.

(** The dictionary [reset_statistics] returns. *)
Record ResetResponse : Type := {
  reset_status : string;
  reset_message : string;
  previous_events_published : Z;
  previous_sensors_triggered : Z;
  reset_timestamp : string
}.

(** [statistics[key]] *)
Definition statistics_getitem (key : string) : M Z :=
  fun w =>
    match statistics w !! key with
    | Some v => (Ok v, w)
    | None => (Raise (KeyError key), w)
    end.

(** [statistics[key] = n] *)
Definition statistics_setitem (key : string) (n : Z) : M unit :=
  modify (fun w => set_statistics (<[key := n]> (statistics w)) w).

(** [get_statistics], the handler of [GET /api/statistics] *)
Definition get_statistics : M StatisticsResponse :=
  try_except
    (kafka_status ← get_connection_status;
     events ← statistics_getitem "total_events_published";
     sensors ← statistics_getitem "total_sensors_triggered";
     now ← utcnow;
     mret {| total_events_published := events;
             total_sensors_triggered := sensors;
             kafka_brokers := status_bootstrap_servers kafka_status;
             statistics_timestamp := isoformat now ++ "Z" |})
    (fun e => raise (HTTPException 500 ("Failed to retrieve statistics: " ++ exc_str e))).

(** [reset_statistics], the handler of [DELETE /api/statistics/reset] *)
Definition reset_statistics : M ResetResponse :=
  try_except
    (old_events ← statistics_getitem "total_events_published";
     old_sensors ← statistics_getitem "total_sensors_triggered";
     statistics_setitem "total_events_published" 0;;
     statistics_setitem "total_sensors_triggered" 0;;
     now ← utcnow;
     mret {| reset_status := "success";
             reset_message := "Statistics successfully reset";
             previous_events_published := old_events;
             previous_sensors_triggered := old_sensors;
             reset_timestamp := isoformat now ++ "Z" |})
    (fun e => raise (HTTPException 500 ("Failed to reset statistics: " ++ exc_str e))).

End StatsApi.
Export StatsApi.

(* ===================================================================== *)
(** * api/health.py *)
(* ===================================================================== *)

Module HealthApi.

Record HealthResponse : Type := {
  health_status : string;
  service : string;
  kafka_connected : bool;
  topics : list string
}.

(** The dictionary [readiness_check] returns. *)
Record ReadyResponse : Type := {
  ready_status : string;
  ready_service : string;
  ready_kafka_connected : bool;
  ready_timestamp : string
}.

(** [health_check], the handler of [GET /health] *)
Definition health_check : M HealthResponse :=
  try_except
    (kafka_status ← get_connection_status;
     mret {| health_status := if connected kafka_status then "healthy" else "unhealthy";
             service := "iot_sensor_producer";
             kafka_connected := connected kafka_status;
             topics := ["sensors"; "alerts"] |})
    (fun e =>
       mret {| health_status := "unhealthy";
               service := "iot_sensor_producer";
               kafka_connected := false;
               topics := [] |}).

(** [readiness_check], the handler of [GET /health/ready] *)
Definition readiness_check : M ReadyResponse :=
  try_except
    (kafka_status ← get_connection_status;
     if negb (connected kafka_status) then
       raise (HTTPException 503 "Service not ready: Kafka connection unavailable")
     else
       now ← utcnow;
       mret {| ready_status := "ready";
               ready_service := "iot_sensor_producer";
               ready_kafka_connected := true;
               ready_timestamp := isoformat now ++ "Z" |})
    (fun e =>
       match e with
       | HTTPException _ _ => raise e
       | Exception _ _ _ =>
           raise (HTTPException 503 ("Service not ready: " ++ exc_str e))
       end).

End HealthApi.
Export HealthApi.

(* ===================================================================== *)
(** * core/config.py and main.py: validation and startup *)
(* ===================================================================== *)

Module Startup.

Record KafkaConfig : Type := {
  cfg_bootstrap_servers : list string;
  cfg_sensor_topic : string;
  cfg_alert_topic : string;
  cfg_client_id : string;
  cfg_acks : string;
  cfg_retries : Z;
  cfg_linger_ms : Z;
  cfg_compression_type : string
}.

Record ServiceConfig : Type := {
  cfg_name : string;
  cfg_version : string;
  cfg_description : string;
  cfg_host : string;
  cfg_port : Z;
  cfg_log_level : string;
  cfg_debug : bool
}.

Record AppConfig : Type := {
  cfg_service : ServiceConfig;
  cfg_kafka : KafkaConfig
}.

(** [not s] for a string *)
Definition str_empty (s : string) : bool :=
  match s with
  | EmptyString => true
  | String _ _ => false
  end.

(** [not l] for a list *)
Definition list_empty {A : Type} (l : list A) : bool :=
  match l with
  | [] => true
  | _ :: _ => false
  end.

(** [ConfigManager.validate_config] *)
Definition validate_config (config : AppConfig) : bool :=
  if list_empty (cfg_bootstrap_servers (cfg_kafka config)) then false
  else if negb ((1 <=? cfg_port (cfg_service config))%Z
                && (cfg_port (cfg_service config) <=? 65535)%Z) then false
  else if str_empty (cfg_sensor_topic (cfg_kafka config))
          || str_empty (cfg_alert_topic (cfg_kafka config)) then false
  else true.

(** How the startup half of [lifespan] ends: [sys.exit(code)], which no
    handler of [lifespan] catches, or the [yield] that hands over to the
    server. *)
Inductive StartupEnd : Type :=
| SysExit (code : Z)
| Yield.

(** [not x] for the result of [initialize] *)
Definition falsy (x : option bool) : bool :=
  match x with
  | Some true => false
  | Some false | None => true
  end.

(** The part of [lifespan] before [yield].  [topics_config] is what
    [config_manager.get_kafka_topics_config()] returns. *)
Definition lifespan_startup (config : AppConfig) (topics_config : list PyDict)
    : M StartupEnd :=
  if negb (validate_config config) then mret (SysExit 1)
  else
    modify (set_kafka_manager
              (KafkaService.init (cfg_bootstrap_servers (cfg_kafka config))
                                 (cfg_client_id (cfg_kafka config))));;
    initialized ← initialize;
    if falsy initialized then mret (SysExit 1)
    else
      ensure_topics_exist topics_config;;
      modify (set_simulator Simulator.init);;
      mret Yield.

(** The part of [lifespan] after [yield]: [if kafka_manager:
    kafka_manager.close()]; the manager object exists once startup got
    past its construction. *)
Definition lifespan_shutdown (answers : CloseAnswers) : M unit :=
  close answers.

End Startup.
Export Startup.

(* ===================================================================== *)
(** * More vocabulary *)
(* ===================================================================== *)

Module MoreVocabulary.

(** A reading that crosses no bound of the thresholds of [__init__]. *)
Definition inside_bands (r : SensorData) : Prop :=
  (18 < temperature r /\ temperature r < 26) /\
  (30 < humidity r /\ humidity r < 80) /\
  (1000 < pressure r /\ pressure r < 1025) /\
  0.2 < battery_level r.

(** Severity [sev] and threshold [thr] are right for the value [v] on a
    ladder critical, high, low: the most severe bound crossed. *)
Definition ladder3 (t : LowHighCritical) (sev : string) (thr v : Q) : Prop :=
  (sev = "critical" /\ thr = lhc_critical t /\ lhc_critical t <= v) \/
  (sev = "high" /\ thr = lhc_high t /\ lhc_high t <= v /\ v < lhc_critical t) \/
  (sev = "low" /\ thr = lhc_low t /\ v <= lhc_low t /\
   v < lhc_high t /\ v < lhc_critical t).

(** The alert [a] reports, for its dimension, the value of the reading [r]
    and the bound of [th] that this value crosses. *)
Definition crosses (th : AlertThresholds) (r : SensorData) (a : SensorAlert) : Prop :=
  (alert_type a = "temperature" /\ value a = temperature r /\
   ladder3 (at_temperature th) (severity a) (threshold a) (temperature r)) \/
  (alert_type a = "humidity" /\ value a = humidity r /\
   ladder3 (at_humidity th) (severity a) (threshold a) (humidity r)) \/
  (alert_type a = "pressure" /\ value a = pressure r /\ severity a = "medium" /\
   ((threshold a = lh_high (at_pressure th) /\ lh_high (at_pressure th) <= pressure r) \/
    (threshold a = lh_low (at_pressure th) /\ pressure r <= lh_low (at_pressure th) /\
     pressure r < lh_high (at_pressure th)))) \/
  (alert_type a = "battery" /\ value a = battery_level r /\
   ((severity a = "critical" /\ threshold a = lc_critical (at_battery th) /\
     battery_level r <= lc_critical (at_battery th)) \/
    (severity a = "medium" /\ threshold a = lc_low (at_battery th) /\
     battery_level r <= lc_low (at_battery th) /\
     lc_critical (at_battery th) < battery_level r))).

(** The simulator holds the tables of [__init__]. *)
Definition default_tables (w : World) : Prop :=
  normal_ranges (simulator w) = normal_ranges Simulator.init /\
  alert_thresholds (simulator w) = alert_thresholds Simulator.init.

(** Every value the random source will return for [random()] is in
    [0, 1). *)
Definition random_in_unit (w : World) : Prop :=
  forall n : nat, 0 <= random_value (random w) n /\ random_value (random w) n < 1.

(** The bounds FastAPI checks on the query parameters of
    [trigger_single_sensor]. *)
Definition query_bounds (temperature humidity : Q) (pressure : option Q) : Prop :=
  (15 <= temperature /\ temperature <= 35) /\
  (20 <= humidity /\ humidity <= 95) /\
  match pressure with
  | Some p => 980 <= p /\ p <= 1040
  | None => True
  end.

(** Reading a string of decimal digits back as a number. *)
Definition parse_digits (s : string) : option Z :=
  option_map Z.of_uint (NilEmpty.uint_of_string s).

(** The number of draws an optional field costs: none when it is given. *)
Definition draws_for {A : Type} (field : option A) : nat :=
  match field with
  | Some _ => 0
  | None => 1
  end.

(** The alert each anomaly scenario is named after: dimension and
    severity. *)
Definition scenario_alert (anomaly_type : string) : option (string * string) :=
  if String.eqb anomaly_type "high_temperature" then Some ("temperature", "high")
  else if String.eqb anomaly_type "low_temperature" then Some ("temperature", "low")
  else if String.eqb anomaly_type "high_humidity" then Some ("humidity", "high")
  else if String.eqb anomaly_type "low_humidity" then Some ("humidity", "low")
  else if String.eqb anomaly_type "low_battery" then Some ("battery", "medium")
  else None.

(** The alerts of every dimension but pressure. *)
Definition alerts_but_pressure (alerts : list SensorAlert) : list SensorAlert :=
  List.filter (fun a => negb (String.eqb (alert_type a) "pressure")) alerts.

(** Some step of [close] raises: the flush or the close of a producer that
    is there, or the close of an admin client that is there. *)
Definition close_fails (answers : CloseAnswers) (w : World) : bool :=
  (is_not_None (producer (kafka_manager w)) &&
   (is_not_None (flush_outcome (cluster w) (length (calls (cluster w))))
    || is_not_None (producer_close answers)))
  || (is_not_None (admin_client (kafka_manager w)) && is_not_None (admin_close answers)).

End MoreVocabulary.
Export MoreVocabulary.

(* ===================================================================== *)
(** * More sample worlds *)
(* ===================================================================== *)

Module MoreSamples.


(** Both [close()] calls return. *)
Definition clean_close : CloseAnswers :=
  {| producer_close := None; admin_close := None |}.

(** A connected process that has published 7 events for 9 sensors. *)
Definition counted_world : World :=
  set_statistics (<["total_events_published" := 7%Z]>
                    (<["total_sensors_triggered" := 9%Z]> ∅))
                 (connected_world [] 0).

(** A process whose statistics lost their counters. *)
Definition uncounted_world : World :=
  set_statistics ∅ (connected_world [] 0).

End MoreSamples.
Export MoreSamples.

(* ===================================================================== *)
(** * Running computations *)
(* ===================================================================== *)

Ltac run :=
  unfold mbind, M_bind, mret, M_ret, gets, modify, raise, try_except; cbn.

Lemma bind_ok {A B : Type} (m : M A) (k : A -> M B) (w w' : World) (a : A) :
  m w = (Ok a, w') -> (m ≫= k) w = k a w'.
Proof. intro E. unfold mbind, M_bind. now rewrite E. Qed.

Lemma bind_raise {A B : Type} (m : M A) (k : A -> M B) (w w' : World) (e : PyExc) :
  m w = (Raise e, w') -> (m ≫= k) w = (Raise e, w').
Proof. intro E. unfold mbind, M_bind. now rewrite E. Qed.

Lemma clock_only_refl (w : World) : clock_only w w.
Proof. repeat split. Qed.

Lemma clock_only_trans (w1 w2 w3 : World) :
  clock_only w1 w2 -> clock_only w2 w3 -> clock_only w1 w3.
Proof.
  unfold clock_only. intros (?&?&?&?&?&?) (?&?&?&?&?&?).
  repeat split; congruence.
Qed.

(* ===================================================================== *)
(** * Arithmetic of clamping and rounding *)
(* ===================================================================== *)

Section Rounding.

Lemma Qlt_bool_true (a b : Q) : Qlt_bool a b = true <-> a < b.
Proof.
  unfold Qlt_bool. rewrite negb_true_iff.
  split; intro H.
  - apply Qnot_le_lt. intro L. apply Qle_bool_iff in L. congruence.
  - destruct (Qle_bool b a) eqn:E; [|reflexivity].
    apply Qle_bool_iff in E. exfalso. apply (Qlt_not_le _ _ H E).
Qed.

Lemma Qlt_bool_false (a b : Q) : Qlt_bool a b = false <-> b <= a.
Proof.
  unfold Qlt_bool. rewrite negb_false_iff. apply Qle_bool_iff.
Qed.

(** Clamping lands in the interval. *)
Lemma clamp_range (lo hi x : Q) : lo <= hi -> lo <= py_max lo (py_min hi x) <= hi.
Proof.
  intro H. unfold py_max, py_min.
  destruct (Qlt_bool x hi) eqn:E1.
  - apply Qlt_bool_true in E1. destruct (Qlt_bool lo x) eqn:E2.
    + apply Qlt_bool_true in E2. lra.
    + lra.
  - apply Qlt_bool_false in E1. destruct (Qlt_bool lo hi) eqn:E2; lra.
Qed.

(** Clamping leaves a value of the interval alone. *)
Lemma clamp_inside (lo hi x : Q) : lo <= x -> x <= hi -> py_max lo (py_min hi x) == x.
Proof.
  intros H1 H2. unfold py_max, py_min.
  destruct (Qlt_bool x hi) eqn:E1.
  - destruct (Qlt_bool lo x) eqn:E2; [reflexivity|].
    apply Qlt_bool_false in E2. lra.
  - apply Qlt_bool_false in E1.
    destruct (Qlt_bool lo hi) eqn:E2; [lra|].
    apply Qlt_bool_false in E2. lra.
Qed.

(** Rounding to the nearest integer does not cross an integer bound. *)
Lemma round_half_even_range (a b : Z) (x : Q) :
  inject_Z a <= x -> x <= inject_Z b -> (a <= round_half_even x <= b)%Z.
Proof.
  intros Ha Hb. unfold round_half_even.
  assert (Hfa : (a <= Qfloor x)%Z).
  { rewrite <- (Qfloor_Z a). now apply Qfloor_resp_le. }
  assert (Hfb : (Qfloor x <= b)%Z).
  { rewrite <- (Qfloor_Z b). now apply Qfloor_resp_le. }
  destruct (Z.eq_dec (Qfloor x) b) as [E | N].
  - assert (Hx : x - inject_Z (Qfloor x) <= 0) by (rewrite E; lra).
    destruct (Qcompare_spec (x - inject_Z (Qfloor x)) (1 # 2)) as [H | H | H].
    + rewrite H in Hx. lra.
    + lia.
    + lra.
  - destruct (Qcompare (x - inject_Z (Qfloor x)) (1 # 2)); [destruct (Z.even _)| |]; lia.
Qed.

(** Rounding to two decimals does not cross a bound that has two decimals. *)
Lemma round2_range (a b : Z) (x : Q) :
  (a # 100) <= x -> x <= (b # 100) -> (a # 100) <= round2 x <= (b # 100).
Proof.
  intros Ha Hb. unfold round2.
  destruct (round_half_even_range a b (x * 100)) as [H1 H2].
  - unfold Qle in *. cbn in *. lia.
  - unfold Qle in *. cbn in *. lia.
  - unfold Qle. cbn. lia.
Qed.

Lemma round_half_even_comp (x y : Q) : x == y -> round_half_even x = round_half_even y.
Proof.
  intro E. unfold round_half_even.
  rewrite (Qfloor_comp x y E).
  assert (C : Qcompare (x - inject_Z (Qfloor y)) (1 # 2)
              = Qcompare (y - inject_Z (Qfloor y)) (1 # 2)).
  { apply Qcompare_comp; [now rewrite E | reflexivity]. }
  now rewrite C.
Qed.

Lemma round2_comp (x y : Q) : x == y -> round2 x = round2 y.
Proof.
  intro E. unfold round2. f_equal. apply round_half_even_comp. now rewrite E.
Qed.

End Rounding.

(* ===================================================================== *)
(** * The anomaly classifier *)
(* ===================================================================== *)

Section Classifier.

Variable sensor_data : SensorData.

Ltac ladder_case :=
  eexists _, _; split; [reflexivity|]; split; [repeat split|];
  first [ left; reflexivity
        | right; eexists; split; [reflexivity|]; split; [reflexivity|];
          eexists; reflexivity ].

Ltac ladder :=
  unfold _create_alert, utcnow; run;
  repeat match goal with
         | |- context [if Qle_bool ?a ?b then _ else _] => destruct (Qle_bool a b)
         end;
  ladder_case.

Lemma check_temperature_shape (w : World) :
  exists l w', _check_temperature_alerts sensor_data w = (Ok l, w') /\
               clock_only w w' /\ at_most_one_of "temperature" w l.
Proof. unfold _check_temperature_alerts. ladder. Qed.

Lemma check_humidity_shape (w : World) :
  exists l w', _check_humidity_alerts sensor_data w = (Ok l, w') /\
               clock_only w w' /\ at_most_one_of "humidity" w l.
Proof. unfold _check_humidity_alerts. ladder. Qed.

Lemma check_pressure_shape (w : World) :
  exists l w', _check_pressure_alerts sensor_data w = (Ok l, w') /\
               clock_only w w' /\ at_most_one_of "pressure" w l.
Proof. unfold _check_pressure_alerts. ladder. Qed.

Lemma check_battery_shape (w : World) :
  exists l w', _check_battery_alerts sensor_data w = (Ok l, w') /\
               clock_only w w' /\ at_most_one_of "battery" w l.
Proof. unfold _check_battery_alerts. ladder. Qed.

Lemma at_most_one_of_frame (dimension : string) (w w' : World) (l : list SensorAlert) :
  clock_only w w' -> at_most_one_of dimension w' l -> at_most_one_of dimension w l.
Proof.
  intros (S & _) [-> | (a & -> & T & N)]; [now left|].
  right. exists a. rewrite <- S. auto.
Qed.

(** [detect_anomalies] returns the four per-dimension results, in order. *)
Lemma detect_anomalies_shape (w : World) :
  exists l1 l2 l3 l4 w',
    detect_anomalies sensor_data w = (Ok (((l1 ++ l2) ++ l3) ++ l4)%list, w') /\
    clock_only w w' /\
    at_most_one_of "temperature" w l1 /\ at_most_one_of "humidity" w l2 /\
    at_most_one_of "pressure" w l3 /\ at_most_one_of "battery" w l4.
Proof.
  destruct (check_temperature_shape w) as (l1 & w1 & E1 & F1 & S1).
  destruct (check_humidity_shape w1) as (l2 & w2 & E2 & F2 & S2).
  destruct (check_pressure_shape w2) as (l3 & w3 & E3 & F3 & S3).
  destruct (check_battery_shape w3) as (l4 & w4 & E4 & F4 & S4).
  exists l1, l2, l3, l4, w4.
  pose proof (clock_only_trans _ _ _ F1 F2) as F12.
  pose proof (clock_only_trans _ _ _ F12 F3) as F13.
  split; [|split; [exact (clock_only_trans _ _ _ F13 F4)|]].
  - unfold detect_anomalies.
    rewrite (bind_ok _ _ _ _ _ E1), (bind_ok _ _ _ _ _ E2),
            (bind_ok _ _ _ _ _ E3), (bind_ok _ _ _ _ _ E4).
    reflexivity.
  - repeat split; eauto using at_most_one_of_frame.
Qed.

End Classifier.

Section ClassifierClaims.

Variable sensor_data : SensorData.

Ltac split_shape H :=
  destruct H as [-> | (? & -> & ? & ?)].

(** C4.  For every reading, [detect_anomalies] returns at most one alert
    per dimension: at most four alerts, each of dimension temperature,
    humidity, pressure or battery, at most one of any dimension; no two
    alerts of one dimension report high and critical together. *)
Theorem detect_anomalies_at_most_one_per_dimension (w : World) :
  exists alerts w',
    detect_anomalies sensor_data w = (Ok alerts, w') /\
    (forall dimension : string, (length (alerts_of_type dimension alerts) <= 1)%nat) /\
    (length alerts <= 4)%nat /\
    Forall (fun a => In (alert_type a) ["temperature"; "humidity"; "pressure"; "battery"])
           alerts /\
    ~ (exists a b, In a alerts /\ In b alerts /\ alert_type a = alert_type b /\
                   severity a = "high" /\ severity b = "critical").
Proof.
  destruct (detect_anomalies_shape sensor_data w)
    as (l1 & l2 & l3 & l4 & w' & E & _ & S1 & S2 & S3 & S4).
  exists (((l1 ++ l2) ++ l3) ++ l4)%list, w'.
  split; [exact E|].
  split_shape S1; split_shape S2; split_shape S3; split_shape S4; cbn.
  all: repeat split.
  all: try lia.
  all: try (intro dimension; unfold alerts_of_type; cbn;
            repeat match goal with
                   | H : alert_type _ = _ |- _ => rewrite H; clear H
                   end;
            repeat match goal with
                   | |- context [String.eqb ?s ?d] =>
                       is_var d; destruct (String.eqb_spec s d); [subst d; cbn|]
                   end; cbn; lia).
  all: try (repeat constructor;
            repeat match goal with
                   | H : alert_type _ = _ |- _ => rewrite H; clear H
                   end; cbn; tauto).
  all: intros (a & b & Ia & Ib & T & Sa & Sb); cbn in Ia, Ib;
       repeat match goal with
              | H : _ \/ _ |- _ => destruct H
              | H : False |- _ => destruct H
              end; subst; congruence.
Qed.

Lemma check_battery_between (w : World) :
  lc_critical (at_battery (alert_thresholds (simulator w))) < battery_level sensor_data ->
  battery_level sensor_data <= lc_low (at_battery (alert_thresholds (simulator w))) ->
  exists a w',
    _check_battery_alerts sensor_data w = (Ok [a], w') /\ clock_only w w' /\
    medium_battery_alert sensor_data w a.
Proof.
  intros Hc Hl.
  unfold _check_battery_alerts, _create_alert, utcnow. run.
  destruct (Qle_bool (battery_level sensor_data) _) eqn:Ec.
  { apply Qle_bool_iff in Ec. lra. }
  apply Qle_bool_iff in Hl. rewrite Hl.
  eexists _, _. split; [reflexivity|]. split; [repeat split|].
  repeat split. discriminate.
Qed.

(** C3.  A reading whose battery level is 0.15, classified under the
    battery thresholds low = 0.2 and critical = 0.1, gets exactly one
    battery alert; its severity is medium, not critical, and it names the
    low bound as the threshold crossed. *)
Theorem battery_015_yields_one_medium_alert (w : World) :
  battery_level sensor_data == 0.15 ->
  lc_low (at_battery (alert_thresholds (simulator w))) == 0.2 ->
  lc_critical (at_battery (alert_thresholds (simulator w))) == 0.1 ->
  (exists a w',
     _check_battery_alerts sensor_data w = (Ok [a], w') /\ medium_battery_alert sensor_data w a) /\
  (exists alerts w' a,
     detect_anomalies sensor_data w = (Ok alerts, w') /\
     alerts_of_type "battery" alerts = [a] /\ medium_battery_alert sensor_data w a).
Proof.
  intros Hb Hl Hc.
  split.
  - destruct (check_battery_between w) as (a & w' & E & _ & P); [lra | lra |].
    now exists a, w'.
  - destruct (check_temperature_shape sensor_data w) as (l1 & w1 & E1 & F1 & S1).
    destruct (check_humidity_shape sensor_data w1) as (l2 & w2 & E2 & F2 & S2).
    destruct (check_pressure_shape sensor_data w2) as (l3 & w3 & E3 & F3 & S3).
    pose proof (clock_only_trans _ _ _ (clock_only_trans _ _ _ F1 F2) F3) as F.
    assert (Sim : simulator w3 = simulator w) by apply F.
    destruct (check_battery_between w3) as (a & w4 & E4 & _ & P).
    { rewrite Sim. lra. }
    { rewrite Sim. lra. }
    exists (((l1 ++ l2) ++ l3) ++ [a])%list, w4, a.
    split; [|split].
    + unfold detect_anomalies.
      rewrite (bind_ok _ _ _ _ _ E1), (bind_ok _ _ _ _ _ E2),
              (bind_ok _ _ _ _ _ E3), (bind_ok _ _ _ _ _ E4).
      reflexivity.
    + destruct P as (Ta & _).
      split_shape S1; split_shape S2; split_shape S3; unfold alerts_of_type; cbn;
        repeat match goal with
               | H : alert_type _ = _ |- _ => rewrite H; clear H
               end; reflexivity.
    + unfold medium_battery_alert in *. now rewrite <- Sim.
Qed.

End ClassifierClaims.

Section Generator.

Lemma in_ranges_valid (d : SensorData) : in_ranges d -> SensorData_valid d = true.
Proof.
  intros ((T1 & T2) & (H1 & H2) & _ & (B1 & B2)).
  unfold SensorData_valid, field_ge_le.
  apply Qle_bool_iff in T1, T2, H1, H2, B1, B2.
  now rewrite T1, T2, H1, H2, B1, B2.
Qed.

(** A clamped and rounded draw stays between bounds that have two decimals. *)
Lemma clamped_rounded (a b : Z) (lo hi x : Q) :
  lo == (a # 100) -> hi == (b # 100) -> lo <= hi ->
  (a # 100) <= round2 (py_max lo (py_min hi x)) <= (b # 100).
Proof.
  intros Ea Eb L.
  destruct (clamp_range lo hi x L) as [H1 H2].
  apply round2_range; lra.
Qed.

Lemma generate_sensor_data_spec (sensor_id : string) (w : World) :
  normal_ranges (simulator w) = normal_ranges Simulator.init ->
  0 <= random_value (random w) (random_calls (random w)) < 1 ->
  exists d w',
    generate_sensor_data sensor_id w = (Ok d, w') /\ in_ranges d /\
    generation_frame w w' /\
    event_counter (simulator w') = (event_counter (simulator w) + 1)%Z.
Proof.
  intros Hr [Hu0 Hu1].
  unfold generate_sensor_data, random_gauss, random_uniform, increment_event_counter,
    utcnow, new_SensorData.
  run. rewrite Hr.
  cbn -[round2 py_max py_min Qplus Qmult Qminus SensorData_valid].
  match goal with
  | |- context [SensorData_valid ?D] => set (d := D)
  end.
  assert (R : in_ranges d).
  { unfold in_ranges, d;
      cbn -[round2 py_max py_min Qplus Qmult Qminus].
    repeat split.
    - destruct (clamped_rounded 1500 3500 15.0 35.0
                  (22.0 + gauss_value (random w) (gauss_calls (random w)) * 2.0));
        [reflexivity | reflexivity | lra | lra].
    - match goal with |- round2 (py_max _ (py_min _ ?x)) <= _ =>
        destruct (clamped_rounded 1500 3500 15.0 35.0 x);
          [reflexivity | reflexivity | lra | lra] end.
    - match goal with |- _ <= round2 (py_max _ (py_min _ ?x)) =>
        destruct (clamped_rounded 2000 9500 20.0 95.0 x);
          [reflexivity | reflexivity | lra | lra] end.
    - match goal with |- round2 (py_max _ (py_min _ ?x)) <= _ =>
        destruct (clamped_rounded 2000 9500 20.0 95.0 x);
          [reflexivity | reflexivity | lra | lra] end.
    - match goal with |- _ <= round2 (py_max _ (py_min _ ?x)) =>
        destruct (clamped_rounded 98000 104000 980.0 1040.0 x);
          [reflexivity | reflexivity | lra | lra] end.
    - match goal with |- round2 (py_max _ (py_min _ ?x)) <= _ =>
        destruct (clamped_rounded 98000 104000 980.0 1040.0 x);
          [reflexivity | reflexivity | lra | lra] end.
    - match goal with |- _ <= round2 ?x =>
        destruct (round2_range 30 100 x); [lra | lra | lra] end.
    - match goal with |- round2 ?x <= _ =>
        destruct (round2_range 30 100 x); [lra | lra | lra] end. }
  rewrite (in_ranges_valid d R).
  eexists _, _. split; [reflexivity|]. split; [exact R|].
  split; [|reflexivity].
  unfold generation_frame. cbn. rewrite Hr. repeat split.
Qed.

End Generator.

Section GeneratorClaims.

Variable sensor_id : string.

(** C5.  Whatever deviates the normal draws produce, and for a value of
    [random()] in [0, 1), the reading built by [generate_sensor_data] under
    the ranges set in [__init__] passes validation and has temperature in
    [15, 35], humidity in [20, 95], pressure in [980, 1040] and battery
    level in [0, 1]. *)
Theorem generate_sensor_data_in_ranges (w : World) :
  normal_ranges (simulator w) = normal_ranges Simulator.init ->
  0 <= next_random w < 1 ->
  exists d w', generate_sensor_data sensor_id w = (Ok d, w') /\ in_ranges d.
Proof.
  intros Hr Hu.
  destruct (generate_sensor_data_spec sensor_id w Hr Hu) as (d & w' & E & R & _).
  now exists d, w'.
Qed.

(** Pressure and battery of a generated reading, as functions of the draws:
    [generate_sensor_data] follows the wording of the design document. *)
Lemma generate_sensor_data_pressure_battery (w w' : World) (d : SensorData) :
  generate_sensor_data sensor_id w = (Ok d, w') ->
  pressure d = spec_pressure (normal_ranges (simulator w)) (next_gauss 2 w) /\
  battery_level d = spec_battery (normal_ranges (simulator w)) (next_random w).
Proof.
  unfold generate_sensor_data, random_gauss, random_uniform, increment_event_counter,
    utcnow, new_SensorData.
  run.
  cbn -[round2 py_max py_min Qplus Qmult Qminus SensorData_valid].
  destruct (SensorData_valid _); intro E; inversion E; subst; clear E.
  split; reflexivity.
Qed.

(** The same for [generate_custom_sensor_data] when both optional fields
    are omitted: the battery follows the wording, the pressure is the
    rounded draw, not clamped. *)
Lemma generate_custom_pressure_battery (temperature humidity : Q) (w w' : World)
    (d : SensorData) :
  generate_custom_sensor_data sensor_id temperature humidity None None w = (Ok d, w') ->
  pressure d = round2 (nr_mean (nr_pressure (normal_ranges (simulator w)))
                       + next_gauss 0 w * nr_std (nr_pressure (normal_ranges (simulator w)))) /\
  battery_level d = spec_battery (normal_ranges (simulator w)) (next_random w).
Proof.
  unfold generate_custom_sensor_data, random_gauss, random_uniform, utcnow, new_SensorData.
  run.
  cbn -[round2 py_max py_min Qplus Qmult Qminus SensorData_valid].
  destruct (SensorData_valid _); intro E; inversion E; subst; clear E.
  split; reflexivity.
Qed.

(** The two pressures agree for a draw that falls between [min] and [max]. *)
Lemma unclamped_pressure_agrees_inside (ranges : NormalRanges) (z : Q) :
  nr_min (nr_pressure ranges) <= nr_mean (nr_pressure ranges) + z * nr_std (nr_pressure ranges) ->
  nr_mean (nr_pressure ranges) + z * nr_std (nr_pressure ranges) <= nr_max (nr_pressure ranges) ->
  round2 (nr_mean (nr_pressure ranges) + z * nr_std (nr_pressure ranges))
  = spec_pressure ranges z.
Proof.
  intros H1 H2. unfold spec_pressure. cbv zeta.
  apply round2_comp. symmetry. now apply clamp_inside.
Qed.

(** C6.  With every normal deviate equal to 6, so that the pressure draw is
    1013.25 + 6 * 5 = 1043.25 in both procedures, [generate_sensor_data]
    returns the pressure 1040.0 the wording prescribes, while
    [generate_custom_sensor_data] with pressure omitted returns 1043.25:
    the clamp to [min, max] is missing there.  The batteries agree. *)
Theorem custom_pressure_is_not_clamped :
  exists d1 d2,
    fst (generate_sensor_data "sensor_001" (fresh_world [] 6)) = Ok d1 /\
    fst (generate_custom_sensor_data "sensor_001" 22.0 55.0 None None (fresh_world [] 6))
      = Ok d2 /\
    next_gauss 2 (fresh_world [] 6) = next_gauss 0 (fresh_world [] 6) /\
    pressure d1 = spec_pressure (normal_ranges Simulator.init) 6 /\
    pressure d1 == 1040.0 /\
    pressure d2 == 1043.25 /\
    ~ pressure d2 == spec_pressure (normal_ranges Simulator.init) 6 /\
    battery_level d2 = battery_level d1.
Proof.
  eexists _, _.
  split; [vm_compute; reflexivity|].
  split; [vm_compute; reflexivity|].
  cbn [pressure battery_level].
  repeat split; try reflexivity.
  vm_compute. discriminate.
Qed.

(** C9.  [generate_custom_sensor_data] leaves the simulator, hence its
    event counter, as it found it, for every input and whether or not the
    reading passes validation; [generate_sensor_data] adds one to the
    counter; and every alert [detect_anomalies] builds after a custom
    generation carries the counter value from before that call in its
    identifier. *)
Theorem generate_custom_keeps_event_counter (temperature humidity : Q)
    (pressure battery_level : option Q) (w : World) :
  let w' := snd (generate_custom_sensor_data sensor_id temperature humidity
                   pressure battery_level w) in
  simulator w' = simulator w /\
  event_counter (simulator w') = event_counter (simulator w) /\
  event_counter (simulator (snd (generate_sensor_data sensor_id w)))
    = (event_counter (simulator w) + 1)%Z /\
  forall reading : SensorData,
    exists alerts w'',
      detect_anomalies reading w' = (Ok alerts, w'') /\
      Forall (numbered_by (event_counter (simulator w))) alerts.
Proof.
  intro w'.
  assert (S : simulator w' = simulator w).
  { unfold w', generate_custom_sensor_data, random_gauss, random_uniform, utcnow,
      new_SensorData.
    destruct pressure, battery_level; run;
      cbn -[round2 Qplus Qmult Qminus SensorData_valid];
      destruct (SensorData_valid _); reflexivity. }
  split; [exact S|]. split; [now rewrite S|]. split.
  - unfold generate_sensor_data, random_gauss, random_uniform, increment_event_counter,
      utcnow, new_SensorData.
    run. cbn -[round2 py_max py_min Qplus Qmult Qminus SensorData_valid].
    destruct (SensorData_valid _); reflexivity.
  - intro reading.
    destruct (detect_anomalies_shape reading w')
      as (l1 & l2 & l3 & l4 & w'' & E & _ & S1 & S2 & S3 & S4).
    exists (((l1 ++ l2) ++ l3) ++ l4)%list, w''. split; [exact E|].
    rewrite <- S.
    repeat apply Forall_app_2;
      match goal with
      | H : at_most_one_of _ _ ?l |- Forall _ ?l =>
          destruct H as [-> | (a & -> & _ & N)]; [constructor | now repeat constructor]
      end.
Qed.

End GeneratorClaims.

(* ===================================================================== *)
(** * The Kafka manager *)
(* ===================================================================== *)

Section Manager.

Lemma same_oracles_refl (c : Cluster) : same_oracles c c.
Proof. repeat split. Qed.

Lemma same_oracles_log_call (call : KafkaCall) (c : Cluster) :
  same_oracles c (log_call call c).
Proof. repeat split. Qed.

Lemma calls_appended_nil (w : World) : calls_appended [] w w.
Proof. split; [apply same_oracles_refl | now rewrite app_nil_r]. Qed.

Lemma calls_appended_trans (l1 l2 : list KafkaCall) (w1 w2 w3 : World) :
  calls_appended l1 w1 w2 -> calls_appended l2 w2 w3 ->
  calls_appended (l1 ++ l2) w1 w3.
Proof.
  intros [(?&?&?&?&?) C1] [(?&?&?&?&?) C2].
  split; [repeat split; congruence|].
  rewrite C2, C1. now rewrite app_assoc.
Qed.

Lemma publish_frame_refl (w : World) : publish_frame w w.
Proof. repeat split. Qed.

Lemma publish_frame_trans (w1 w2 w3 : World) :
  publish_frame w1 w2 -> publish_frame w2 w3 -> publish_frame w1 w3.
Proof.
  unfold publish_frame. intros (?&?&?&?&?&?) (?&?&?&?&?&?).
  repeat split; congruence.
Qed.

Lemma delivered_on_app (c : Cluster) (topic : string) (l1 l2 : list KafkaCall) (n : nat) :
  delivered_on c topic n (l1 ++ l2)
  = (delivered_on c topic n l1 + delivered_on c topic (n + length l1) l2)%Z.
Proof.
  revert n. induction l1 as [|call l1 IH]; intro n; cbn [app delivered_on length].
  - rewrite Nat.add_0_r. lia.
  - rewrite IH. replace (S n + length l1)%nat with (n + S (length l1))%nat by lia. lia.
Qed.

Lemma delivered_on_oracles (c c' : Cluster) (topic : string) (n : nat)
    (l : list KafkaCall) :
  same_oracles c c' -> delivered_on c' topic n l = delivered_on c topic n l.
Proof.
  intros (_ & _ & _ & S & _). revert n.
  induction l as [|call l IH]; intro n; cbn [delivered_on]; [reflexivity|].
  rewrite IH. unfold delivered. now rewrite S.
Qed.

Lemma delivered_on_bounds (c : Cluster) (topic : string) (n : nat) (l : list KafkaCall) :
  (0 <= delivered_on c topic n l <= Z.of_nat (length l))%Z.
Proof.
  revert n. induction l as [|call l IH]; intro n; cbn [delivered_on length]; [lia|].
  specialize (IH (S n)).
  destruct call as [? | t message |]; [lia | | lia].
  destruct (String.eqb t topic && delivered c n t message); lia.
Qed.

(** ** [publish_message] *)

(** Not connected: nothing happens. *)
Lemma publish_message_not_connected (topic : string) (message : PyDict) (w : World) :
  not_connected (kafka_manager w) = true ->
  publish_message topic message w = (Ok false, w).
Proof.
  intro N. unfold publish_message. run. now rewrite N.
Qed.

(** Connected: one send, and the result tells whether it was acknowledged. *)
Lemma publish_message_connected (topic : string) (message : PyDict) (w : World) :
  not_connected (kafka_manager w) = false ->
  publish_message topic message w
  = (Ok (delivered (cluster w) (length (calls (cluster w))) topic message),
     set_cluster (log_call (CallSend topic message) (cluster w)) w).
Proof.
  intro N. unfold publish_message, producer_send, future_get, delivered. run. rewrite N.
  destruct (send_outcome _ _ _ _) as [e | e | p o]; cbn; try reflexivity;
    destruct (is_KafkaError e); reflexivity.
Qed.

(** In every state [publish_message] returns a boolean, makes one call
    when there is a producer behind the connected flag, a send to its
    topic, and reports whether it was acknowledged. *)
Lemma publish_message_spec (topic : string) (message : PyDict) (w : World) :
  exists (ok : bool) (w' : World) (new_calls : list KafkaCall),
    publish_message topic message w = (Ok ok, w') /\
    publish_frame w w' /\ calls_appended new_calls w w' /\
    new_calls = (if not_connected (kafka_manager w) then []
                 else [CallSend topic message]) /\
    forall t : string,
      delivered_on (cluster w) t (length (calls (cluster w))) new_calls
      = if String.eqb topic t then Z.b2z ok else 0%Z.
Proof.
  destruct (not_connected (kafka_manager w)) eqn:N.
  - exists false, w, []. rewrite (publish_message_not_connected _ _ _ N).
    repeat split; [now rewrite app_nil_r |].
    intro t. cbn. now destruct (String.eqb topic t).
  - eexists _, _, [CallSend topic message].
    rewrite (publish_message_connected _ _ _ N).
    split; [reflexivity|]. repeat split.
    intro t. cbn [delivered_on].
    destruct (String.eqb topic t); cbn; [|reflexivity].
    destruct (delivered _ _ _ _); reflexivity.
Qed.

End Manager.

Section ManagerClaims.

Variable topic : string.

(** The loop of [publish_batch] on a connected manager: one send per
    message, in order, and the acknowledged ones are counted. *)
Lemma publish_batch_loop_spec (messages : list PyDict) :
  forall (published_count : Z) (w : World),
    not_connected (kafka_manager w) = false ->
    exists w',
      publish_batch_loop topic messages published_count w
      = (Ok (published_count
             + delivered_on (cluster w) topic (length (calls (cluster w)))
                 (map (CallSend topic) messages))%Z, w') /\
      publish_frame w w' /\
      calls_appended (map (CallSend topic) messages) w w'.
Proof.
  induction messages as [|message rest IH]; intros acc w N.
  - exists w. cbn. rewrite Z.add_0_r.
    split; [reflexivity|]. split; [apply publish_frame_refl | apply calls_appended_nil].
  - cbn [publish_batch_loop map].
    pose proof (publish_message_connected topic message w N) as E.
    set (w1 := set_cluster (log_call (CallSend topic message) (cluster w)) w) in *.
    assert (N1 : not_connected (kafka_manager w1) = false) by exact N.
    assert (A1 : calls_appended [CallSend topic message] w w1) by (repeat split).
    assert (F1 : publish_frame w w1) by (repeat split).
    assert (D : forall l,
               delivered_on (cluster w1) topic (length (calls (cluster w1))) l
               = delivered_on (cluster w) topic (S (length (calls (cluster w)))) l).
    { intro l. rewrite (delivered_on_oracles (cluster w) (cluster w1)) by apply A1.
      f_equal. unfold w1. cbn. rewrite length_app. cbn. lia. }
    rewrite (bind_ok _ _ _ _ _ E).
    cbn [delivered_on]. rewrite String.eqb_refl. cbn [andb].
    destruct (delivered (cluster w) (length (calls (cluster w))) topic message).
    + destruct (IH (acc + 1)%Z w1 N1) as (w' & E' & F' & A').
      exists w'. rewrite E', D.
      split; [f_equal; f_equal; lia|].
      split; [exact (publish_frame_trans _ _ _ F1 F') |].
      exact (calls_appended_trans _ _ _ _ _ A1 A').
    + destruct (IH acc w1 N1) as (w' & E' & F' & A').
      exists w'. rewrite E', D.
      split; [f_equal; f_equal; lia|].
      split; [exact (publish_frame_trans _ _ _ F1 F') |].
      exact (calls_appended_trans _ _ _ _ _ A1 A').
Qed.

(** C7.  On a connected manager [publish_batch] makes one send per payload,
    in order, then exactly one flush, and nothing else; when the flush
    returns, the result is the number of payloads whose send was
    acknowledged (a flush that raises propagates).  The manager itself is
    left as it was. *)
Theorem publish_batch_counts_successes (messages : list PyDict) (w : World) :
  is_connected (kafka_manager w) = true ->
  producer (kafka_manager w) <> None ->
  exists w',
    calls_appended (map (CallSend topic) messages ++ [CallFlush]) w w' /\
    publish_frame w w' /\
    publish_batch topic messages w
    = (match flush_outcome (cluster w) (length (calls (cluster w)) + length messages) with
       | None => Ok (delivered_on (cluster w) topic (length (calls (cluster w)))
                       (map (CallSend topic) messages))
       | Some e => Raise e
       end, w').
Proof.
  intros C P.
  assert (N : not_connected (kafka_manager w) = false).
  { unfold not_connected. rewrite C. now destruct (producer (kafka_manager w)). }
  destruct (publish_batch_loop_spec messages 0%Z w N) as (w1 & E & F & A).
  exists (set_cluster (log_call CallFlush (cluster w1)) w1).
  split; [|split].
  - apply (calls_appended_trans _ _ _ w1); [exact A | repeat split].
  - apply (publish_frame_trans _ w1); [exact F | repeat split].
  - unfold publish_batch. run. rewrite N.
    rewrite E. unfold producer_flush. cbn.
    destruct A as [(_ & _ & _ & _ & Fl) Ca].
    rewrite Fl, Ca, length_app, length_map.
    destruct (flush_outcome _ _); reflexivity.
Qed.

(** C10.  When the connected flag is off or there is no producer,
    [publish_message] returns [False] and [publish_batch] returns 0, and
    the world, with its log of client calls and the connection state, is
    exactly what it was: no send, no flush. *)
Theorem publish_without_connection_does_nothing (message : PyDict)
    (messages : list PyDict) (w : World) :
  is_connected (kafka_manager w) = false \/ producer (kafka_manager w) = None ->
  publish_message topic message w = (Ok false, w) /\
  publish_batch topic messages w = (Ok 0%Z, w).
Proof.
  intro H.
  assert (N : not_connected (kafka_manager w) = true).
  { unfold not_connected. destruct H as [-> | ->]; [reflexivity | apply orb_true_r]. }
  split; [now apply publish_message_not_connected|].
  unfold publish_batch. run. now rewrite N.
Qed.

End ManagerClaims.

Section InitializeClaims.

(** C1.  [initialize] never reports success.  Whatever the cluster does,
    the call returns [False] and leaves the connected flag off; in
    particular when both client objects open without error, they are
    stored, the flag is set, and the lookup of [self._ensure_topics_exist],
    a name the class does not define, raises [AttributeError] inside the
    [try], so the handler clears the flag and returns [False]. *)
Theorem initialize_never_reports_success (w : World) :
  exists w',
    initialize w = (Ok (Some false), w') /\
    is_connected (kafka_manager w') = false /\
    (open_admin (cluster w) (bootstrap_servers (kafka_manager w))
       (client_id (kafka_manager w) ++ "_admin") = None ->
     open_producer (cluster w) (bootstrap_servers (kafka_manager w))
       (client_id (kafka_manager w)) = None ->
     admin_client (kafka_manager w')
     = Some {| admin_bootstrap_servers := bootstrap_servers (kafka_manager w);
               admin_client_id := client_id (kafka_manager w) ++ "_admin" |} /\
     producer (kafka_manager w')
     = Some {| producer_bootstrap_servers := bootstrap_servers (kafka_manager w);
               producer_client_id := client_id (kafka_manager w) |}).
Proof.
  unfold initialize, KafkaAdminClient, KafkaProducer, self_getattr,
    set_admin_client, set_producer, set_is_connected.
  run.
  destruct (open_admin _ _ _) as [e1|] eqn:E1; cbn.
  { eexists. split; [reflexivity|]. split; [reflexivity|]. discriminate. }
  destruct (open_producer _ _ _) as [e2|] eqn:E2; cbn.
  { eexists. split; [reflexivity|]. split; [reflexivity|]. discriminate. }
  eexists. split; [reflexivity|]. split; [reflexivity|].
  intros _ _. split; reflexivity.
Qed.

End InitializeClaims.

Section TopicsClaims.

Variable topics_config : list PyDict.

Lemma new_topics_loop_spec (configs : list PyDict) :
  forall (topics : list NewTopic) (w : World),
    new_topics_loop configs topics w
    = match topics_of configs with
      | Some more => (Ok (topics ++ more)%list, w)
      | None => (Raise (KeyError "name"), w)
      end.
Proof.
  induction configs as [|config rest IH]; intros topics w; cbn [new_topics_loop topics_of].
  - now rewrite app_nil_r.
  - unfold dict_getitem.
    destruct (dict_lookup config "name") as [name|]; [|reflexivity].
    run. rewrite IH.
    destruct (topics_of rest) as [more|]; [|reflexivity].
    now rewrite <- app_assoc.
Qed.

(** What [ensure_topics_exist] does once the admin client is there. *)
Lemma ensure_topics_exist_spec (w : World) :
  admin_client (kafka_manager w) <> None ->
  ensure_topics_exist topics_config w
  = match topics_of topics_config with
    | None => (Ok false, w)
    | Some topics =>
        (Ok match create_topics_outcome (cluster w) (length (calls (cluster w))) topics with
            | None => true
            | Some e => str_contains "TopicAlreadyExistsException" (type_str e)
            end,
         set_cluster (log_call (CallCreateTopics topics) (cluster w)) w)
    end.
Proof.
  intro A. unfold ensure_topics_exist. run.
  destruct (admin_client (kafka_manager w)) as [a|]; [|congruence].
  rewrite new_topics_loop_spec.
  destruct (topics_of topics_config) as [topics|]; [|reflexivity].
  unfold create_topics. cbn.
  destruct (create_topics_outcome _ _ _) as [e|]; [|reflexivity].
  cbn. destruct (str_contains _ _); reflexivity.
Qed.

(** [ensure_topics_exist] returns a boolean in every state. *)
Lemma ensure_topics_exist_total (w : World) :
  exists b w',
    ensure_topics_exist topics_config w = (Ok b, w') /\
    admin_client (kafka_manager w') = admin_client (kafka_manager w) /\
    same_oracles (cluster w) (cluster w') /\
    (topics_of topics_config <> None -> admin_client (kafka_manager w) <> None ->
     length (calls (cluster w')) = S (length (calls (cluster w)))).
Proof.
  destruct (admin_client (kafka_manager w)) as [a|] eqn:A.
  - rewrite ensure_topics_exist_spec by congruence.
    destruct (topics_of topics_config) as [topics|].
    + eexists _, _. split; [reflexivity|]. split; [exact A|]. split; [repeat split|].
      intros _ _. cbn. rewrite length_app. cbn. lia.
    + exists false, w. repeat split; congruence.
  - exists false, w. unfold ensure_topics_exist. run. rewrite A.
    repeat split; congruence.
Qed.

(** The test [ensure_topics_exist] applies to the class name does not
    recognise the exception the client library raises for an existing
    topic. *)
Lemma existing_topic_is_not_recognised (e : PyExc) :
  topic_already_exists e ->
  str_contains "TopicAlreadyExistsException" (type_str e) = false.
Proof.
  unfold topic_already_exists, type_str.
  destruct e as [cls k msg | code detail]; cbn [exc_class]; intro C.
  - rewrite C. reflexivity.
  - discriminate.
Qed.

(** C2.  [ensure_topics_exist] is not idempotent.  The handler takes a
    creation error for success when its class name contains
    [TopicAlreadyExistsException], but the exception the client library
    raises for topics that exist already,
    [kafka.errors.TopicAlreadyExistsError], is not of such a class.  So
    when a first call creates the topics and the cluster answers the
    second, identical request that they exist already, the first call
    returns [True] and the second returns [False], although the request
    failed only because the topics exist; both requests reach the cluster.
    (That no call raises is [ensure_topics_exist_total].) *)
Theorem ensure_topics_exist_is_not_idempotent (topics : list NewTopic) (e : PyExc)
    (w : World) :
  admin_client (kafka_manager w) <> None ->
  topics_of topics_config = Some topics ->
  create_topics_outcome (cluster w) (length (calls (cluster w))) topics = None ->
  create_topics_outcome (cluster w) (S (length (calls (cluster w)))) topics = Some e ->
  topic_already_exists e ->
  exists w1 w2,
    ensure_topics_exist topics_config w = (Ok true, w1) /\
    ensure_topics_exist topics_config w1 = (Ok false, w2) /\
    created_or_exists
      (create_topics_outcome (cluster w) (S (length (calls (cluster w)))) topics) /\
    calls (cluster w2)
    = (calls (cluster w) ++ [CallCreateTopics topics; CallCreateTopics topics])%list.
Proof.
  intros A T O1 O2 X.
  destruct (ensure_topics_exist_total w) as (b1 & w1 & E1 & A1 & Or & L1).
  assert (A' : admin_client (kafka_manager w1) <> None) by now rewrite A1.
  pose proof (ensure_topics_exist_spec w A) as S1.
  pose proof (ensure_topics_exist_spec w1 A') as S2.
  rewrite T in S1, S2. rewrite O1 in S1.
  rewrite S1 in E1. inversion E1 as [[B1 W1]].
  rewrite L1 in S2 by congruence.
  destruct Or as (_ & _ & Oc & _). rewrite Oc, O2 in S2.
  rewrite (existing_topic_is_not_recognised e X) in S2.
  eexists _, _. split; [exact S1|]. rewrite W1. split; [exact S2|].
  split; [rewrite O2; exact X|].
  rewrite <- W1. cbn. now rewrite <- app_assoc.
Qed.

End TopicsClaims.


(* ===================================================================== *)
(** * The trigger endpoint *)
(* ===================================================================== *)

Section Trigger.

Lemma statistics_iadd_spec (key : string) (n v : Z) (w : World) :
  statistics w !! key = Some v ->
  statistics_iadd key n w = (Ok tt, set_statistics (<[key := (v + n)%Z]> (statistics w)) w).
Proof. intro L. unfold statistics_iadd. now rewrite L. Qed.

(** Counting over the calls of two steps in a row. *)
Lemma delivered_on_compose (t : string) (w w1 : World) (new1 new2 : list KafkaCall) :
  calls_appended new1 w w1 ->
  delivered_on (cluster w) t (length (calls (cluster w))) (new1 ++ new2)
  = (delivered_on (cluster w) t (length (calls (cluster w))) new1
     + delivered_on (cluster w1) t (length (calls (cluster w1))) new2)%Z.
Proof.
  intros [O C]. rewrite delivered_on_app.
  rewrite (delivered_on_oracles _ _ _ _ _ O), C, length_app. reflexivity.
Qed.

Lemma calls_appended_from (w v w' : World) (new_calls : list KafkaCall) :
  cluster v = cluster w -> calls_appended new_calls v w' -> calls_appended new_calls w w'.
Proof. unfold calls_appended. now intros ->. Qed.

Lemma sends_to_app (topic : string) (l k : list KafkaCall) :
  sends_to topic (l ++ k) = (sends_to topic l ++ sends_to topic k)%list.
Proof.
  induction l as [|call l IH]; [reflexivity|].
  destruct call as [? | t message |]; cbn [sends_to app]; try exact IH.
  destruct (String.eqb t topic); [cbn; now rewrite IH | exact IH].
Qed.

(** Publishing the alerts of one reading: sends to the alert topic only. *)
Lemma publish_alerts_loop_spec (alerts : list SensorAlert) :
  forall (alerts_generated : Z) (w : World),
    exists (n : Z) (w' : World) (new_calls : list KafkaCall),
      publish_alerts_loop alerts alerts_generated w = (Ok n, w') /\
      publish_frame w w' /\ calls_appended new_calls w w' /\
      delivered_on (cluster w) SENSOR_TOPIC (length (calls (cluster w))) new_calls = 0%Z /\
      sends_to SENSOR_TOPIC new_calls = [].
Proof.
  induction alerts as [|alert rest IH]; intros acc w.
  - exists acc, w, []. repeat split. now rewrite app_nil_r.
  - cbn [publish_alerts_loop].
    destruct (publish_message_spec ALERT_TOPIC (SensorAlert_dict alert) w)
      as (ok & w1 & new1 & E1 & F1 & A1 & N1 & D1).
    rewrite (bind_ok _ _ _ _ _ E1).
    assert (Step : forall acc',
               exists n w' new_calls,
                 publish_alerts_loop rest acc' w1 = (Ok n, w') /\
                 publish_frame w w' /\ calls_appended new_calls w w' /\
                 delivered_on (cluster w) SENSOR_TOPIC (length (calls (cluster w)))
                   new_calls = 0%Z /\
                 sends_to SENSOR_TOPIC new_calls = []).
    { intro acc'.
      destruct (IH acc' w1) as (n & w' & new2 & E2 & F2 & A2 & D2 & T2).
      exists n, w', (new1 ++ new2)%list.
      split; [exact E2|].
      split; [exact (publish_frame_trans _ _ _ F1 F2)|].
      split; [exact (calls_appended_trans _ _ _ _ _ A1 A2)|].
      split.
      - rewrite (delivered_on_compose _ _ _ _ _ A1), D2, (D1 SENSOR_TOPIC).
        reflexivity.
      - rewrite sends_to_app, T2, N1.
        now destruct (not_connected (kafka_manager w)). }
    destruct ok; apply Step.
Qed.

(** The loop over the batch. *)
Lemma trigger_loop_spec (batch : list SensorData) :
  forall (published_count alerts_generated v : Z) (w : World),
    statistics w !! "total_events_published" = Some v ->
    exists (p a : Z) (w' : World) (new_calls : list KafkaCall),
      trigger_loop batch published_count alerts_generated w = (Ok (p, a), w') /\
      calls_appended new_calls w w' /\
      (p - published_count)%Z
      = delivered_on (cluster w) SENSOR_TOPIC (length (calls (cluster w))) new_calls /\
      statistics w' !! "total_events_published" = Some (v + (p - published_count))%Z /\
      (forall key : string,
         key <> "total_events_published" -> statistics w' !! key = statistics w !! key) /\
      (0 <= p - published_count <= Z.of_nat (length batch))%Z /\
      kafka_manager w' = kafka_manager w /\
      sends_to SENSOR_TOPIC new_calls
      = (if not_connected (kafka_manager w) then []
         else map SensorData_dict batch).
Proof.
  induction batch as [|sensor_data rest IH]; intros p0 a0 v w L.
  - exists p0, a0, w, []. cbn.
    split; [reflexivity|]. split; [apply calls_appended_nil|].
    split; [lia|]. split; [now rewrite Z.sub_diag, Z.add_0_r|].
    split; [reflexivity|]. split; [lia|]. split; [reflexivity|].
    now destruct (not_connected (kafka_manager w)).
  - cbn [trigger_loop].
    destruct (publish_message_spec SENSOR_TOPIC (SensorData_dict sensor_data) w)
      as (ok & w1 & new1 & E1 & F1 & A1 & N1 & D1).
    specialize (D1 SENSOR_TOPIC). rewrite String.eqb_refl in D1.
    rewrite (bind_ok _ _ _ _ _ E1).
    destruct F1 as (_ & K1 & S1 & _).
    assert (T1 : sends_to SENSOR_TOPIC new1
                 = if not_connected (kafka_manager w) then []
                   else [SensorData_dict sensor_data]).
    { rewrite N1. now destruct (not_connected (kafka_manager w)). }
    destruct ok.
    + (* the reading was published *)
      assert (L1 : statistics w1 !! "total_events_published" = Some v) by now rewrite S1.
      pose proof (statistics_iadd_spec _ 1 _ _ L1) as E2.
      set (w2 := set_statistics _ w1) in E2.
      rewrite (bind_ok _ _ _ _ _ E2).
      destruct (detect_anomalies_shape sensor_data w2)
        as (l1 & l2 & l3 & l4 & w3 & E3 & F3 & _).
      rewrite (bind_ok _ _ _ _ _ E3).
      destruct F3 as (_ & K3 & S3 & C3 & _).
      destruct (publish_alerts_loop_spec (((l1 ++ l2) ++ l3) ++ l4) a0 w3)
        as (a1 & w4 & new2 & E4 & F4 & A4 & D4 & T4).
      rewrite (bind_ok _ _ _ _ _ E4).
      destruct F4 as (_ & K4 & S4 & _).
      assert (A4' : calls_appended new2 w1 w4).
      { apply (calls_appended_from w1 w3); [now rewrite C3 | exact A4]. }
      assert (D4' : delivered_on (cluster w1) SENSOR_TOPIC (length (calls (cluster w1)))
                      new2 = 0%Z).
      { rewrite <- D4, C3. reflexivity. }
      assert (St4 : statistics w4 = <["total_events_published" := (v + 1)%Z]> (statistics w)).
      { rewrite S4, S3. unfold w2. cbn. now rewrite S1. }
      assert (L4 : statistics w4 !! "total_events_published" = Some (v + 1)%Z).
      { rewrite St4. apply lookup_insert_eq. }
      destruct (IH (p0 + 1)%Z a1 (v + 1)%Z w4 L4)
        as (p & a & w' & new3 & E5 & A5 & D5 & L5 & O5 & B5 & K5 & T5).
      exists p, a, w', (new1 ++ new2 ++ new3)%list.
      split; [exact E5|].
      split.
      { apply (calls_appended_trans _ _ _ _ _ A1).
        exact (calls_appended_trans _ _ _ _ _ A4' A5). }
      split.
      { rewrite (delivered_on_compose _ _ _ _ _ A1), D1.
        rewrite (delivered_on_compose _ _ _ _ _ A4'), D4', <- D5. cbn. lia. }
      split; [rewrite L5; f_equal; lia|].
      split.
      { intros key Hk. rewrite (O5 key Hk), St4. now apply lookup_insert_ne. }
      split; [cbn [length]; lia|].
      split; [now rewrite K5, K4, K3|].
      rewrite !sends_to_app, T1, T4, T5, K4, K3.
      change (kafka_manager w2) with (kafka_manager w1).
      rewrite K1. now destruct (not_connected (kafka_manager w)).
    + (* the reading was not published *)
      assert (L1 : statistics w1 !! "total_events_published" = Some v) by now rewrite S1.
      destruct (IH p0 a0 v w1 L1)
        as (p & a & w' & new3 & E5 & A5 & D5 & L5 & O5 & B5 & K5 & T5).
      exists p, a, w', (new1 ++ new3)%list.
      split; [exact E5|].
      split; [exact (calls_appended_trans _ _ _ _ _ A1 A5)|].
      split.
      { rewrite (delivered_on_compose _ _ _ _ _ A1), D1, <- D5. cbn. lia. }
      split; [exact L5|].
      split.
      { intros key Hk. now rewrite (O5 key Hk), S1. }
      split; [cbn [length]; lia|].
      split; [now rewrite K5|].
      rewrite sends_to_app, T1, T5, K1.
      now destruct (not_connected (kafka_manager w)).
Qed.

(** [generate_batch] returns one reading per index when the ranges are
    those of [__init__] and [random()] stays in [0, 1). *)
Lemma generate_batch_loop_spec (indices : list Z) :
  forall (batch : list SensorData) (w : World),
    normal_ranges (simulator w) = normal_ranges Simulator.init ->
    (forall n : nat, 0 <= random_value (random w) n < 1) ->
    exists batch' w',
      generate_batch_loop indices batch w = (Ok batch', w') /\
      generation_frame w w' /\
      length batch' = (length batch + length indices)%nat.
Proof.
  induction indices as [|i rest IH]; intros batch w Hr Hu.
  - exists batch, w. cbn. repeat split. lia.
  - cbn [generate_batch_loop].
    destruct (generate_sensor_data_spec ("sensor_" ++ format_03d i) w Hr (Hu _))
      as (d & w1 & E1 & _ & F1 & _).
    rewrite (bind_ok _ _ _ _ _ E1).
    destruct F1 as (K1 & S1 & C1 & Fl1 & N1 & T1 & R1 & G1).
    destruct (IH (batch ++ [d])%list w1) as (batch' & w' & E2 & F2 & Len).
    { now rewrite N1. }
    { intro n. rewrite R1. apply Hu. }
    exists batch', w'. split; [exact E2|].
    destruct F2 as (K2 & S2 & C2 & Fl2 & N2 & T2 & R2 & G2).
    split; [unfold generation_frame; repeat split; congruence|].
    rewrite Len, length_app. cbn. lia.
Qed.

Lemma length_py_range (lo hi : Z) : length (py_range lo hi) = Z.to_nat (hi - lo).
Proof. unfold py_range. now rewrite length_map, length_seq. Qed.

End Trigger.

Section TriggerClaims.

(** C8.  A trigger request for [count] readings on a manager whose
    connected flag is set, with [random()] in [0, 1) and both counters in
    the statistics, returns its response.  The batch has [count] readings,
    and each of them is published once, in order: the sends to the sensors
    topic are exactly the readings of the batch (none when there is no
    producer, and then every publish fails).  The triggered-sensors counter
    has grown by exactly [count], while the published-events counter has
    grown by the number of those sends that were acknowledged, which is
    what the response reports and lies between 0 and [count]. *)
Theorem trigger_sensors_counters (count published triggered : Z) (w : World) :
  is_connected (kafka_manager w) = true ->
  normal_ranges (simulator w) = normal_ranges Simulator.init ->
  (forall n : nat, 0 <= random_value (random w) n < 1) ->
  statistics w !! "total_events_published" = Some published ->
  statistics w !! "total_sensors_triggered" = Some triggered ->
  exists (response : TriggerResponse) (w' : World) (new_calls : list KafkaCall)
         (batch : list SensorData),
    trigger_sensors count w = (Ok response, w') /\
    calls_appended new_calls w w' /\
    fst (generate_batch count w) = Ok batch /\
    length batch = Z.to_nat count /\
    sends_to SENSOR_TOPIC new_calls
    = match producer (kafka_manager w) with
      | Some _ => map SensorData_dict batch
      | None => []
      end /\
    statistics w' !! "total_sensors_triggered" = Some (triggered + count)%Z /\
    statistics w' !! "total_events_published"
    = Some (published + events_published response)%Z /\
    events_published response
    = delivered_on (cluster w) SENSOR_TOPIC (length (calls (cluster w))) new_calls /\
    sensors_triggered response = count /\
    (0 <= events_published response <= Z.max 0 count)%Z.
Proof.
  intros C Hr Hu Lp Lt.
  unfold trigger_sensors. run. rewrite C. cbn [negb].
  destruct (generate_batch_loop_spec (py_range 1 (count + 1)) [] w Hr Hu)
    as (batch & w1 & E1 & F1 & Len).
  destruct F1 as (K1 & S1 & C1 & _).
  assert (Lp1 : statistics w1 !! "total_events_published" = Some published)
    by now rewrite S1.
  destruct (trigger_loop_spec batch 0%Z 0%Z published w1 Lp1)
    as (p & a & w2 & new_calls & E2 & A2 & D2 & L2 & O2 & B2 & K2 & T2).
  assert (Lt2 : statistics w2 !! "total_sensors_triggered" = Some triggered).
  { rewrite (O2 "total_sensors_triggered") by discriminate. now rewrite S1. }
  pose proof (statistics_iadd_spec _ count _ _ Lt2) as E3.
  unfold generate_batch. rewrite E1, E2. cbn. rewrite E3. cbn.
  eexists _, _, new_calls, batch.
  split; [reflexivity|]. cbn.
  rewrite Z.sub_0_r in D2, L2, B2.
  rewrite Len, length_py_range in B2. cbn [length Nat.add] in B2.
  split; [exact (calls_appended_from w w1 _ _ C1 A2)|].
  split; [reflexivity|].
  split; [rewrite Len, length_py_range; cbn [length Nat.add]; f_equal; lia|].
  split.
  { rewrite T2, K1. unfold not_connected. rewrite C. cbn [negb orb].
    now destruct (producer (kafka_manager w)). }
  split; [apply lookup_insert_eq|].
  split; [rewrite lookup_insert_ne by discriminate; exact L2|].
  split; [now rewrite <- C1|].
  split; [reflexivity|].
  lia.
Qed.

End TriggerClaims.

(* ===================================================================== *)
(** * The properties on the sample worlds *)
(* ===================================================================== *)

(** The anomaly scenario [low_battery]: battery 0.15 under the thresholds
    of [__init__]. *)
Lemma battery_015_yields_one_medium_alert_witness :
  (exists a w',
     _check_battery_alerts (sample_reading 0.15) (fresh_world [] 0) = (Ok [a], w') /\
     medium_battery_alert (sample_reading 0.15) (fresh_world [] 0) a) /\
  (exists alerts w' a,
     detect_anomalies (sample_reading 0.15) (fresh_world [] 0) = (Ok alerts, w') /\
     alerts_of_type "battery" alerts = [a] /\
     medium_battery_alert (sample_reading 0.15) (fresh_world [] 0) a).
Proof.
  apply (battery_015_yields_one_medium_alert (sample_reading 0.15) (fresh_world [] 0));
    reflexivity.
Defined.

Lemma generate_sensor_data_in_ranges_witness :
  exists d w',
    generate_sensor_data "sensor_001" (fresh_world [] 0) = (Ok d, w') /\ in_ranges d.
Proof.
  apply (generate_sensor_data_in_ranges "sensor_001" (fresh_world [] 0)).
  - reflexivity.
  - split; [discriminate | reflexivity].
Defined.

(** Both handles open, and still [initialize] returns [False]. *)
Lemma initialize_never_reports_success_witness :
  exists w',
    initialize (fresh_world [] 0) = (Ok (Some false), w') /\
    is_connected (kafka_manager w') = false /\
    admin_client (kafka_manager w') <> None /\
    producer (kafka_manager w') <> None.
Proof.
  destruct (initialize_never_reports_success (fresh_world [] 0)) as (w' & E & C & H).
  destruct (H eq_refl eq_refl) as [A P].
  exists w'. split; [exact E|]. split; [exact C|].
  split; [rewrite A | rewrite P]; discriminate.
Defined.

(** The first call creates the topics, the second is told that they
    exist: it returns [False]. *)
Lemma ensure_topics_exist_is_not_idempotent_witness :
  exists w1 w2,
    ensure_topics_exist sample_topics_config (connected_world [] 0) = (Ok true, w1) /\
    ensure_topics_exist sample_topics_config w1 = (Ok false, w2).
Proof.
  destruct (ensure_topics_exist_is_not_idempotent sample_topics_config
              [ {| topic_name := VStr "sensors"; num_partitions := VInt 1;
                   replication_factor := VInt 1 |};
                {| topic_name := VStr "alerts"; num_partitions := VInt 1;
                   replication_factor := VInt 1 |} ]
              (TopicAlreadyExistsError "exists") (connected_world [] 0))
    as (w1 & w2 & E1 & E2 & _).
  - discriminate.
  - reflexivity.
  - reflexivity.
  - reflexivity.
  - reflexivity.
  - exists w1, w2. split; [exact E1 | exact E2].
Defined.

(** Five payloads, the sends numbered 1 and 3 fail: three are counted, and
    the flush comes once, at the end. *)
Lemma publish_batch_counts_successes_witness :
  exists w',
    calls_appended (map (CallSend "sensors") sample_payloads ++ [CallFlush])
      (connected_world [1; 3]%nat 0) w' /\
    publish_frame (connected_world [1; 3]%nat 0) w' /\
    publish_batch "sensors" sample_payloads (connected_world [1; 3]%nat 0) = (Ok 3%Z, w').
Proof.
  exact (publish_batch_counts_successes "sensors" sample_payloads
           (connected_world [1; 3]%nat 0) eq_refl ltac:(discriminate)).
Defined.

Lemma publish_without_connection_does_nothing_witness :
  publish_message "sensors" [] (fresh_world [] 0) = (Ok false, fresh_world [] 0) /\
  publish_batch "sensors" sample_payloads (fresh_world [] 0) = (Ok 0%Z, fresh_world [] 0).
Proof.
  apply (publish_without_connection_does_nothing "sensors" [] sample_payloads
           (fresh_world [] 0)).
  left. reflexivity.
Defined.

(** Three readings triggered, the second publish fails: three sends to the
    sensors topic, the response and the counters report three sensors
    triggered and two events published. *)
Lemma trigger_sensors_counters_witness :
  exists (response : TriggerResponse) (w' : World) (new_calls : list KafkaCall)
         (batch : list SensorData),
    trigger_sensors 3 (connected_world [1]%nat 0) = (Ok response, w') /\
    length batch = 3%nat /\
    sends_to SENSOR_TOPIC new_calls = map SensorData_dict batch /\
    sensors_triggered response = 3%Z /\
    events_published response = 2%Z /\
    statistics w' !! "total_sensors_triggered" = Some 3%Z /\
    statistics w' !! "total_events_published" = Some 2%Z.
Proof.
  destruct (trigger_sensors_counters 3 0 0 (connected_world [1]%nat 0))
    as (response & w' & new_calls & batch & E & _ & _ & Len & Sends & Lt & Lp & _ & T & _).
  - reflexivity.
  - reflexivity.
  - intro n. split; [discriminate | reflexivity].
  - vm_compute. reflexivity.
  - vm_compute. reflexivity.
  - assert (P : events_published response = 2%Z).
    { pose proof (f_equal (fun r => match fst r with
                                    | Ok x => events_published x
                                    | Raise _ => 0%Z
                                    end) E) as P.
      cbn [fst] in P. rewrite <- P. vm_compute. reflexivity. }
    exists response, w', new_calls, batch.
    split; [exact E|]. split; [exact Len|]. split; [exact Sends|].
    split; [exact T|]. split; [exact P|]. split; [exact Lt|].
    rewrite Lp, P. reflexivity.
Defined.

(** Three readings triggered, the second publish fails: the response and
    the counters report three sensors triggered and two events published. *)
Example trigger_sensors_partial_failure :
  let r := trigger_sensors 3 (connected_world [1]%nat 0) in
  option_map (fun response => (sensors_triggered response, events_published response))
    (match fst r with Ok response => Some response | Raise _ => None end)
  = Some (3, 2)%Z /\
  statistics (snd r) !! "total_sensors_triggered" = Some 3%Z /\
  statistics (snd r) !! "total_events_published" = Some 2%Z.
Proof. vm_compute. repeat split. Qed.

(* ===================================================================== *)
(** * More on the classifier *)
(* ===================================================================== *)

Section ClassifierExact.

Variable sensor_data : SensorData.

(** What a per-dimension check returns, in full: it is silent exactly on
    [quiet], and what it returns is sound. *)
Let exactly (dimension : string) (w w' : World) (l : list SensorAlert) (quiet : Prop)
    : Prop :=
  clock_only w w' /\ (l = [] <-> quiet) /\
  Forall (fun a => alert_type a = dimension /\
                   alert_sensor_id a = sensor_id sensor_data /\
                   crosses (alert_thresholds (simulator w)) sensor_data a) l.

Ltac decide_rung :=
  repeat match goal with
         | |- context [if Qle_bool ?a ?b then _ else _] =>
             let E := fresh "E" in
             destruct (Qle_bool a b) eqn:E;
             [apply Qle_bool_iff in E | apply not_true_iff_false in E;
                                        rewrite Qle_bool_iff in E; apply Qnot_le_lt in E]
         end.

Ltac exact_case :=
  eexists _, _; split; [reflexivity|];
  split; [repeat split|];
  split;
  [ split; [ first [ discriminate | intros _; tauto ]
           | intro;
             first [ reflexivity
                   | exfalso;
                     repeat match goal with H : _ /\ _ |- _ => destruct H end; lra ] ]
  | first [ solve [constructor]
          | constructor;
            [split; [reflexivity | split; [reflexivity | unfold crosses; cbn]]
            | constructor] ] ].

Lemma check_temperature_exact (w : World) :
  exists l w',
    _check_temperature_alerts sensor_data w = (Ok l, w') /\
    exactly "temperature" w w' l
      (temperature sensor_data < lhc_critical (at_temperature (alert_thresholds (simulator w))) /\
       temperature sensor_data < lhc_high (at_temperature (alert_thresholds (simulator w))) /\
       lhc_low (at_temperature (alert_thresholds (simulator w))) < temperature sensor_data).
Proof.
  unfold _check_temperature_alerts, _create_alert, utcnow, exactly. run.
  decide_rung; exact_case.
  - left. repeat split. left. repeat split. assumption.
  - left. repeat split. right. left. repeat split; assumption.
  - left. repeat split. right. right. repeat split; assumption.
Qed.

Lemma check_humidity_exact (w : World) :
  exists l w',
    _check_humidity_alerts sensor_data w = (Ok l, w') /\
    exactly "humidity" w w' l
      (humidity sensor_data < lhc_critical (at_humidity (alert_thresholds (simulator w))) /\
       humidity sensor_data < lhc_high (at_humidity (alert_thresholds (simulator w))) /\
       lhc_low (at_humidity (alert_thresholds (simulator w))) < humidity sensor_data).
Proof.
  unfold _check_humidity_alerts, _create_alert, utcnow, exactly. run.
  decide_rung; exact_case.
  - right. left. repeat split. left. repeat split. assumption.
  - right. left. repeat split. right. left. repeat split; assumption.
  - right. left. repeat split. right. right. repeat split; assumption.
Qed.

Lemma check_pressure_exact (w : World) :
  exists l w',
    _check_pressure_alerts sensor_data w = (Ok l, w') /\
    exactly "pressure" w w' l
      (pressure sensor_data < lh_high (at_pressure (alert_thresholds (simulator w))) /\
       lh_low (at_pressure (alert_thresholds (simulator w))) < pressure sensor_data).
Proof.
  unfold _check_pressure_alerts, _create_alert, utcnow, exactly. run.
  decide_rung; exact_case.
  - right. right. left. repeat split. left. repeat split. assumption.
  - right. right. left. repeat split. right. repeat split; assumption.
Qed.

Lemma check_battery_exact (w : World) :
  exists l w',
    _check_battery_alerts sensor_data w = (Ok l, w') /\
    exactly "battery" w w' l
      (lc_critical (at_battery (alert_thresholds (simulator w))) < battery_level sensor_data /\
       lc_low (at_battery (alert_thresholds (simulator w))) < battery_level sensor_data).
Proof.
  unfold _check_battery_alerts, _create_alert, utcnow, exactly. run.
  decide_rung; exact_case.
  - right. right. right. repeat split. left. repeat split. assumption.
  - right. right. right. repeat split. right. repeat split; assumption.
Qed.

(** The four results put together. *)
Lemma detect_anomalies_exact (w : World) :
  exists l1 l2 l3 l4 w',
    detect_anomalies sensor_data w = (Ok (((l1 ++ l2) ++ l3) ++ l4)%list, w') /\
    clock_only w w' /\
    let th := alert_thresholds (simulator w) in
    let sound := fun dimension : string =>
      Forall (fun a => alert_type a = dimension /\
                       alert_sensor_id a = sensor_id sensor_data /\
                       crosses th sensor_data a) in
    (l1 = [] <-> temperature sensor_data < lhc_critical (at_temperature th) /\
                 temperature sensor_data < lhc_high (at_temperature th) /\
                 lhc_low (at_temperature th) < temperature sensor_data) /\
    (l2 = [] <-> humidity sensor_data < lhc_critical (at_humidity th) /\
                 humidity sensor_data < lhc_high (at_humidity th) /\
                 lhc_low (at_humidity th) < humidity sensor_data) /\
    (l3 = [] <-> pressure sensor_data < lh_high (at_pressure th) /\
                 lh_low (at_pressure th) < pressure sensor_data) /\
    (l4 = [] <-> lc_critical (at_battery th) < battery_level sensor_data /\
                 lc_low (at_battery th) < battery_level sensor_data) /\
    sound "temperature" l1 /\ sound "humidity" l2 /\
    sound "pressure" l3 /\ sound "battery" l4.
Proof.
  destruct (check_temperature_exact w) as (l1 & w1 & E1 & F1 & Q1 & S1).
  destruct (check_humidity_exact w1) as (l2 & w2 & E2 & F2 & Q2 & S2).
  destruct (check_pressure_exact w2) as (l3 & w3 & E3 & F3 & Q3 & S3).
  destruct (check_battery_exact w3) as (l4 & w4 & E4 & F4 & Q4 & S4).
  pose proof (clock_only_trans _ _ _ F1 F2) as F12.
  pose proof (clock_only_trans _ _ _ F12 F3) as F13.
  assert (T1 : simulator w1 = simulator w) by apply F1.
  assert (T2 : simulator w2 = simulator w) by apply F12.
  assert (T3 : simulator w3 = simulator w) by apply F13.
  rewrite T1 in Q2, S2. rewrite T2 in Q3, S3. rewrite T3 in Q4, S4.
  exists l1, l2, l3, l4, w4.
  split.
  { unfold detect_anomalies.
    rewrite (bind_ok _ _ _ _ _ E1), (bind_ok _ _ _ _ _ E2),
            (bind_ok _ _ _ _ _ E3), (bind_ok _ _ _ _ _ E4).
    reflexivity. }
  split; [exact (clock_only_trans _ _ _ F13 F4)|].
  cbv zeta. tauto.
Qed.

End ClassifierExact.

Section ClassifierExtras.

Variable sensor_data : SensorData.

(** X1.  Under the thresholds of [__init__], [detect_anomalies] returns no
    alert exactly for a reading with 18 < temperature < 26,
    30 < humidity < 80, 1000 < pressure < 1025 and battery above 0.2. *)
Theorem detect_anomalies_silent_iff_inside_bands (w : World) :
  alert_thresholds (simulator w) = alert_thresholds Simulator.init ->
  exists alerts w',
    detect_anomalies sensor_data w = (Ok alerts, w') /\
    (alerts = [] <-> inside_bands sensor_data).
Proof.
  intro T.
  destruct (detect_anomalies_exact sensor_data w)
    as (l1 & l2 & l3 & l4 & w' & E & _ & Q1 & Q2 & Q3 & Q4 & _).
  rewrite T in Q1, Q2, Q3, Q4. cbn in Q1, Q2, Q3, Q4.
  exists (((l1 ++ l2) ++ l3) ++ l4)%list, w'. split; [exact E|].
  unfold inside_bands. split.
  - intro N.
    apply app_eq_nil in N as [N ->]. apply app_eq_nil in N as [N ->].
    apply app_eq_nil in N as [-> ->].
    destruct Q1 as [Q1 _], Q2 as [Q2 _], Q3 as [Q3 _], Q4 as [Q4 _].
    specialize (Q1 eq_refl). specialize (Q2 eq_refl).
    specialize (Q3 eq_refl). specialize (Q4 eq_refl).
    repeat match goal with H : _ /\ _ |- _ => destruct H end.
    repeat split; lra.
  - intros ((T1 & T2) & (H1 & H2) & (P1 & P2) & B).
    destruct Q1 as [_ ->]; [|repeat split; lra].
    destruct Q2 as [_ ->]; [|repeat split; lra].
    destruct Q3 as [_ ->]; [|repeat split; lra].
    destruct Q4 as [_ ->]; [|repeat split; lra].
    reflexivity.
Qed.

(** X2.  Every alert [detect_anomalies] returns names the sensor of the
    reading, carries the reading's value in the alert's dimension, and
    reports the most severe bound that value crosses, with the severity of
    that bound: critical before high before low for temperature and
    humidity, medium for either pressure bound, critical before medium for
    the battery. *)
Theorem detect_anomalies_alerts_cross_their_threshold (w : World) :
  exists alerts w',
    detect_anomalies sensor_data w = (Ok alerts, w') /\
    Forall (fun a => alert_sensor_id a = sensor_id sensor_data /\
                     crosses (alert_thresholds (simulator w)) sensor_data a) alerts.
Proof.
  destruct (detect_anomalies_exact sensor_data w)
    as (l1 & l2 & l3 & l4 & w' & E & _ & _ & _ & _ & _ & S1 & S2 & S3 & S4).
  exists (((l1 ++ l2) ++ l3) ++ l4)%list, w'. split; [exact E|].
  repeat apply Forall_app_2;
    match goal with
    | H : Forall _ ?l |- Forall _ ?l =>
        apply (Forall_impl _ _ _ H); intros a (_ & ? & ?); now split
    end.
Qed.

End ClassifierExtras.

(* ===================================================================== *)
(** * More on the generator *)
(* ===================================================================== *)

Section GeneratorExact.

Variable sensor_id : string.

(** The fields of a generated reading as functions of the draws, and what
    the call consumes. *)
Lemma generate_sensor_data_fields (w w' : World) (d : SensorData) :
  generate_sensor_data sensor_id w = (Ok d, w') ->
  let ranges := normal_ranges (simulator w) in
  let clamp := fun (cfg : GaussRange) (x : Q) => py_max (nr_min cfg) (py_min (nr_max cfg) x) in
  Models.sensor_id d = sensor_id /\
  temperature d
  = round2 (clamp (nr_temperature ranges)
              (nr_mean (nr_temperature ranges)
               + next_gauss 0 w * nr_std (nr_temperature ranges))) /\
  humidity d
  = round2 (clamp (nr_humidity ranges)
              (nr_mean (nr_humidity ranges)
               + (temperature d - nr_mean (nr_temperature ranges)) * -2
               + next_gauss 1 w * nr_std (nr_humidity ranges))) /\
  gauss_calls (random w') = (3 + gauss_calls (random w))%nat /\
  random_calls (random w') = (1 + random_calls (random w))%nat /\
  utcnow_calls (clock w') = (1 + utcnow_calls (clock w))%nat.
Proof.
  unfold generate_sensor_data, random_gauss, random_uniform, increment_event_counter,
    utcnow, new_SensorData.
  run.
  cbn -[round2 py_max py_min Qplus Qmult Qminus SensorData_valid].
  destruct (SensorData_valid _); intro E; inversion E; subst; clear E.
  cbn -[round2 py_max py_min Qplus Qmult Qminus].
  repeat split; reflexivity.
Qed.

End GeneratorExact.

Section GeneratorExtras.

Variable sensor_id : string.

(** X3.  A reading built by [generate_sensor_data] under the tables of
    [__init__] has a battery level of at least 0.3, above both battery
    thresholds, so [detect_anomalies] never returns a battery alert for
    it. *)
Theorem generated_reading_raises_no_battery_alert (w : World) :
  default_tables w ->
  0 <= next_random w < 1 ->
  exists d w1 alerts w2,
    generate_sensor_data sensor_id w = (Ok d, w1) /\
    0.3 <= battery_level d /\
    detect_anomalies d w1 = (Ok alerts, w2) /\
    alerts_of_type "battery" alerts = [].
Proof.
  intros [Hr Ht] Hu.
  destruct (generate_sensor_data_spec sensor_id w Hr Hu) as (d & w1 & E & _ & F & _).
  destruct (generate_sensor_data_pressure_battery sensor_id w w1 d E) as [_ B].
  assert (Hb : 0.3 <= battery_level d).
  { rewrite B, Hr. unfold spec_battery. cbn -[round2 Qplus Qmult Qminus].
    destruct Hu as [U0 U1]. unfold next_random in *.
    match goal with |- _ <= round2 ?x =>
      destruct (round2_range 30 100 x); [lra | lra | lra] end. }
  destruct (detect_anomalies_exact d w1)
    as (l1 & l2 & l3 & l4 & w2 & E2 & _ & _ & _ & _ & Q4 & S1 & S2 & S3 & _).
  assert (T1 : alert_thresholds (simulator w1) = alert_thresholds Simulator.init).
  { destruct F as (_ & _ & _ & _ & _ & T & _). now rewrite T. }
  rewrite T1 in Q4. cbn in Q4.
  assert (L4 : l4 = []) by (apply Q4; split; lra). subst l4.
  exists d, w1, (((l1 ++ l2) ++ l3) ++ [])%list, w2.
  split; [exact E|]. split; [exact Hb|]. split; [exact E2|].
  unfold alerts_of_type. rewrite !List.filter_app. cbn [List.filter].
  assert (N : forall (dim : string) (l : list SensorAlert),
             String.eqb dim "battery" = false ->
             Forall (fun a => alert_type a = dim /\
                              alert_sensor_id a = Models.sensor_id d /\
                              crosses (alert_thresholds (simulator w1)) d a) l ->
             List.filter (fun a => String.eqb (alert_type a) "battery") l = []).
  { intros dim l Hd Hl. induction Hl as [|a l (Ta & _) _ IH]; [reflexivity|].
    cbn [List.filter]. now rewrite Ta, Hd. }
  rewrite (N "temperature" _ eq_refl S1), (N "humidity" _ eq_refl S2),
    (N "pressure" _ eq_refl S3). reflexivity.
Qed.

End GeneratorExtras.

Section CustomExtras.

Variable sensor_id : string.

Lemma SensorData_valid_iff (d : SensorData) :
  SensorData_valid d = true <->
  (15 <= temperature d /\ temperature d <= 35) /\
  (20 <= humidity d /\ humidity d <= 95) /\
  (0 <= battery_level d /\ battery_level d <= 1).
Proof.
  unfold SensorData_valid, field_ge_le.
  rewrite !andb_true_iff, !Qle_bool_iff. tauto.
Qed.

(** The battery level drawn for an omitted field. *)
Lemma drawn_battery_range (w : World) :
  normal_ranges (simulator w) = normal_ranges Simulator.init ->
  0 <= next_random w < 1 ->
  0.3 <= spec_battery (normal_ranges (simulator w)) (next_random w) <= 1.
Proof.
  intros Hr [U0 U1]. rewrite Hr. unfold spec_battery.
  cbn -[round2 Qplus Qmult Qminus].
  match goal with |- _ <= round2 ?x <= _ =>
    destruct (round2_range 30 100 x); [lra | lra | split; lra] end.
Qed.

(** X4.  [generate_custom_sensor_data] is not free of validation: the
    model's field constraints apply.  With temperature in [15, 35],
    humidity in [20, 95] and a given battery level in [0, 1], it returns a
    reading that carries the sensor id, temperature, humidity and any given
    pressure or battery level verbatim (an omitted battery level is drawn
    in [0.3, 1]); otherwise the construction of the reading raises.  Any
    pressure is accepted. *)
Theorem generate_custom_accepts_exactly_valid_fields (temperature humidity : Q)
    (pressure battery_level : option Q) (w : World) :
  normal_ranges (simulator w) = normal_ranges Simulator.init ->
  0 <= next_random w < 1 ->
  let accepted :=
    (15 <= temperature /\ temperature <= 35) /\
    (20 <= humidity /\ humidity <= 95) /\
    match battery_level with
    | Some b => 0 <= b /\ b <= 1
    | None => True
    end in
  let r := generate_custom_sensor_data sensor_id temperature humidity
             pressure battery_level w in
  (accepted ->
   exists d,
     fst r = Ok d /\
     Models.sensor_id d = sensor_id /\
     Models.temperature d = temperature /\
     Models.humidity d = humidity /\
     (forall p, pressure = Some p -> Models.pressure d = p) /\
     match battery_level with
     | Some b => Models.battery_level d = b
     | None => 0.3 <= Models.battery_level d /\ Models.battery_level d <= 1
     end) /\
  (~ accepted -> exists e, fst r = Raise e).
Proof.
  intros Hr Hu accepted r.
  pose proof (drawn_battery_range w Hr Hu) as [B0 B1].
  unfold spec_battery, next_random in B0, B1. cbv zeta in B0, B1.
  unfold r, generate_custom_sensor_data, random_gauss, random_uniform, utcnow,
    new_SensorData.
  destruct pressure as [p|], battery_level as [b|]; run;
    cbn -[round2 Qplus Qmult Qminus SensorData_valid];
    match goal with
    | |- context [SensorData_valid ?D] =>
        pose proof (SensorData_valid_iff D) as V;
        cbn -[round2 Qplus Qmult Qminus SensorData_valid] in V;
        destruct (SensorData_valid D)
    end;
    (split;
     [ intro A; unfold accepted in A;
       first [ eexists; split; [reflexivity|]; cbn -[round2 Qplus Qmult Qminus];
               repeat split; try reflexivity; try assumption;
               intros ? [=]; congruence
             | exfalso;
               assert (false = true) by (apply V; intuition (try lra)); discriminate ]
     | intro A; unfold accepted in A;
       first [ eexists; reflexivity
             | exfalso; apply A; destruct V as [V _]; specialize (V eq_refl);
               intuition ] ]).
Qed.

(** X5.  [generate_custom_sensor_data] draws from the random source only
    for the fields that are omitted: one normal deviate for the pressure,
    one [random()] for the battery level, in this order.  With both fields
    given the random source is left untouched, whether the reading is
    accepted or not. *)
Theorem generate_custom_draws_only_for_omitted_fields (temperature humidity : Q)
    (pressure battery_level : option Q) (w : World) :
  let w' := snd (generate_custom_sensor_data sensor_id temperature humidity
                   pressure battery_level w) in
  gauss_calls (random w')
  = (gauss_calls (random w) + draws_for pressure)%nat /\
  random_calls (random w')
  = (random_calls (random w) + draws_for battery_level)%nat /\
  gauss_value (random w') = gauss_value (random w) /\
  random_value (random w') = random_value (random w) /\
  utcnow_calls (clock w') = S (utcnow_calls (clock w)).
Proof.
  unfold generate_custom_sensor_data, random_gauss, random_uniform, utcnow,
    new_SensorData.
  destruct pressure, battery_level; run;
    cbn -[round2 Qplus Qmult Qminus SensorData_valid];
    destruct (SensorData_valid _); cbn; repeat split; lia.
Qed.

End CustomExtras.

Section Correlation.






End Correlation.

Section BatchExtras.

Lemma parse_digits_zeros (k : nat) (s : string) :
  parse_digits (zeros k ++ s) = parse_digits s.
Proof.
  induction k as [|k IH]; [reflexivity|].
  rewrite <- IH. unfold parse_digits.
  change (zeros (S k) ++ s) with (String "0" (zeros k ++ s)).
  cbn [NilEmpty.uint_of_string].
  destruct (NilEmpty.uint_of_string (zeros k ++ s)) as [d|]; reflexivity.
Qed.

Lemma parse_digits_str_int (i : Z) : (0 <= i)%Z -> parse_digits (str_int i) = Some i.
Proof.
  intro H. unfold str_int, parse_digits.
  destruct i as [|p|p]; [reflexivity | | lia].
  cbn [Z.to_int NilZero.string_of_int].
  pose proof (DecimalPos.Unsigned.of_to p) as O.
  unfold NilZero.string_of_uint.
  destruct (Pos.to_uint p) as [|u|u|u|u|u|u|u|u|u|u];
    [ cbn in O; discriminate
    | cbv beta iota; rewrite NilEmpty.usu; cbn [option_map]; unfold Z.of_uint;
      now rewrite O .. ].
Qed.

Lemma format_03d_inj (i j : Z) :
  (0 <= i)%Z -> (0 <= j)%Z -> format_03d i = format_03d j -> i = j.
Proof.
  intros Hi Hj E.
  assert (P : forall k, (0 <= k)%Z -> parse_digits (format_03d k) = Some k).
  { intros k Hk. unfold format_03d.
    destruct (Z.ltb_spec k 0); [lia|].
    cbv zeta. rewrite parse_digits_zeros. now apply parse_digits_str_int. }
  pose proof (P i Hi) as Pi. rewrite E, (P j Hj) in Pi. congruence.
Qed.
(** The identifiers [generate_batch] hands out are distinct for distinct
    indices. *)
Lemma batch_ids_NoDup (lo hi : Z) :
  (0 <= lo)%Z ->
  List.NoDup (map (fun i => "sensor_" ++ format_03d i) (py_range lo hi)).
Proof.
  intro H. unfold py_range. rewrite map_map.
  apply Finite.Injective_map_NoDup_in; [|apply List.seq_NoDup].
  intros a b _ _ E. cbn in E. inversion E as [E'].
  apply format_03d_inj in E'; lia.
Qed.

(** The loop of [generate_batch], in full. *)
Lemma generate_batch_loop_full (indices : list Z) :
  forall (batch : list SensorData) (w : World),
    normal_ranges (simulator w) = normal_ranges Simulator.init ->
    random_in_unit w ->
    exists new w',
      generate_batch_loop indices batch w = (Ok (batch ++ new)%list, w') /\
      map sensor_id new = map (fun i => "sensor_" ++ format_03d i) indices /\
      Forall in_ranges new /\
      event_counter (simulator w')
      = (event_counter (simulator w) + Z.of_nat (length indices))%Z /\
      generation_frame w w'.
Proof.
  induction indices as [|i rest IH]; intros batch w Hr Hu.
  - exists [], w. cbn. rewrite app_nil_r, Z.add_0_r. repeat split. constructor.
  - cbn [generate_batch_loop].
    destruct (generate_sensor_data_spec ("sensor_" ++ format_03d i) w Hr (Hu _))
      as (d & w1 & E1 & R1 & F1 & C1).
    destruct (generate_sensor_data_fields _ _ _ _ E1) as (I1 & _).
    rewrite (bind_ok _ _ _ _ _ E1).
    destruct F1 as (K1 & S1 & Cl1 & Fl1 & N1 & T1 & Rv1 & G1).
    destruct (IH (batch ++ [d])%list w1) as (new & w' & E2 & Ids & Rs & C2 & F2).
    { now rewrite N1. }
    { intro n. rewrite Rv1. apply Hu. }
    exists (d :: new), w'.
    split; [now rewrite E2, <- app_assoc|].
    split; [cbn [map]; now rewrite I1, Ids|].
    split; [now constructor|].
    split; [rewrite C2, C1; cbn [length]; lia|].
    destruct F2 as (K2 & S2 & Cl2 & Fl2 & N2 & T2 & Rv2 & G2).
    unfold generation_frame. repeat split; congruence.
Qed.

(** X7.  Under the ranges of [__init__] and with [random()] in [0, 1),
    [generate_batch(count)] returns exactly [count] readings (none when
    [count] is zero or negative), every one within the ranges of the data
    model, with the identifiers [sensor_001], [sensor_002], ... in order,
    and advances the event counter by the number of readings. *)
Theorem generate_batch_readings (count : Z) (w : World) :
  normal_ranges (simulator w) = normal_ranges Simulator.init ->
  random_in_unit w ->
  exists batch w',
    generate_batch count w = (Ok batch, w') /\
    length batch = Z.to_nat count /\
    map sensor_id batch
    = map (fun i => "sensor_" ++ format_03d i) (py_range 1 (count + 1)) /\
    Forall in_ranges batch /\
    event_counter (simulator w') = (event_counter (simulator w) + Z.max 0 count)%Z.
Proof.
  intros Hr Hu.
  destruct (generate_batch_loop_full (py_range 1 (count + 1)) [] w Hr Hu)
    as (batch & w' & E & Ids & Rs & C & _).
  exists batch, w'. split; [exact E|].
  assert (L : length batch = Z.to_nat count).
  { rewrite <- (length_map sensor_id), Ids, length_map, length_py_range. f_equal. lia. }
  split; [exact L|]. split; [exact Ids|]. split; [exact Rs|].
  rewrite C, length_py_range. lia.
Qed.

(** X8.  The identifiers of the readings of one batch are pairwise
    distinct. *)
Theorem generate_batch_ids_are_distinct (count : Z) (w : World) :
  normal_ranges (simulator w) = normal_ranges Simulator.init ->
  random_in_unit w ->
  exists batch w',
    generate_batch count w = (Ok batch, w') /\
    List.NoDup (map sensor_id batch).
Proof.
  intros Hr Hu.
  destruct (generate_batch_loop_full (py_range 1 (count + 1)) [] w Hr Hu)
    as (batch & w' & E & Ids & _).
  exists batch, w'. split; [exact E|].
  rewrite Ids. apply batch_ids_NoDup. lia.
Qed.

End BatchExtras.

(* ===================================================================== *)
(** * More on the Kafka manager *)
(* ===================================================================== *)

Section ManagerExtras.

(** X9.  [publish_message] never raises and never touches the manager: a
    failed publish leaves the connection state as it is.  It makes at most
    one call on the client, a send of its message to its topic, and
    returns [True] exactly when the manager is connected and that send is
    acknowledged. *)
Theorem publish_message_never_raises_keeps_connection (topic : string)
    (message : PyDict) (w : World) :
  exists (ok : bool) (w' : World),
    publish_message topic message w = (Ok ok, w') /\
    kafka_manager w' = kafka_manager w /\
    (ok = true <->
     not_connected (kafka_manager w) = false /\
     delivered (cluster w) (length (calls (cluster w))) topic message = true) /\
    calls (cluster w')
    = (calls (cluster w)
       ++ if not_connected (kafka_manager w) then [] else [CallSend topic message])%list.
Proof.
  destruct (not_connected (kafka_manager w)) eqn:N.
  - exists false, w. rewrite (publish_message_not_connected _ _ _ N).
    split; [reflexivity|]. split; [reflexivity|].
    split; [split; [discriminate | intros [? _]; discriminate] | now rewrite app_nil_r].
  - eexists _, _. rewrite (publish_message_connected _ _ _ N).
    split; [reflexivity|]. split; [reflexivity|].
    split; [tauto | reflexivity].
Qed.

Variable topics_config : list PyDict.

(** X10.  Without an admin client, or when a topic specification has no
    ["name"], [ensure_topics_exist] returns [False] and nothing else
    happens: no request reaches the cluster. *)
Theorem ensure_topics_exist_fails_without_request (w : World) :
  admin_client (kafka_manager w) = None \/ topics_of topics_config = None ->
  ensure_topics_exist topics_config w = (Ok false, w).
Proof.
  intro H.
  destruct (admin_client (kafka_manager w)) as [a|] eqn:A.
  - destruct H as [H | H]; [discriminate|].
    rewrite (ensure_topics_exist_spec topics_config w) by congruence.
    now rewrite H.
  - unfold ensure_topics_exist. run. now rewrite A.
Qed.

(** X11.  With an admin client and named specifications,
    [ensure_topics_exist] makes exactly one call on the client: a single
    creation request for all the topics, in the order of the
    specifications, with one partition and a replication factor of one
    where a specification gives none; the request is made for an empty
    list as well.  The manager is left as it was. *)
Theorem ensure_topics_exist_sends_one_request (topics : list NewTopic) (w : World) :
  admin_client (kafka_manager w) <> None ->
  topics_of topics_config = Some topics ->
  exists b w',
    ensure_topics_exist topics_config w = (Ok b, w') /\
    calls (cluster w') = (calls (cluster w) ++ [CallCreateTopics topics])%list /\
    kafka_manager w' = kafka_manager w /\
    length topics = length topics_config /\
    Forall2 (fun config t =>
               dict_lookup config "name" = Some (topic_name t) /\
               num_partitions t = dict_get config "partitions" (VInt 1) /\
               replication_factor t = dict_get config "replication" (VInt 1))
            topics_config topics.
Proof.
  intros A T.
  rewrite (ensure_topics_exist_spec topics_config w A), T.
  eexists _, _. split; [reflexivity|]. split; [reflexivity|]. split; [reflexivity|].
  assert (F : Forall2 (fun config t =>
               dict_lookup config "name" = Some (topic_name t) /\
               num_partitions t = dict_get config "partitions" (VInt 1) /\
               replication_factor t = dict_get config "replication" (VInt 1))
            topics_config topics).
  { clear A. revert topics T.
    induction topics_config as [|config rest IH]; intros topics T; cbn in T.
    - injection T as <-. constructor.
    - destruct (dict_lookup config "name") as [name|] eqn:L; [|discriminate].
      destruct (topics_of rest) as [more|]; [|discriminate].
      injection T as <-. constructor; [now rewrite L | now apply IH]. }
  split; [symmetry; exact (Forall2_length _ _ _ F) | exact F].
Qed.

End ManagerExtras.

Section CloseExtras.

Variable answers : CloseAnswers.

(** What [close] does, step by step. *)
Lemma close_effect (w : World) :
  exists w',
    close answers w = (Ok tt, w') /\
    producer (kafka_manager w') = producer (kafka_manager w) /\
    admin_client (kafka_manager w') = admin_client (kafka_manager w) /\
    bootstrap_servers (kafka_manager w') = bootstrap_servers (kafka_manager w) /\
    client_id (kafka_manager w') = client_id (kafka_manager w) /\
    is_connected (kafka_manager w')
    = (if close_fails answers w then is_connected (kafka_manager w) else false) /\
    calls (cluster w')
    = (calls (cluster w)
       ++ if is_not_None (producer (kafka_manager w)) then [CallFlush] else [])%list.
Proof.
  unfold close, close_fails, producer_flush, client_close, set_is_connected.
  destruct answers as [pc ac]. cbn [producer_close admin_close].
  run.
  destruct (producer (kafka_manager w)) as [p|] eqn:P,
           (admin_client (kafka_manager w)) as [a|] eqn:A;
    cbn;
    try destruct (flush_outcome (cluster w) (length (calls (cluster w)))) as [ef|];
    try destruct pc as [ep|]; try destruct ac as [ea|]; cbn;
    eexists; (split; [reflexivity|]); cbn;
    rewrite ?app_nil_r, ?P, ?A; repeat split; reflexivity.
Qed.

(** X12.  [close] never raises and never resets the two handles.  It
    flushes once exactly when there is a producer, and it clears the
    connected flag only when no step raises: if the flush or one of the
    two [close()] calls raises, the flag keeps the value it had.  On a
    manager without handles it makes no call and clears the flag. *)
Theorem close_clears_flag_unless_a_step_raises (w : World) :
  exists w',
    close answers w = (Ok tt, w') /\
    producer (kafka_manager w') = producer (kafka_manager w) /\
    admin_client (kafka_manager w') = admin_client (kafka_manager w) /\
    bootstrap_servers (kafka_manager w') = bootstrap_servers (kafka_manager w) /\
    client_id (kafka_manager w') = client_id (kafka_manager w) /\
    is_connected (kafka_manager w')
    = (if close_fails answers w then is_connected (kafka_manager w) else false) /\
    calls (cluster w')
    = (calls (cluster w)
       ++ if is_not_None (producer (kafka_manager w)) then [CallFlush] else [])%list.
Proof. exact (close_effect w). Qed.

(** X13.  After a [close] in which no step raised, nothing is published
    any more: [publish_message] returns [False] and [publish_batch]
    returns 0 without any call on the client, although the producer handle
    is still stored and [get_connection_status] still reports it as
    available. *)
Theorem nothing_is_published_after_close (topic : string) (message : PyDict)
    (messages : list PyDict) (w : World) :
  close_fails answers w = false ->
  let w1 := snd (close answers w) in
  publish_message topic message w1 = (Ok false, w1) /\
  publish_batch topic messages w1 = (Ok 0%Z, w1) /\
  exists st,
    get_connection_status w1 = (Ok st, w1) /\
    connected st = false /\
    producer_available st = is_not_None (producer (kafka_manager w)) /\
    admin_client_available st = is_not_None (admin_client (kafka_manager w)).
Proof.
  intros NF w1.
  destruct (close_effect w) as (w' & E & P & A & _ & _ & C & _).
  assert (W : w1 = w') by (unfold w1; now rewrite E). rewrite W. clear W w1.
  rewrite NF in C.
  assert (N : not_connected (kafka_manager w') = true).
  { unfold not_connected. now rewrite C. }
  split; [now apply publish_message_not_connected|].
  split; [unfold publish_batch; run; now rewrite N|].
  eexists. unfold get_connection_status. run.
  split; [reflexivity|]. cbn. now rewrite C, P, A.
Qed.

End CloseExtras.

Section StartupExtras.

(** What [initialize] leaves behind: the flag is off, the cluster saw no
    call, and the admin client is stored as soon as it opened. *)
Lemma initialize_effect (w : World) :
  exists w',
    initialize w = (Ok (Some false), w') /\
    is_connected (kafka_manager w') = false /\
    bootstrap_servers (kafka_manager w') = bootstrap_servers (kafka_manager w) /\
    client_id (kafka_manager w') = client_id (kafka_manager w) /\
    cluster w' = cluster w /\
    simulator w' = simulator w /\
    statistics w' = statistics w /\
    random w' = random w /\
    clock w' = clock w /\
    (open_admin (cluster w) (bootstrap_servers (kafka_manager w))
       (client_id (kafka_manager w) ++ "_admin") = None ->
     admin_client (kafka_manager w') <> None).
Proof.
  unfold initialize, KafkaAdminClient, KafkaProducer, self_getattr,
    set_admin_client, set_producer, set_is_connected.
  run.
  destruct (open_admin _ _ _) as [e1|] eqn:E1; cbn.
  { eexists. split; [reflexivity|]. repeat split; discriminate. }
  destruct (open_producer _ _ _) as [e2|] eqn:E2; cbn.
  { eexists. split; [reflexivity|]. repeat split; discriminate. }
  eexists. split; [reflexivity|]. repeat split; discriminate.
Qed.

(** X14.  The admin client that [initialize] opened stays usable although
    [initialize] reported failure, and whether or not the producer opened:
    a following [ensure_topics_exist] sends its one creation request,
    which is the first call the cluster sees, and returns [True] when the
    request succeeds or raises an exception whose class name contains
    [TopicAlreadyExistsException].  The connected flag stays off. *)
Theorem ensure_topics_exist_works_after_initialize (topics_config : list PyDict)
    (topics : list NewTopic) (w : World) :
  open_admin (cluster w) (bootstrap_servers (kafka_manager w))
    (client_id (kafka_manager w) ++ "_admin") = None ->
  topics_of topics_config = Some topics ->
  exists w2,
    ensure_topics_exist topics_config (snd (initialize w))
    = (Ok match create_topics_outcome (cluster w) (length (calls (cluster w))) topics with
          | None => true
          | Some e => str_contains "TopicAlreadyExistsException" (type_str e)
          end, w2) /\
    calls (cluster w2) = (calls (cluster w) ++ [CallCreateTopics topics])%list /\
    is_connected (kafka_manager w2) = false.
Proof.
  intros OA T.
  destruct (initialize_effect w) as (w1 & E & C & _ & _ & CL & _ & _ & _ & _ & A).
  rewrite E. cbn [snd].
  rewrite (ensure_topics_exist_spec topics_config w1 (A OA)), T, CL.
  eexists. split; [reflexivity|]. split; [reflexivity | exact C].
Qed.

(** X15.  After [initialize], whatever the cluster answered, the service
    reports itself unhealthy and not ready, and the three sensor endpoints
    refuse every request with status 503, without generating or
    publishing anything. *)
Theorem service_is_unavailable_after_initialize (w : World) :
  let w1 := snd (initialize w) in
  health_check w1
  = (Ok {| health_status := "unhealthy"; service := "iot_sensor_producer";
           kafka_connected := false; topics := ["sensors"; "alerts"] |}, w1) /\
  readiness_check w1
  = (Raise (HTTPException 503 "Service not ready: Kafka connection unavailable"), w1) /\
  (forall count,
     trigger_sensors count w1
     = (Raise (HTTPException 503 "Kafka connection unavailable. Check service health."),
        w1)) /\
  (forall sensor_id temperature humidity pressure,
     trigger_single_sensor sensor_id temperature humidity pressure w1
     = (Raise (HTTPException 503 "Kafka connection unavailable"), w1)) /\
  (forall anomaly_type sensor_id,
     simulate_anomaly anomaly_type sensor_id w1
     = (Raise (HTTPException 503 "Kafka unavailable"), w1)).
Proof.
  intro w1.
  destruct (initialize_effect w) as (w' & E & C & _).
  assert (W : w1 = w') by (unfold w1; now rewrite E). rewrite W. clear W w1 E.
  unfold health_check, readiness_check, trigger_sensors, trigger_single_sensor,
    simulate_anomaly, get_connection_status.
  run. rewrite C. cbn. repeat split.
Qed.

(** X16.  The startup of the application never reaches its [yield]: with
    every configuration and every cluster it ends in [sys.exit(1)], either
    because the configuration is invalid or because [initialize] returned
    [False].  No topic is created, the cluster sees no call at all, and
    the simulator is not built. *)
Theorem lifespan_startup_always_exits (config : AppConfig)
    (topics_config : list PyDict) (w : World) :
  exists w',
    lifespan_startup config topics_config w = (Ok (SysExit 1), w') /\
    cluster w' = cluster w /\
    simulator w' = simulator w /\
    statistics w' = statistics w /\
    (validate_config config = false -> w' = w) /\
    (validate_config config = true ->
     is_connected (kafka_manager w') = false /\
     bootstrap_servers (kafka_manager w') = cfg_bootstrap_servers (cfg_kafka config) /\
     client_id (kafka_manager w') = cfg_client_id (cfg_kafka config)).
Proof.
  unfold lifespan_startup.
  destruct (validate_config config) eqn:V; cbn [negb].
  - set (w0 := set_kafka_manager
                 (KafkaService.init (cfg_bootstrap_servers (cfg_kafka config))
                                    (cfg_client_id (cfg_kafka config))) w).
    destruct (initialize_effect w0) as (w' & E & C & B & I & CL & S & ST & _).
    exists w'. split.
    + unfold modify. run. fold w0. rewrite E. reflexivity.
    + rewrite CL, S, ST, B, I. repeat split; try discriminate. exact C.
  - exists w. repeat split; discriminate.
Qed.

End StartupExtras.

(* ===================================================================== *)
(** * More on the sensor endpoints *)
(* ===================================================================== *)

Section EndpointLemmas.

(** A custom reading with valid fields, and what its generation leaves
    alone. *)
Lemma generate_custom_spec (sensor_id : string) (temperature humidity : Q)
    (pressure battery_level : option Q) (w : World) :
  normal_ranges (simulator w) = normal_ranges Simulator.init ->
  0 <= next_random w < 1 ->
  15 <= temperature /\ temperature <= 35 ->
  20 <= humidity /\ humidity <= 95 ->
  match battery_level with
  | Some b => 0 <= b /\ b <= 1
  | None => True
  end ->
  exists d w',
    generate_custom_sensor_data sensor_id temperature humidity pressure battery_level w
    = (Ok d, w') /\
    simulator w' = simulator w /\ kafka_manager w' = kafka_manager w /\
    statistics w' = statistics w /\ cluster w' = cluster w /\
    Models.sensor_id d = sensor_id /\
    Models.temperature d = temperature /\
    Models.humidity d = humidity /\
    match battery_level with
    | Some b => Models.battery_level d = b
    | None => 0.3 <= Models.battery_level d /\ Models.battery_level d <= 1
    end.
Proof.
  intros Hr Hu Ht Hh Hb.
  pose proof (drawn_battery_range w Hr Hu) as [B0 B1].
  unfold spec_battery, next_random in B0, B1. cbv zeta in B0, B1.
  unfold generate_custom_sensor_data, random_gauss, random_uniform, utcnow,
    new_SensorData.
  destruct pressure as [p|], battery_level as [b|]; run;
    cbn -[round2 Qplus Qmult Qminus SensorData_valid];
    match goal with
    | |- context [SensorData_valid ?D] =>
        pose proof (SensorData_valid_iff D) as V;
        cbn -[round2 Qplus Qmult Qminus SensorData_valid] in V;
        destruct (SensorData_valid D)
    end;
    first [ eexists _, _; split; [reflexivity|]; cbn -[round2 Qplus Qmult Qminus];
            repeat split; try reflexivity; assumption
          | exfalso;
            assert (false = true) by (apply V; intuition (try lra)); discriminate ].
Qed.

Lemma alerts_of_type_app (dimension : string) (l k : list SensorAlert) :
  alerts_of_type dimension (l ++ k) = (alerts_of_type dimension l ++ alerts_of_type dimension k)%list.
Proof. apply List.filter_app. Qed.

Lemma alerts_of_type_typed (d' dimension : string) (l : list SensorAlert) :
  Forall (fun a => alert_type a = dimension) l ->
  alerts_of_type d' l = if String.eqb dimension d' then l else [].
Proof.
  intro T. induction T as [|a l Ta _ IH]; [now destruct (String.eqb _ _)|].
  unfold alerts_of_type in *. cbn [List.filter]. rewrite Ta, IH.
  now destruct (String.eqb dimension d').
Qed.

(** The four checks of [detect_anomalies], each described in full: at most
    one alert, silent exactly when no bound is crossed, and sound. *)
Lemma detect_anomalies_classified (sensor_data : SensorData) (w : World) :
  exists l1 l2 l3 l4 w',
    detect_anomalies sensor_data w = (Ok (((l1 ++ l2) ++ l3) ++ l4)%list, w') /\
    clock_only w w' /\
    let th := alert_thresholds (simulator w) in
    let sound := fun dimension : string =>
      Forall (fun a => alert_type a = dimension /\
                       alert_sensor_id a = sensor_id sensor_data /\
                       crosses th sensor_data a) in
    (l1 = [] <-> temperature sensor_data < lhc_critical (at_temperature th) /\
                 temperature sensor_data < lhc_high (at_temperature th) /\
                 lhc_low (at_temperature th) < temperature sensor_data) /\
    (l2 = [] <-> humidity sensor_data < lhc_critical (at_humidity th) /\
                 humidity sensor_data < lhc_high (at_humidity th) /\
                 lhc_low (at_humidity th) < humidity sensor_data) /\
    (l3 = [] <-> pressure sensor_data < lh_high (at_pressure th) /\
                 lh_low (at_pressure th) < pressure sensor_data) /\
    (l4 = [] <-> lc_critical (at_battery th) < battery_level sensor_data /\
                 lc_low (at_battery th) < battery_level sensor_data) /\
    (sound "temperature" l1 /\ sound "humidity" l2 /\
     sound "pressure" l3 /\ sound "battery" l4) /\
    (length l1 <= 1 /\ length l2 <= 1 /\ length l3 <= 1 /\ length l4 <= 1)%nat.
Proof.
  destruct (detect_anomalies_exact sensor_data w)
    as (l1 & l2 & l3 & l4 & w' & E & F & Q1 & Q2 & Q3 & Q4 & S1 & S2 & S3 & S4).
  destruct (detect_anomalies_shape sensor_data w)
    as (k1 & k2 & k3 & k4 & w'' & E' & _ & M1 & M2 & M3 & M4).
  exists l1, l2, l3, l4, w'. split; [exact E|]. split; [exact F|].
  cbv zeta. split; [exact Q1|]. split; [exact Q2|]. split; [exact Q3|].
  split; [exact Q4|]. split; [tauto|].
  rewrite E in E'. injection E' as EQ _.
  assert (L : forall k dimension, at_most_one_of dimension w k -> (length k <= 1)%nat).
  { intros k dimension [-> | (a & -> & _)]; cbn; lia. }
  assert (TS : forall dimension (l : list SensorAlert),
             Forall (fun a => alert_type a = dimension /\
                              alert_sensor_id a = sensor_id sensor_data /\
                              crosses (alert_thresholds (simulator w)) sensor_data a) l ->
             Forall (fun a => alert_type a = dimension) l).
  { intros dimension l Sl. induction Sl as [|a l [Ta _] _ IH]; constructor; assumption. }
  assert (TM : forall dimension (k : list SensorAlert),
             at_most_one_of dimension w k ->
             Forall (fun a => alert_type a = dimension) k).
  { intros dimension k [-> | (a & -> & Ta & _)]; repeat constructor. exact Ta. }
  pose proof (fun d' => f_equal (alerts_of_type d') EQ) as P.
  pose proof (P "temperature") as P1. pose proof (P "humidity") as P2.
  pose proof (P "pressure") as P3. pose proof (P "battery") as P4.
  clear P.
  rewrite !alerts_of_type_app in P1, P2, P3, P4.
  rewrite (alerts_of_type_typed "temperature" _ _ (TS _ _ S1)),
    (alerts_of_type_typed "temperature" _ _ (TS _ _ S2)),
    (alerts_of_type_typed "temperature" _ _ (TS _ _ S3)),
    (alerts_of_type_typed "temperature" _ _ (TS _ _ S4)),
    (alerts_of_type_typed "temperature" _ _ (TM _ _ M1)),
    (alerts_of_type_typed "temperature" _ _ (TM _ _ M2)),
    (alerts_of_type_typed "temperature" _ _ (TM _ _ M3)),
    (alerts_of_type_typed "temperature" _ _ (TM _ _ M4)) in P1.
  rewrite (alerts_of_type_typed "humidity" _ _ (TS _ _ S1)),
    (alerts_of_type_typed "humidity" _ _ (TS _ _ S2)),
    (alerts_of_type_typed "humidity" _ _ (TS _ _ S3)),
    (alerts_of_type_typed "humidity" _ _ (TS _ _ S4)),
    (alerts_of_type_typed "humidity" _ _ (TM _ _ M1)),
    (alerts_of_type_typed "humidity" _ _ (TM _ _ M2)),
    (alerts_of_type_typed "humidity" _ _ (TM _ _ M3)),
    (alerts_of_type_typed "humidity" _ _ (TM _ _ M4)) in P2.
  rewrite (alerts_of_type_typed "pressure" _ _ (TS _ _ S1)),
    (alerts_of_type_typed "pressure" _ _ (TS _ _ S2)),
    (alerts_of_type_typed "pressure" _ _ (TS _ _ S3)),
    (alerts_of_type_typed "pressure" _ _ (TS _ _ S4)),
    (alerts_of_type_typed "pressure" _ _ (TM _ _ M1)),
    (alerts_of_type_typed "pressure" _ _ (TM _ _ M2)),
    (alerts_of_type_typed "pressure" _ _ (TM _ _ M3)),
    (alerts_of_type_typed "pressure" _ _ (TM _ _ M4)) in P3.
  rewrite (alerts_of_type_typed "battery" _ _ (TS _ _ S1)),
    (alerts_of_type_typed "battery" _ _ (TS _ _ S2)),
    (alerts_of_type_typed "battery" _ _ (TS _ _ S3)),
    (alerts_of_type_typed "battery" _ _ (TS _ _ S4)),
    (alerts_of_type_typed "battery" _ _ (TM _ _ M1)),
    (alerts_of_type_typed "battery" _ _ (TM _ _ M2)),
    (alerts_of_type_typed "battery" _ _ (TM _ _ M3)),
    (alerts_of_type_typed "battery" _ _ (TM _ _ M4)) in P4.
  cbn in P1, P2, P3, P4.
  repeat rewrite List.app_nil_r in P1. repeat rewrite List.app_nil_r in P2.
  repeat rewrite List.app_nil_r in P3. repeat rewrite List.app_nil_r in P4.
  rewrite P1, P2, P3, P4.
  repeat split; eapply L; eassumption.
Qed.

End EndpointLemmas.

Section EndpointExtras.

(** With a producer behind the connected flag, the alert loop sends every
    alert, in order, to the alerts topic. *)
Lemma publish_alerts_loop_connected (alerts : list SensorAlert) :
  forall (alerts_generated : Z) (w : World),
    not_connected (kafka_manager w) = false ->
    exists (n : Z) (w' : World),
      publish_alerts_loop alerts alerts_generated w = (Ok n, w') /\
      publish_frame w w' /\
      calls (cluster w')
      = (calls (cluster w)
         ++ map (fun a => CallSend ALERT_TOPIC (SensorAlert_dict a)) alerts)%list.
Proof.
  induction alerts as [|alert rest IH]; intros acc w N.
  - exists acc, w. cbn. rewrite app_nil_r. repeat split.
  - cbn [publish_alerts_loop].
    rewrite (bind_ok _ _ _ _ _ (publish_message_connected ALERT_TOPIC _ w N)).
    set (w1 := set_cluster _ w).
    assert (N1 : not_connected (kafka_manager w1) = false) by exact N.
    assert (Step : forall acc',
               exists n w',
                 publish_alerts_loop rest acc' w1 = (Ok n, w') /\
                 publish_frame w w' /\
                 calls (cluster w')
                 = (calls (cluster w)
                    ++ map (fun a => CallSend ALERT_TOPIC (SensorAlert_dict a))
                         (alert :: rest))%list).
    { intro acc'. destruct (IH acc' w1 N1) as (n & w' & E & F & C).
      exists n, w'. split; [exact E|]. split; [exact F|].
      rewrite C. cbn. now rewrite <- app_assoc. }
    destruct (delivered _ _ _ _); apply Step.
Qed.

Variable sensor_id : string.

(** X17.  A single custom reading, on a manager whose connected flag is
    set and with query parameters inside the bounds FastAPI checks: the
    reading is generated, and then either its publish is acknowledged, the
    response reports one sensor and one event, and both counters grow by
    one; or the publish fails, the request ends in status 500, and the
    statistics are untouched.  In both cases the simulator keeps its
    event counter. *)
Theorem trigger_single_sensor_outcome (temperature humidity : Q) (pressure : option Q)
    (published triggered : Z) (w : World) :
  is_connected (kafka_manager w) = true ->
  normal_ranges (simulator w) = normal_ranges Simulator.init ->
  0 <= next_random w < 1 ->
  query_bounds temperature humidity pressure ->
  statistics w !! "total_events_published" = Some published ->
  statistics w !! "total_sensors_triggered" = Some triggered ->
  exists d w',
    fst (generate_custom_sensor_data sensor_id temperature humidity pressure None w)
    = Ok d /\
    simulator w' = simulator w /\
    if negb (not_connected (kafka_manager w))
       && delivered (cluster w) (length (calls (cluster w))) SENSOR_TOPIC
            (SensorData_dict d)
    then
      exists response,
        trigger_single_sensor sensor_id temperature humidity pressure w
        = (Ok response, w') /\
        status response = "success" /\
        sensors_triggered response = 1%Z /\
        events_published response = 1%Z /\
        statistics w' !! "total_events_published" = Some (published + 1)%Z /\
        statistics w' !! "total_sensors_triggered" = Some (triggered + 1)%Z
    else
      trigger_single_sensor sensor_id temperature humidity pressure w
      = (Raise (HTTPException 500 "Failed to publish sensor data to Kafka"), w') /\
      statistics w' = statistics w.
Proof.
  intros C Hr Hu (Ht & Hh & _) Lp Lt.
  destruct (generate_custom_spec sensor_id temperature humidity pressure None w
              Hr Hu Ht Hh I)
    as (d & w1 & E1 & S1 & K1 & ST1 & CL1 & _).
  exists d. rewrite E1. cbn [fst].
  unfold trigger_single_sensor. run. rewrite C. cbn [negb]. rewrite E1. cbn.
  destruct (not_connected (kafka_manager w)) eqn:N; cbn [negb andb].
  - rewrite publish_message_not_connected by now rewrite K1.
    cbn. exists w1. split; [reflexivity|]. split; [exact S1|]. split; [reflexivity | exact ST1].
  - rewrite publish_message_connected by now rewrite K1.
    rewrite CL1.
    destruct (delivered _ _ _ _); cbn.
    + set (w2 := set_cluster _ w1).
      assert (Lp2 : statistics w2 !! "total_events_published" = Some published)
        by (cbn; now rewrite ST1).
      rewrite (statistics_iadd_spec _ 1 _ _ Lp2). cbn.
      set (w3 := set_statistics _ w2).
      assert (Lt3 : statistics w3 !! "total_sensors_triggered" = Some triggered).
      { cbn. rewrite lookup_insert_ne by discriminate. now rewrite ST1. }
      rewrite (statistics_iadd_spec _ 1 _ _ Lt3). cbn.
      set (w4 := set_statistics _ w3).
      destruct (detect_anomalies_shape d w4)
        as (l1 & l2 & l3 & l4 & w5 & E5 & F5 & _).
      rewrite E5. cbn.
      destruct (publish_alerts_loop_spec (((l1 ++ l2) ++ l3) ++ l4) 0%Z w5)
        as (n & w6 & new_calls & E6 & F6 & _).
      rewrite E6. cbn.
      destruct F5 as (S5 & _ & ST5 & _). destruct F6 as (S6 & _ & ST6 & _).
      match goal with |- context [(Ok _, ?wf) = _] => exists wf end.
      split; [reflexivity|].
      split; [cbn; rewrite S6, S5; exact S1|].
      eexists. split; [reflexivity|]. cbn.
      rewrite ST6, ST5. cbn.
      repeat split.
      * rewrite lookup_insert_ne by discriminate. apply lookup_insert_eq.
      * apply lookup_insert_eq.
    + eexists. split; [reflexivity|]. split; [|split; [reflexivity|]]; [exact S1 | exact ST1].
Qed.

(** X18.  Each anomaly scenario raises the alert it is named after.  On a
    connected manager with the tables of [__init__] and [random()] in
    [0, 1), [simulate_anomaly] sends one reading for the given sensor to
    the sensors topic; when that send is acknowledged it then sends every
    alert detected on the reading to the alerts topic, in order, and apart
    from a possible pressure alert (the pressure is drawn) there is exactly
    one: the scenario's dimension and severity, for the given sensor.
    Both counters grow by one.  When the send fails, the request ends in
    status 500 with no alert sent and the statistics untouched. *)
Theorem simulate_anomaly_raises_its_alert (anomaly_type dimension level : string)
    (published triggered : Z) (w : World) :
  not_connected (kafka_manager w) = false ->
  default_tables w ->
  0 <= next_random w < 1 ->
  scenario_alert anomaly_type = Some (dimension, level) ->
  statistics w !! "total_events_published" = Some published ->
  statistics w !! "total_sensors_triggered" = Some triggered ->
  exists d w',
    Models.sensor_id d = sensor_id /\
    if delivered (cluster w) (length (calls (cluster w))) SENSOR_TOPIC (SensorData_dict d)
    then
      exists response alerts a,
        simulate_anomaly anomaly_type sensor_id w = (Ok response, w') /\
        calls (cluster w')
        = (calls (cluster w)
           ++ CallSend SENSOR_TOPIC (SensorData_dict d)
              :: map (fun a => CallSend ALERT_TOPIC (SensorAlert_dict a)) alerts)%list /\
        alerts_but_pressure alerts = [a] /\
        alert_type a = dimension /\ severity a = level /\
        alert_sensor_id a = sensor_id /\
        sensors_triggered response = 1%Z /\
        events_published response = 1%Z /\
        statistics w' !! "total_events_published" = Some (published + 1)%Z /\
        statistics w' !! "total_sensors_triggered" = Some (triggered + 1)%Z
    else
      simulate_anomaly anomaly_type sensor_id w
      = (Raise (HTTPException 500 "Failed to publish anomaly data"), w') /\
      calls (cluster w')
      = (calls (cluster w) ++ [CallSend SENSOR_TOPIC (SensorData_dict d)])%list /\
      statistics w' = statistics w.
Proof.
  intros N (Hr & Ha) Hu SC Lp Lt.
  assert (C : is_connected (kafka_manager w) = true).
  { unfold not_connected in N. now destruct (is_connected (kafka_manager w)). }
  assert (P : exists params,
             params_lookup anomaly_params anomaly_type = Some params /\
             (15 <= param_temperature params /\ param_temperature params <= 35) /\
             (20 <= param_humidity params /\ param_humidity params <= 95)).
  { unfold scenario_alert in SC. cbn [params_lookup anomaly_params].
    rewrite !(String.eqb_sym _ anomaly_type).
    repeat (destruct (String.eqb anomaly_type _);
            [eexists; split; [reflexivity|]; cbn; lra|]).
    discriminate. }
  destruct P as (params & PL & Ht & Hh).
  set (battery := if String.eqb anomaly_type "low_battery" then Some 0.15 else None).
  assert (Hb : match battery with Some b => 0 <= b /\ b <= 1 | None => True end).
  { unfold battery. destruct (String.eqb anomaly_type "low_battery"); [lra | exact I]. }
  destruct (generate_custom_spec sensor_id (param_temperature params)
              (param_humidity params) None battery w Hr Hu Ht Hh Hb)
    as (d & w1 & E1 & S1 & K1 & ST1 & CL1 & I1 & T1 & H1 & B1).
  exists d.
  unfold simulate_anomaly, params_getitem. rewrite PL. fold battery.
  run. rewrite C. cbn [negb]. rewrite E1. cbn.
  rewrite publish_message_connected by now rewrite K1.
  rewrite CL1.
  destruct (delivered _ _ _ _); cbn.
  2:{ eexists. split; [exact I1|]. split; [reflexivity|]. cbn.
      split; [reflexivity | exact ST1]. }
  set (w2 := set_cluster _ w1).
  destruct (detect_anomalies_classified d w2)
    as (l1 & l2 & l3 & l4 & w3 & E3 & F3 & Q1 & Q2 & Q3 & Q4 & (A1 & A2 & A3 & A4)
        & (L1 & L2 & L3 & L4)).
  cbv zeta in Q1, Q2, Q3, Q4, A1, A2, A3, A4.
  rewrite E3. cbn.
  assert (N3 : not_connected (kafka_manager w3) = false).
  { destruct F3 as (_ & K3 & _). rewrite K3. cbn. now rewrite K1. }
  destruct (publish_alerts_loop_connected (((l1 ++ l2) ++ l3) ++ l4) 0%Z w3 N3)
    as (n & w4 & E4 & F4 & C4).
  rewrite E4. cbn.
  destruct F3 as (S3 & K3 & ST3 & CL3 & _). destruct F4 as (S4 & K4 & ST4 & _).
  assert (Lp4 : statistics w4 !! "total_events_published" = Some published)
    by (rewrite ST4, ST3; cbn; now rewrite ST1).
  rewrite (statistics_iadd_spec _ 1 _ _ Lp4). cbn.
  set (w5 := set_statistics _ w4).
  assert (Lt5 : statistics w5 !! "total_sensors_triggered" = Some triggered).
  { cbn. rewrite lookup_insert_ne by discriminate. rewrite ST4, ST3. cbn. now rewrite ST1. }
  rewrite (statistics_iadd_spec _ 1 _ _ Lt5). cbn.
  assert (TH : alert_thresholds (simulator w2) = alert_thresholds Simulator.init)
    by (cbn; now rewrite S1).
  rewrite TH in Q1, Q2, Q4, A1, A2, A4.
  cbn [alert_thresholds Simulator.init at_temperature at_humidity at_battery
       lhc_low lhc_high lhc_critical lc_low lc_critical] in Q1, Q2, Q4.
  rewrite T1 in Q1. rewrite H1 in Q2.
  assert (Filter : alerts_but_pressure (((l1 ++ l2) ++ l3) ++ l4)
                   = ((l1 ++ l2) ++ l4)%list).
  { unfold alerts_but_pressure. rewrite !List.filter_app.
    assert (Keep : forall dim l,
               String.eqb dim "pressure" = false ->
               Forall (fun a => alert_type a = dim /\
                                alert_sensor_id a = Models.sensor_id d /\
                                crosses (alert_thresholds Simulator.init) d a) l ->
               List.filter (fun a => negb (String.eqb (alert_type a) "pressure")) l = l).
    { intros dim l Dim Fl. induction Fl as [|a l [Ta _] _ IH]; [reflexivity|].
      cbn [List.filter]. rewrite Ta, Dim. cbn. now rewrite IH. }
    rewrite (Keep "temperature" _ eq_refl A1), (Keep "humidity" _ eq_refl A2),
      (Keep "battery" _ eq_refl A4).
    assert (Gone : List.filter (fun a => negb (String.eqb (alert_type a) "pressure")) l3
                   = []).
    { clear - A3. induction A3 as [|a l [Ta _] _ IH]; [reflexivity|].
      cbn [List.filter]. rewrite Ta. cbn. exact IH. }
    rewrite Gone. now rewrite app_nil_r. }
  eexists. split; [exact I1|].
  eexists _, (((l1 ++ l2) ++ l3) ++ l4)%list.
  (* the one alert of the scenario *)
  assert (One : exists a,
             ((l1 ++ l2) ++ l4)%list = [a] /\
             alert_type a = dimension /\ severity a = level /\
             alert_sensor_id a = sensor_id).
  { unfold scenario_alert in SC.
    assert (Quiet : forall (l : list SensorAlert) (quiet : Prop),
               (l = [] <-> quiet) -> quiet -> l = []) by (intros; tauto).
    assert (Loud : forall (l : list SensorAlert) (quiet : Prop) (dim : string),
               (l = [] <-> quiet) -> ~ quiet -> (length l <= 1)%nat ->
               Forall (fun a => alert_type a = dim /\
                                alert_sensor_id a = Models.sensor_id d /\
                                crosses (alert_thresholds Simulator.init) d a) l ->
               exists a, l = [a] /\ alert_type a = dim /\
                         alert_sensor_id a = sensor_id /\
                         crosses (alert_thresholds Simulator.init) d a).
    { intros l quiet dim Q NQ Len Fl.
      destruct l as [|a [|b l]]; [tauto | | cbn in Len; lia].
      apply Forall_cons in Fl as [(Ta & Ia & Ca) _].
      exists a. rewrite <- I1. tauto. }
    unfold params_lookup, anomaly_params in PL.
    rewrite !(String.eqb_sym _ anomaly_type) in PL.
    unfold battery in B1.
    destruct (String.eqb anomaly_type "high_temperature") eqn:X1;
      [|destruct (String.eqb anomaly_type "low_temperature") eqn:X2;
        [|destruct (String.eqb anomaly_type "high_humidity") eqn:X3;
          [|destruct (String.eqb anomaly_type "low_humidity") eqn:X4;
            [|destruct (String.eqb anomaly_type "low_battery") eqn:X5;
              [|discriminate]]]]];
      injection SC as <- <-; injection PL as <-;
      cbn [param_temperature param_humidity] in *;
      try (apply String.eqb_eq in X1; subst anomaly_type; cbn in B1);
      try (apply String.eqb_eq in X2; subst anomaly_type; cbn in B1);
      try (apply String.eqb_eq in X3; subst anomaly_type; cbn in B1);
      try (apply String.eqb_eq in X4; subst anomaly_type; cbn in B1);
      try (apply String.eqb_eq in X5; subst anomaly_type; cbn in B1).
    - (* high_temperature *)
      rewrite (Quiet _ _ Q2) by lra.
      rewrite (Quiet _ _ Q4) by (cbn; lra).
      destruct (Loud _ _ _ Q1 ltac:(lra) L1 A1) as (a & -> & Ta & Ia & Ca).
      exists a. split; [reflexivity|]. split; [exact Ta|]. split; [|exact Ia].
      unfold crosses in Ca. rewrite Ta, T1 in Ca.
      destruct Ca as [(_ & _ & La) | [(X & _) | [(X & _) | (X & _)]]];
        try discriminate.
      unfold ladder3 in La. cbn in La.
      destruct La as [(_ & _ & La) | [(La & _) | (_ & _ & La & _)]];
        [lra | exact La | lra].
    - (* low_temperature *)
      rewrite (Quiet _ _ Q2) by lra.
      rewrite (Quiet _ _ Q4) by (cbn; lra).
      destruct (Loud _ _ _ Q1 ltac:(lra) L1 A1) as (a & -> & Ta & Ia & Ca).
      exists a. split; [reflexivity|]. split; [exact Ta|]. split; [|exact Ia].
      unfold crosses in Ca. rewrite Ta, T1 in Ca.
      destruct Ca as [(_ & _ & La) | [(X & _) | [(X & _) | (X & _)]]];
        try discriminate.
      unfold ladder3 in La. cbn in La.
      destruct La as [(_ & _ & La) | [(_ & _ & La & _) | (La & _)]];
        [lra | lra | exact La].
    - (* high_humidity *)
      rewrite (Quiet _ _ Q1) by lra.
      rewrite (Quiet _ _ Q4) by (cbn; lra).
      destruct (Loud _ _ _ Q2 ltac:(lra) L2 A2) as (a & -> & Ta & Ia & Ca).
      exists a. split; [reflexivity|]. split; [exact Ta|]. split; [|exact Ia].
      unfold crosses in Ca. rewrite Ta, H1 in Ca.
      destruct Ca as [(X & _) | [(_ & _ & La) | [(X & _) | (X & _)]]];
        try discriminate.
      unfold ladder3 in La. cbn in La.
      destruct La as [(_ & _ & La) | [(La & _) | (_ & _ & La & _)]];
        [lra | exact La | lra].
    - (* low_humidity *)
      rewrite (Quiet _ _ Q1) by lra.
      rewrite (Quiet _ _ Q4) by (cbn; lra).
      destruct (Loud _ _ _ Q2 ltac:(lra) L2 A2) as (a & -> & Ta & Ia & Ca).
      exists a. split; [reflexivity|]. split; [exact Ta|]. split; [|exact Ia].
      unfold crosses in Ca. rewrite Ta, H1 in Ca.
      destruct Ca as [(X & _) | [(_ & _ & La) | [(X & _) | (X & _)]]];
        try discriminate.
      unfold ladder3 in La. cbn in La.
      destruct La as [(_ & _ & La) | [(_ & _ & La & _) | (La & _)]];
        [lra | lra | exact La].
    - (* low_battery *)
      rewrite (Quiet _ _ Q1) by lra.
      rewrite (Quiet _ _ Q2) by lra.
      rewrite B1 in Q4.
      destruct (Loud _ _ _ Q4 ltac:(cbn; lra) L4 A4) as (a & -> & Ta & Ia & Ca).
      exists a. split; [reflexivity|]. split; [exact Ta|]. split; [|exact Ia].
      unfold crosses in Ca. rewrite Ta, B1 in Ca.
      destruct Ca as [(X & _) | [(X & _) | [(X & _) | (_ & _ & La)]]];
        try discriminate.
      cbn in La.
      destruct La as [(_ & _ & La) | (La & _)]; [lra | exact La]. }
  destruct One as (a & OneA & Ta & Sa & Ia).
  exists a. split; [reflexivity|]. cbn.
  rewrite C4, CL3. cbn.
  split; [now rewrite <- app_assoc|].
  split; [now rewrite Filter|].
  repeat split; try assumption.
  - rewrite lookup_insert_ne by discriminate. apply lookup_insert_eq.
  - apply lookup_insert_eq.
Qed.

(** X19.  An anomaly type that is none of the five scenarios is refused
    before anything is generated: on a connected manager the request ends
    in status 500, whose detail is the text of the [KeyError], that is the
    anomaly type as [repr] prints it, in quotes; and the world is as
    before: no draw, no reading of the clock, no send. *)
Theorem simulate_anomaly_rejects_unknown_type (anomaly_type : string) (w : World) :
  is_connected (kafka_manager w) = true ->
  scenario_alert anomaly_type = None ->
  simulate_anomaly anomaly_type sensor_id w
  = (Raise (HTTPException 500 (py_repr anomaly_type)), w).
Proof.
  intros C SC.
  assert (PL : params_lookup anomaly_params anomaly_type = None).
  { unfold scenario_alert in SC. cbn [params_lookup anomaly_params].
    rewrite !(String.eqb_sym _ anomaly_type).
    repeat (destruct (String.eqb anomaly_type _); [discriminate|]).
    reflexivity. }
  unfold simulate_anomaly, params_getitem. rewrite PL.
  run. rewrite C. reflexivity.
Qed.

End EndpointExtras.

(* ===================================================================== *)
(** * The statistics endpoints *)
(* ===================================================================== *)

Section StatisticsExtras.

(** X20.  [reset_statistics] sets both counters to zero and reports the
    values they had; every other key of the statistics, the simulator, the
    manager and the cluster are left alone.  A [get_statistics] that
    follows reports zero for both counters, together with the brokers of
    the manager. *)
Theorem reset_statistics_zeroes_both_counters (published triggered : Z) (w : World) :
  statistics w !! "total_events_published" = Some published ->
  statistics w !! "total_sensors_triggered" = Some triggered ->
  exists response w',
    reset_statistics w = (Ok response, w') /\
    reset_status response = "success" /\
    previous_events_published response = published /\
    previous_sensors_triggered response = triggered /\
    statistics w' !! "total_events_published" = Some 0%Z /\
    statistics w' !! "total_sensors_triggered" = Some 0%Z /\
    (forall key : string,
       key <> "total_events_published" -> key <> "total_sensors_triggered" ->
       statistics w' !! key = statistics w !! key) /\
    simulator w' = simulator w /\ kafka_manager w' = kafka_manager w /\
    cluster w' = cluster w /\
    exists report w'',
      get_statistics w' = (Ok report, w'') /\
      total_events_published report = 0%Z /\
      total_sensors_triggered report = 0%Z /\
      kafka_brokers report = bootstrap_servers (kafka_manager w).
Proof.
  intros Lp Lt.
  unfold reset_statistics, get_statistics, get_connection_status,
    statistics_getitem, statistics_setitem, utcnow.
  run. rewrite Lp. cbn. rewrite Lt. cbn.
  eexists _, _. split; [reflexivity|]. cbn.
  split; [reflexivity|]. split; [reflexivity|]. split; [reflexivity|].
  assert (Z1 : (<["total_sensors_triggered" := 0%Z]>
                  (<["total_events_published" := 0%Z]> (statistics w)) : gmap string Z)
               !! "total_events_published" = Some 0%Z).
  { rewrite lookup_insert_ne by discriminate. apply lookup_insert_eq. }
  assert (Z2 : (<["total_sensors_triggered" := 0%Z]>
                  (<["total_events_published" := 0%Z]> (statistics w)) : gmap string Z)
               !! "total_sensors_triggered" = Some 0%Z)
    by apply lookup_insert_eq.
  split; [exact Z1|]. split; [exact Z2|].
  split.
  { intros key K1 K2. rewrite !lookup_insert_ne by congruence. reflexivity. }
  split; [reflexivity|]. split; [reflexivity|]. split; [reflexivity|].
  rewrite Z1. cbn. rewrite Z2. cbn.
  eexists _, _. split; [reflexivity|]. repeat split.
Qed.

(** X21.  [reset_statistics] is all or nothing: when one of the two
    counters is missing from the statistics, the request ends in status
    500, whose detail names the first missing counter in quotes, and
    nothing is changed; in particular the counter that is there is not set
    to zero. *)
Theorem reset_statistics_is_all_or_nothing (w : World) :
  statistics w !! "total_events_published" = None \/
  statistics w !! "total_sensors_triggered" = None ->
  exists key,
    (key = "total_events_published" \/ key = "total_sensors_triggered") /\
    statistics w !! key = None /\
    reset_statistics w
    = (Raise (HTTPException 500 ("Failed to reset statistics: '" ++ key ++ "'")), w).
Proof.
  intro H.
  unfold reset_statistics, statistics_getitem, statistics_setitem, utcnow. run.
  destruct (statistics w !! "total_events_published") as [p|] eqn:Lp; cbn.
  - destruct H as [H | H]; [discriminate|]. rewrite H. cbn.
    exists "total_sensors_triggered".
    split; [now right|]. split; [exact H | reflexivity].
  - exists "total_events_published".
    split; [now left|]. split; [exact Lp | reflexivity].
Qed.

End StatisticsExtras.

(* ===================================================================== *)
(** * The further properties on the sample worlds *)
(* ===================================================================== *)

(** The nominal reading is inside the bands: no alert. *)
Lemma detect_anomalies_silent_iff_inside_bands_witness :
  exists alerts w',
    detect_anomalies (sample_reading 0.85) (fresh_world [] 0) = (Ok alerts, w') /\
    (alerts = [] <-> inside_bands (sample_reading 0.85)).
Proof.
  apply (detect_anomalies_silent_iff_inside_bands (sample_reading 0.85)
           (fresh_world [] 0)).
  reflexivity.
Defined.

Lemma generated_reading_raises_no_battery_alert_witness :
  exists d w1 alerts w2,
    generate_sensor_data "sensor_001" (fresh_world [] 0) = (Ok d, w1) /\
    0.3 <= battery_level d /\
    detect_anomalies d w1 = (Ok alerts, w2) /\
    alerts_of_type "battery" alerts = [].
Proof.
  apply (generated_reading_raises_no_battery_alert "sensor_001" (fresh_world [] 0)).
  - split; reflexivity.
  - split; [discriminate | reflexivity].
Defined.

(** The default query of [trigger_single_sensor] is accepted. *)
Lemma generate_custom_accepts_exactly_valid_fields_witness :
  exists d,
    fst (generate_custom_sensor_data "sensor_custom" 22.5 55 None None (fresh_world [] 0))
    = Ok d /\
    temperature d = 22.5 /\ humidity d = 55.
Proof.
  destruct (generate_custom_accepts_exactly_valid_fields "sensor_custom" 22.5 55
              None None (fresh_world [] 0)) as [Accepted _].
  - reflexivity.
  - split; [discriminate | reflexivity].
  - destruct Accepted as (d & E & _ & T & H & _).
    + repeat split; discriminate.
    + exists d. split; [exact E|]. split; [exact T | exact H].
Defined.


Lemma generate_batch_readings_witness :
  exists batch w',
    generate_batch 3 (fresh_world [] 0) = (Ok batch, w') /\
    length batch = 3%nat /\
    map sensor_id batch = ["sensor_001"; "sensor_002"; "sensor_003"] /\
    Forall in_ranges batch /\
    event_counter (simulator w') = 3%Z.
Proof.
  apply (generate_batch_readings 3 (fresh_world [] 0)).
  - reflexivity.
  - intro n. split; [discriminate | reflexivity].
Defined.

Lemma generate_batch_ids_are_distinct_witness :
  exists batch w',
    generate_batch 3 (fresh_world [] 0) = (Ok batch, w') /\
    List.NoDup (map sensor_id batch).
Proof.
  apply (generate_batch_ids_are_distinct 3 (fresh_world [] 0)).
  - reflexivity.
  - intro n. split; [discriminate | reflexivity].
Defined.

(** No admin client before [initialize]. *)
Lemma ensure_topics_exist_fails_without_request_witness :
  ensure_topics_exist sample_topics_config (fresh_world [] 0)
  = (Ok false, fresh_world [] 0).
Proof.
  apply (ensure_topics_exist_fails_without_request sample_topics_config
           (fresh_world [] 0)).
  left. reflexivity.
Defined.

(** One request for the two topics of the service. *)
Lemma ensure_topics_exist_sends_one_request_witness :
  exists b w',
    ensure_topics_exist sample_topics_config (connected_world [] 0) = (Ok b, w') /\
    calls (cluster w')
    = [CallCreateTopics
         [ {| topic_name := VStr "sensors"; num_partitions := VInt 1;
              replication_factor := VInt 1 |};
           {| topic_name := VStr "alerts"; num_partitions := VInt 1;
              replication_factor := VInt 1 |} ]].
Proof.
  destruct (ensure_topics_exist_sends_one_request sample_topics_config _
              (connected_world [] 0) ltac:(discriminate) eq_refl)
    as (b & w' & E & C & _).
  exists b, w'. split; [exact E | exact C].
Defined.

Lemma nothing_is_published_after_close_witness :
  publish_message "sensors" [] (snd (close clean_close (connected_world [] 0)))
  = (Ok false, snd (close clean_close (connected_world [] 0))) /\
  publish_batch "sensors" sample_payloads (snd (close clean_close (connected_world [] 0)))
  = (Ok 0%Z, snd (close clean_close (connected_world [] 0))).
Proof.
  destruct (nothing_is_published_after_close clean_close "sensors" [] sample_payloads
              (connected_world [] 0) eq_refl) as (P & B & _).
  split; [exact P | exact B].
Defined.

(** The topics are created right after the failed [initialize]. *)
Lemma ensure_topics_exist_works_after_initialize_witness :
  exists w2,
    ensure_topics_exist sample_topics_config (snd (initialize (fresh_world [] 0)))
    = (Ok true, w2) /\
    is_connected (kafka_manager w2) = false.
Proof.
  destruct (ensure_topics_exist_works_after_initialize sample_topics_config _
              (fresh_world [] 0) eq_refl eq_refl) as (w2 & E & _ & C).
  exists w2. split; [exact E | exact C].
Defined.

(** The default query on a connected process: published, counters at 1. *)
Lemma trigger_single_sensor_outcome_witness :
  exists response w',
    trigger_single_sensor "sensor_custom" 22.5 55 None (connected_world [] 0)
    = (Ok response, w') /\
    events_published response = 1%Z /\
    statistics w' !! "total_events_published" = Some 1%Z /\
    statistics w' !! "total_sensors_triggered" = Some 1%Z.
Proof.
  destruct (trigger_single_sensor_outcome "sensor_custom" 22.5 55 None 0 0
              (connected_world [] 0)) as (d & w' & E & _ & H).
  - reflexivity.
  - reflexivity.
  - split; [discriminate | reflexivity].
  - repeat split; discriminate.
  - vm_compute. reflexivity.
  - vm_compute. reflexivity.
  - cbn [negb andb not_connected connected_world set_kafka_manager kafka_manager
         connected_manager is_connected producer orb] in H.
    assert (D : delivered (cluster (connected_world [] 0))
                  (length (calls (cluster (connected_world [] 0)))) SENSOR_TOPIC
                  (SensorData_dict d) = true) by reflexivity.
    rewrite D in H. destruct H as (response & R & _ & _ & P & Lp & Lt).
    exists response, w'. split; [exact R|]. split; [exact P|].
    split; [exact Lp | exact Lt].
Defined.

(** The scenario [high_temperature]: one temperature alert of severity
    high. *)
Lemma simulate_anomaly_raises_its_alert_witness :
  exists response alerts a w',
    simulate_anomaly "high_temperature" "sensor_anomaly_test" (connected_world [] 0)
    = (Ok response, w') /\
    alerts_but_pressure alerts = [a] /\
    alert_type a = "temperature" /\ severity a = "high" /\
    statistics w' !! "total_events_published" = Some 1%Z.
Proof.
  destruct (simulate_anomaly_raises_its_alert "sensor_anomaly_test" "high_temperature"
              "temperature" "high" 0 0 (connected_world [] 0))
    as (d & w' & _ & H).
  - reflexivity.
  - split; reflexivity.
  - split; [discriminate | reflexivity].
  - reflexivity.
  - vm_compute. reflexivity.
  - vm_compute. reflexivity.
  - assert (D : delivered (cluster (connected_world [] 0))
                  (length (calls (cluster (connected_world [] 0)))) SENSOR_TOPIC
                  (SensorData_dict d) = true) by reflexivity.
    rewrite D in H.
    destruct H as (response & alerts & a & R & _ & F & Ta & Sa & _ & _ & _ & Lp & _).
    exists response, alerts, a, w'. split; [exact R|]. split; [exact F|].
    split; [exact Ta|]. split; [exact Sa | exact Lp].
Defined.

Lemma simulate_anomaly_rejects_unknown_type_witness :
  simulate_anomaly "melted" "sensor_anomaly_test" (connected_world [] 0)
  = (Raise (HTTPException 500 "'melted'"), connected_world [] 0).
Proof.
  apply (simulate_anomaly_rejects_unknown_type "sensor_anomaly_test" "melted"
           (connected_world [] 0)); reflexivity.
Defined.

(** Seven events for nine sensors, then a reset. *)
Lemma reset_statistics_zeroes_both_counters_witness :
  exists response w',
    reset_statistics counted_world = (Ok response, w') /\
    previous_events_published response = 7%Z /\
    previous_sensors_triggered response = 9%Z /\
    statistics w' !! "total_events_published" = Some 0%Z /\
    statistics w' !! "total_sensors_triggered" = Some 0%Z.
Proof.
  destruct (reset_statistics_zeroes_both_counters 7 9 counted_world)
    as (response & w' & E & _ & P & T & Z1 & Z2 & _).
  - vm_compute. reflexivity.
  - vm_compute. reflexivity.
  - exists response, w'. repeat split; assumption.
Defined.

(** Both counters are missing: the first one is named. *)
Lemma reset_statistics_is_all_or_nothing_witness :
  reset_statistics uncounted_world
  = (Raise (HTTPException 500 "Failed to reset statistics: 'total_events_published'"),
     uncounted_world).
Proof.
  destruct (reset_statistics_is_all_or_nothing uncounted_world)
    as (key & [K | K] & L & E).
  - left. vm_compute. reflexivity.
  - rewrite K in E. exact E.
  - exfalso. rewrite K in E.
    pose proof (f_equal fst E) as P. vm_compute in P. discriminate P.
Defined.
